(** * gnatprove2xls: the report parser of [gnatprove2xls.py]

    A shallow embedding of [parse_gnatprove_report], of the helpers
    [to_percent], [analysis_type] and [count_unit_totals], and of
    [save_results] as the calls it makes on the sheets of the workbook.

    - Text is a [string] of 8-bit characters, read as the code points below
      256 of the decoded file; in that range [\d] is exactly ['0'..'9'].
    - The dictionaries built by the parser have fixed keys and are records;
      [None] is [option].
    - Exceptions are an explicit error type threaded by a small error monad.
    - Python's unbounded [int] is [Z]; [int(s)] has the interpreter's
      default limit of 4300 digits.
    - Python's [float] is the binary64 format of the [SpecFloat] library;
      [/] on two integers is the division of that library applied to the
      integers themselves, with [OverflowError] where it gives an
      infinity. *)

From Stdlib Require Import String Ascii List ZArith Bool Lia.
From Stdlib Require Import DecimalString DecimalZ SpecFloat.
Import ListNotations.

Local Open Scope string_scope.
Local Open Scope list_scope.

(* ------------------------------------------------------------------ *)
(** ** Characters and strings, as Python's [str] treats them *)

Module PyStr.

Definition LF : ascii := "010"%char.
Definition CR : ascii := "013"%char.

Definition is_LF (c : ascii) : bool := Ascii.eqb c LF.

(** [\d] on code points below 256. *)
Definition is_digit (c : ascii) : bool :=
  let n := nat_of_ascii c in (48 <=? n)%nat && (n <=? 57)%nat.

(** [str.isspace] on code points below 256: 9..13, 28..32, 0x85, 0xA0. *)
Definition is_space (c : ascii) : bool :=
  let n := nat_of_ascii c in
  ((9 <=? n)%nat && (n <=? 13)%nat) || ((28 <=? n)%nat && (n <=? 32)%nat)
  || (n =? 133)%nat || (n =? 160)%nat.

Fixpoint all_digits (s : string) : bool :=
  match s with
  | EmptyString => true
  | String c s' => is_digit c && all_digits s'
  end.

Definition digit_val (c : ascii) : Z := Z.of_nat (nat_of_ascii c) - 48.

Fixpoint int_acc (acc : Z) (s : string) : Z :=
  match s with
  | EmptyString => acc
  | String c s' => int_acc (10 * acc + digit_val c) s'
  end.

(** [sys.int_info.default_max_str_digits]: the program leaves the limit
    of the interpreter as it is. *)
Definition int_max_str_digits : nat := 4300.

(** [int(s)] for the strings the parser passes to it.  A non-empty string
    of at most [int_max_str_digits] digits, leading zeros counted, is read
    in base 10; anything else is reported as [None], which the parser
    turns into [ValueError]. *)
Definition int (s : string) : option Z :=
  match s with
  | EmptyString => None
  | _ =>
      if all_digits s && (String.length s <=? int_max_str_digits)%nat
      then Some (int_acc 0 s) else None
  end.

Fixpoint lstrip (s : string) : string :=
  match s with
  | EmptyString => EmptyString
  | String c s' => if is_space c then lstrip s' else s
  end.

Fixpoint rstrip (s : string) : string :=
  match s with
  | EmptyString => EmptyString
  | String c s' =>
      match rstrip s' with
      | EmptyString => if is_space c then EmptyString else String c EmptyString
      | r => String c r
      end
  end.

(** [s.strip()] *)
Definition strip (s : string) : string := rstrip (lstrip s).

(** Text mode with universal newlines: ["\r\n"] and a lone ["\r"] both
    reach the program as ["\n"]. *)
Fixpoint universal_newlines (s : string) : string :=
  match s with
  | EmptyString => EmptyString
  | String c s' =>
      if Ascii.eqb c CR then
        match s' with
        | String d s'' =>
            if Ascii.eqb d LF then String LF (universal_newlines s'')
            else String LF (universal_newlines s')
        | EmptyString => String LF EmptyString
        end
      else String c (universal_newlines s')
  end.

(** The lines a text yields when iterated over: each keeps its ["\n"];
    only the last one may lack it. *)
Fixpoint iter_lines (s : string) : list string :=
  match s with
  | EmptyString => []
  | String c s' =>
      if is_LF c then String c EmptyString :: iter_lines s'
      else match iter_lines s' with
           | [] => [String c EmptyString]
           | l :: ls => String c l :: ls
           end
  end.

(** [for line in open(filename, 'r')], on the decoded content of the file. *)
Definition readlines (content : string) : list string :=
  iter_lines (universal_newlines content).

End PyStr.

(* ------------------------------------------------------------------ *)
(** ** The fragment of [re] the program uses *)

Module Re.

(** Character classes under [+]. *)
Inductive cls : Type :=
| Dot     (* [.]  : any character but a newline *)
| Digit.  (* [\d] *)

Definition in_cls (k : cls) (c : ascii) : bool :=
  match k with
  | Dot => negb (PyStr.is_LF c)
  | Digit => PyStr.is_digit c
  end.

(** A pattern is a sequence of literal text, greedy capturing groups
    [(k+)] and end anchors [$].  A leading [^] is not represented: it is
    redundant under [match], and no pattern used with [search] has one. *)
Inductive tok : Type :=
| Lit (p : string)
| Cap (k : cls)
| Eol.

Definition regex := list tok.

(** The groups of a match, group 1 first. *)
Definition groups := list string.

(** [m.group(i)], for [i >= 1]. *)
Definition group (m : groups) (i : nat) : string := nth (i - 1) m "".

Fixpoint strip_prefix (p s : string) : option string :=
  match p with
  | EmptyString => Some s
  | String a p' =>
      match s with
      | String b s' => if Ascii.eqb a b then strip_prefix p' s' else None
      | EmptyString => None
      end
  end.

(** [$] without [MULTILINE]: at the end of the string, or just before a
    newline that ends the string. *)
Definition at_eol (s : string) : bool :=
  match s with
  | EmptyString => true
  | String c EmptyString => PyStr.is_LF c
  | _ => false
  end.

(** One or more characters of class [k], the longest run first, giving back
    one character at a time while the continuation fails. *)
Fixpoint greedy {R : Type} (k : cls) (cont : string -> string -> option R)
         (s : string) : option R :=
  match s with
  | EmptyString => None
  | String a s' =>
      if in_cls k a then
        match greedy k (fun cap rest => cont (String a cap) rest) s' with
        | Some r => Some r
        | None => cont (String a EmptyString) s'
        end
      else None
  end.

(** Backtracking match of [r] at the start of [s]; [caps] are the groups
    closed so far. *)
Fixpoint match_here (r : regex) (s : string) (caps : groups) : option groups :=
  match r with
  | [] => Some caps
  | Lit p :: r' =>
      match strip_prefix p s with
      | Some s' => match_here r' s' caps
      | None => None
      end
  | Cap k :: r' => greedy k (fun cap rest => match_here r' rest (caps ++ [cap])) s
  | Eol :: r' => if at_eol s then match_here r' s caps else None
  end.

(** [r.match(s)] *)
Definition rmatch (r : regex) (s : string) : option groups := match_here r s [].

(** [r.search(s)]: the match at the leftmost position that has one. *)
Fixpoint search (r : regex) (s : string) : option groups :=
  match match_here r s [] with
  | Some m => Some m
  | None =>
      match s with
      | EmptyString => None
      | String _ s' => search r s'
      end
  end.

End Re.

Import Re.

(** ** The patterns of the program *)

(** [^Analyzed (\d+) units$] *)
Definition analysis_re : regex :=
  [Lit "Analyzed "; Cap Digit; Lit " units"; Eol].

(** [^in unit (.+), (\d+) subprograms and packages out of (\d+) analyzed$] *)
Definition unit_re : regex :=
  [Lit "in unit "; Cap Dot; Lit ", "; Cap Digit;
   Lit " subprograms and packages out of "; Cap Digit; Lit " analyzed"; Eol].

(** [^  (.+) at (.+):(\d+)] *)
Definition file_re : regex :=
  [Lit "  "; Cap Dot; Lit " at "; Cap Dot; Lit ":"; Cap Digit].

(** [^  (.+) at (.+):(\d+), instantiated at (.+):(\d+)] *)
Definition gen_file_re : regex :=
  [Lit "  "; Cap Dot; Lit " at "; Cap Dot; Lit ":"; Cap Digit;
   Lit ", instantiated at "; Cap Dot; Lit ":"; Cap Digit].

(** [flow analyzed \((\d+) errors and (\d+) warnings\)] *)
Definition flow_re : regex :=
  [Lit "flow analyzed ("; Cap Digit; Lit " errors and "; Cap Digit;
   Lit " warnings)"].

(** [proved \((\d+) checks\)$] *)
Definition proved_re : regex :=
  [Lit "proved ("; Cap Digit; Lit " checks)"; Eol].

(** [not proved, (\d+) checks out of (\d+) proved$] *)
Definition not_proved_re : regex :=
  [Lit "not proved, "; Cap Digit; Lit " checks out of "; Cap Digit;
   Lit " proved"; Eol].

(** [^    (.+):(\d+):(\d+): (.+)$] *)
Definition suppr_msg_re : regex :=
  [Lit "    "; Cap Dot; Lit ":"; Cap Digit; Lit ":"; Cap Digit; Lit ": ";
   Cap Dot; Eol].

(* ------------------------------------------------------------------ *)
(** ** Exceptions *)

Inductive exn : Type :=
| TypeError          (* subscripting [None] *)
| IndexError         (* [[-1]] on an empty list *)
| ValueError         (* [int] on a string it does not convert *)
| OverflowError      (* [/] with a quotient too large for a float *)
| ZeroDivisionError. (* [/] by zero *)

Inductive result (A : Type) : Type :=
| Ok (a : A)
| Raise (e : exn).

Arguments Ok {A} a.
Arguments Raise {A} e.

Definition bind {A B : Type} (m : result A) (f : A -> result B) : result B :=
  match m with
  | Ok a => f a
  | Raise e => Raise e
  end.

Notation "x <- m ;; k" := (bind m (fun x => k))
  (at level 61, m at next level, right associativity).

(** [int(s)] with its exception. *)
Definition py_int (s : string) : result Z :=
  match PyStr.int s with
  | Some z => Ok z
  | None => Raise ValueError
  end.

(* ------------------------------------------------------------------ *)
(** ** Floats *)

Module PyFloat.

(** Binary64: 53 bits of mantissa, infinities at exponent 1024. *)
Definition prec : Z := 53.
Definition emax : Z := 1024.

(** An integer as the operand of a division: the integer itself, with
    exponent 0, whatever its size. *)
Definition of_int (z : Z) : spec_float :=
  match z with
  | Z0 => S754_zero false
  | Zpos p => S754_finite false p 0
  | Zneg p => S754_finite true p 0
  end.

(** [a / b] on two integers: the quotient of the integers, rounded once,
    to the nearest float, ties to even. *)
Definition truediv (a b : Z) : result spec_float :=
  if (b =? 0)%Z then Raise ZeroDivisionError
  else
    match SFdiv prec emax (of_int a) (of_int b) with
    | S754_infinity _ => Raise OverflowError
    | f => Ok f
    end.

(** [1.0] *)
Definition one : spec_float := S754_finite false 4503599627370496 (-52).

End PyFloat.

(* ------------------------------------------------------------------ *)
(** ** The data model: the dictionaries the parser builds *)

Module Suppression.
Record t : Type := mk {
  fileName : string;
  lineNumber : string;
  column : string;
  message : string
}.
End Suppression.

Module Item.
Record t : Type := mk {
  name : string;
  fileName : string;
  lineNumber : string;
  instFileName : option string;
  instLineNumber : option string;
  suppressions : list Suppression.t;
  numFlowErrors : Z;
  numFlowWarnings : Z;
  numChecks : Z;
  numProvedChecks : Z;
  flowAnalyzed : bool;
  proved : bool
}.

Definition set_flow (e w : Z) (i : t) : t :=
  mk (name i) (fileName i) (lineNumber i) (instFileName i) (instLineNumber i)
     (suppressions i) e w (numChecks i) (numProvedChecks i) true (proved i).

Definition set_proof (checks provedChecks : Z) (i : t) : t :=
  mk (name i) (fileName i) (lineNumber i) (instFileName i) (instLineNumber i)
     (suppressions i) (numFlowErrors i) (numFlowWarnings i) checks provedChecks
     (flowAnalyzed i) true.

Definition add_suppression (s : Suppression.t) (i : t) : t :=
  mk (name i) (fileName i) (lineNumber i) (instFileName i) (instLineNumber i)
     (suppressions i ++ [s]) (numFlowErrors i) (numFlowWarnings i)
     (numChecks i) (numProvedChecks i) (flowAnalyzed i) (proved i).
End Item.

Module Unit.
Record t : Type := mk {
  name : string;
  numAnalyzed : Z;
  numTotal : Z;
  items : list Item.t
}.

Definition set_items (l : list Item.t) (u : t) : t :=
  mk (name u) (numAnalyzed u) (numTotal u) l.
End Unit.

Module Report.
Record t : Type := mk {
  numUnitsAnalyzed : option Z;
  units : list Unit.t
}.
End Report.

(* ------------------------------------------------------------------ *)
(** ** [parse_gnatprove_report] *)

(** What the loop carries from one line to the next: the dictionary
    [results] and the local [currentUnit]. *)
Record state : Type := mkState {
  results : Report.t;
  currentUnit : option Unit.t
}.

Definition init_state : state :=
  mkState (Report.mk None []) None.

(** [results['units'].append(currentUnit)] under [if currentUnit:]; the
    dictionary of a unit has four keys, so it is true whenever it is not
    [None]. *)
Definition seal (st : state) : list Unit.t :=
  match currentUnit st with
  | Some u => Report.units (results st) ++ [u]
  | None => Report.units (results st)
  end.

(** [analysis_re] *)
Definition on_analysis (line : string) (st : state) : result state :=
  match rmatch analysis_re line with
  | Some m =>
      n <- py_int (group m 1) ;;
      Ok (mkState (Report.mk (Some n) (Report.units (results st)))
                  (currentUnit st))
  | None => Ok st
  end.

(** [unit_re]: the unit under construction is saved, a new one starts. *)
Definition on_unit (line : string) (st : state) : result state :=
  match rmatch unit_re line with
  | Some m =>
      let saved := seal st in
      a <- py_int (group m 2) ;;
      t <- py_int (group m 3) ;;
      Ok (mkState (Report.mk (Report.numUnitsAnalyzed (results st)) saved)
                  (Some (Unit.mk (group m 1) a t [])))
  | None => Ok st
  end.

(** The dictionary [item] as first built, from [gen_file_match] when there
    is one and from [file_match] otherwise. *)
Definition new_item (file_match gen_file_match : option groups)
  : option Item.t :=
  match gen_file_match, file_match with
  | Some g, _ =>
      Some (Item.mk (group g 1) (group g 2) (group g 3)
                    (Some (group g 4)) (Some (group g 5))
                    [] 0 0 0 0 false false)
  | None, Some f =>
      Some (Item.mk (group f 1) (group f 2) (group f 3) None None
                    [] 0 0 0 0 false false)
  | None, None => None
  end.

Definition apply_flow (line : string) (item : Item.t) : result Item.t :=
  match search flow_re line with
  | Some m =>
      e <- py_int (group m 1) ;;
      w <- py_int (group m 2) ;;
      Ok (Item.set_flow e w item)
  | None => Ok item
  end.

Definition apply_proved (line : string) (item : Item.t) : result Item.t :=
  match search proved_re line with
  | Some m =>
      c <- py_int (group m 1) ;;
      p <- py_int (group m 1) ;;
      Ok (Item.set_proof c p item)
  | None => Ok item
  end.

Definition apply_not_proved (line : string) (item : Item.t) : result Item.t :=
  match search not_proved_re line with
  | Some m =>
      c <- py_int (group m 2) ;;
      p <- py_int (group m 1) ;;
      Ok (Item.set_proof c p item)
  | None => Ok item
  end.

(** The item as it is when appended: the three clauses are looked for in
    the whole line, one after the other. *)
Definition build_item (line : string) (item : Item.t) : result Item.t :=
  item <- apply_flow line item ;;
  item <- apply_proved line item ;;
  apply_not_proved line item.

(** [file_re] and [gen_file_re] *)
Definition on_item (line : string) (st : state) : result state :=
  let file_match := rmatch file_re line in
  let gen_file_match := rmatch gen_file_re line in
  match new_item file_match gen_file_match with
  | Some item =>
      item <- build_item line item ;;
      match currentUnit st with
      | Some u =>
          Ok (mkState (results st)
                      (Some (Unit.set_items (Unit.items u ++ [item]) u)))
      | None => Raise TypeError
      end
  | None => Ok st
  end.

(** [l[-1] = f(l[-1])], which needs a last element. *)
Fixpoint update_last {A : Type} (f : A -> A) (l : list A) : option (list A) :=
  match l with
  | [] => None
  | [x] => Some [f x]
  | x :: l' =>
      match update_last f l' with
      | Some r => Some (x :: r)
      | None => None
      end
  end.

(** [suppr_msg_re]: the suppression goes to the last item read. *)
Definition on_suppr (line : string) (st : state) : result state :=
  match rmatch suppr_msg_re line with
  | Some m =>
      match currentUnit st with
      | Some u =>
          let s := Suppression.mk (group m 1) (group m 2) (group m 3)
                                  (PyStr.strip (group m 4)) in
          match update_last (Item.add_suppression s) (Unit.items u) with
          | Some items' =>
              Ok (mkState (results st) (Some (Unit.set_items items' u)))
          | None => Raise IndexError
          end
      | None => Raise TypeError
      end
  | None => Ok st
  end.

(** One turn of the loop: the four tests are made on every line, in this
    order, each on the state the previous one left. *)
Definition step (line : string) (st : state) : result state :=
  st <- on_analysis line st ;;
  st <- on_unit line st ;;
  st <- on_item line st ;;
  on_suppr line st.

(** [for line in file: ...] *)
Fixpoint loop (lines : list string) (st : state) : result state :=
  match lines with
  | [] => Ok st
  | line :: rest => st' <- step line st ;; loop rest st'
  end.

(** The loop, then the unit still under construction is saved. *)
Definition parse_lines (lines : list string) : result Report.t :=
  st <- loop lines init_state ;;
  Ok (Report.mk (Report.numUnitsAnalyzed (results st)) (seal st)).

(** [parse_gnatprove_report(filename)], on the content of the file. *)
Definition parse_gnatprove_report (content : string) : result Report.t :=
  parse_lines (PyStr.readlines content).

(* ------------------------------------------------------------------ *)
(** ** The helpers of the exporter *)

(** *** The calls made to the spreadsheet library

    A sheet is the list of the [write(row, column, value, style)] calls
    made on it, in the order they are made; the workbook that is saved is
    the list of its sheets.  The library itself is not modelled: what it
    does with a call, and what it refuses, is not part of this file. *)
Module Xls.

Inductive style : Type :=
| Plain     (* no style given *)
| Percent   (* [style_percent]: num_format_str='0%' *)
| Bold.     (* [style_bold]: font: bold on *)

(** The values the program hands to [write]: [str], [int], [float]. *)
Inductive value : Type :=
| Str (s : string)
| Int (z : Z)
| Float (f : spec_float).

Record cell : Type := mk {
  row : nat;
  col : nat;
  val : value;
  sty : style
}.

Definition sheet : Type := list cell.
Definition workbook : Type := list (string * sheet).

End Xls.

(** [to_percent]: the integer [1], or the float [num / denom]. *)
Definition to_percent (num denom : Z) : result Xls.value :=
  if (denom =? 0)%Z then Ok (Xls.Int 1)
  else f <- PyFloat.truediv num denom ;; Ok (Xls.Float f).

Inductive analysis : Type :=
| FlowAndProof   (* 'flow + proof' *)
| FlowOnly       (* 'flow only' *)
| ProofOnly      (* 'proof only' *)
| NotAnalyzed.   (* 'not analyzed' *)

Definition analysis_type (item : Item.t) : analysis :=
  if Item.flowAnalyzed item then
    if Item.proved item then FlowAndProof else FlowOnly
  else
    if Item.proved item then ProofOnly else NotAnalyzed.

Definition analysis_label (a : analysis) : string :=
  match a with
  | FlowAndProof => "flow + proof"
  | FlowOnly => "flow only"
  | ProofOnly => "proof only"
  | NotAnalyzed => "not analyzed"
  end.

(** [count_unit_totals]: the five counters, in the order returned. *)
Definition count_unit_totals (unit : Unit.t) : Z * Z * Z * Z * Z :=
  fold_left
    (fun '(flowErrors, flowWarnings, checks, provedChecks, suppressions) item =>
       ((flowErrors + Item.numFlowErrors item)%Z,
        (flowWarnings + Item.numFlowWarnings item)%Z,
        (checks + Item.numChecks item)%Z,
        (provedChecks + Item.numProvedChecks item)%Z,
        (suppressions + Z.of_nat (length (Item.suppressions item)))%Z))
    (Unit.items unit) (0%Z, 0%Z, 0%Z, 0%Z, 0%Z).


(** [str(z)], as ['{}'.format] prints an integer. *)
Definition format_int (z : Z) : string := NilZero.string_of_int (Z.to_int z).

(** A [for] loop over [l] that shares the counter [row] with its body:
    the body makes its calls and gives the counter back.  This is the loop
    whose body raises nothing. *)
Fixpoint for_each {A : Type} (body : nat -> A -> Xls.sheet * nat)
         (l : list A) (row : nat) : Xls.sheet * nat :=
  match l with
  | [] => ([], row)
  | x :: rest =>
      let (ws, row1) := body row x in
      let (ws', row2) := for_each body rest row1 in
      (ws ++ ws', row2)
  end.

(** The same loop with a body that may raise: the exception ends the
    loop, and [save_results] with it before the workbook is saved, so that
    the calls made until then are of no effect. *)
Fixpoint try_each {A : Type} (body : nat -> A -> result (Xls.sheet * nat))
         (l : list A) (row : nat) : result (Xls.sheet * nat) :=
  match l with
  | [] => Ok ([], row)
  | x :: rest =>
      r1 <- body row x ;;
      r2 <- try_each body rest (snd r1) ;;
      Ok (fst r1 ++ fst r2, snd r2)
  end.

Definition header_row (titles : list string) : Xls.sheet :=
  map (fun '(c, t) => Xls.mk 0 c (Xls.Str t) Xls.Bold)
      (combine (seq 0 (length titles)) titles).

(** The body of the loop over the units, 'Summary' sheet. *)
Definition summary_row (row : nat) (unit : Unit.t) : result Xls.sheet :=
  let '(flowErrors, flowWarnings, checks, provedChecks, suppressions) :=
    count_unit_totals unit in
  percent <- (if (0 <? checks)%Z then
                ratio <- to_percent provedChecks checks ;;
                Ok [Xls.mk row 6 ratio Xls.Percent]
              else Ok []) ;;
  Ok ([Xls.mk row 0 (Xls.Str (Unit.name unit)) Xls.Plain;
       Xls.mk row 1
         (Xls.Str (format_int (Unit.numAnalyzed unit) ++ "/" ++
                   format_int (Unit.numTotal unit))) Xls.Plain;
       Xls.mk row 2 (Xls.Int flowErrors) Xls.Plain;
       Xls.mk row 3 (Xls.Int flowWarnings) Xls.Plain;
       Xls.mk row 4 (Xls.Int checks) Xls.Plain;
       Xls.mk row 5 (Xls.Int provedChecks) Xls.Plain] ++
      percent ++
      [Xls.mk row 7 (Xls.Int suppressions) Xls.Plain]).

(** The body of the loop over the items, 'Details' sheet. *)
Definition details_row (row : nat) (item : Item.t) : result Xls.sheet :=
  percent <- (if Item.proved item then
                if (0 <? Item.numChecks item)%Z then
                  ratio <- to_percent (Item.numProvedChecks item)
                                      (Item.numChecks item) ;;
                  Ok [Xls.mk row 8 ratio Xls.Percent]
                else Ok []
              else Ok []) ;;
  Ok ([Xls.mk row 0 (Xls.Str (Item.name item)) Xls.Plain;
       Xls.mk row 1 (Xls.Str (Item.fileName item)) Xls.Plain;
       Xls.mk row 2 (Xls.Str (Item.lineNumber item)) Xls.Plain;
       Xls.mk row 3 (Xls.Str (analysis_label (analysis_type item)))
              Xls.Plain] ++
      (if Item.flowAnalyzed item then
         [Xls.mk row 4 (Xls.Int (Item.numFlowErrors item)) Xls.Plain;
          Xls.mk row 5 (Xls.Int (Item.numFlowWarnings item)) Xls.Plain]
       else []) ++
      (if Item.proved item then
         [Xls.mk row 6 (Xls.Int (Item.numChecks item)) Xls.Plain;
          Xls.mk row 7 (Xls.Int (Item.numProvedChecks item)) Xls.Plain] ++
         percent
       else [])).

(** The body of the loop over the suppressions of an item, 'Suppressed
    Messages' sheet. *)
Definition suppr_row (row : nat) (item : Item.t) (suppr : Suppression.t)
  : Xls.sheet :=
  [Xls.mk row 0 (Xls.Str (Item.name item)) Xls.Plain;
   Xls.mk row 1 (Xls.Str (Suppression.fileName suppr)) Xls.Plain;
   Xls.mk row 2 (Xls.Str (Suppression.lineNumber suppr)) Xls.Plain;
   Xls.mk row 3 (Xls.Str (Suppression.column suppr)) Xls.Plain;
   Xls.mk row 4 (Xls.Str (Suppression.message suppr)) Xls.Plain].

Definition summary_sheet (results : Report.t) : result Xls.sheet :=
  rows <- try_each (fun row unit =>
                      ws <- summary_row row unit ;; Ok (ws, S row))
                   (Report.units results) 1 ;;
  Ok (header_row ["Unit Name"; "Analyzed"; "Flow Errors"; "Flow Warnings";
                  "Checks"; "Proved Checks"; "% Proved"; "Suppressions"] ++
      fst rows).

Definition details_sheet (results : Report.t) : result Xls.sheet :=
  rows <- try_each
            (fun row unit =>
               try_each (fun row item =>
                           ws <- details_row row item ;; Ok (ws, S row))
                        (Unit.items unit) row)
            (Report.units results) 1 ;;
  Ok (header_row ["Name"; "File"; "Line"; "Analysis"; "Flow Warnings";
                  "Flow Errors"; "Checks"; "Proved Checks"; "% Proved"] ++
      fst rows).

Definition suppressed_sheet (results : Report.t) : Xls.sheet :=
  header_row ["Name"; "File"; "Line"; "Column"; "Reason"] ++
  fst (for_each
         (fun row unit =>
            for_each
              (fun row item =>
                 for_each (fun row suppr => (suppr_row row item suppr, S row))
                          (Item.suppressions item) row)
              (Unit.items unit) row)
         (Report.units results) 1).

(** [save_results(results, filename)]: the workbook that is saved, when
    no sheet raises. *)
Definition save_results (results : Report.t) : result Xls.workbook :=
  summary <- summary_sheet results ;;
  details <- details_sheet results ;;
  Ok [("Summary", summary);
      ("Details", details);
      ("Suppressed Messages", suppressed_sheet results)].

(* ------------------------------------------------------------------ *)
(** ** Vocabulary of the statements *)

Definition nl : string := String PyStr.LF EmptyString.

Module Shape.

Local Open Scope string_scope.

Fixpoint all_in (k : cls) (s : string) : bool :=
  match s with
  | EmptyString => true
  | String c s' => in_cls k c && all_in k s'
  end.

(** [shape r s caps]: [s] starts with text of the form [r], whose groups
    are [caps]. *)
Fixpoint shape (r : regex) (s : string) (caps : groups) : Prop :=
  match r with
  | [] => caps = []
  | Lit p :: r' => exists s', s = p ++ s' /\ shape r' s' caps
  | Cap k :: r' =>
      exists cap rest caps',
        s = cap ++ rest /\ cap <> "" /\ all_in k cap = true /\
        caps = cap :: caps' /\ shape r' rest caps'
  | Eol :: r' => at_eol s = true /\ shape r' s caps
  end.

End Shape.

Import Shape.

(** [True] of a match object, [False] of [None]. *)
Definition matches (r : regex) (line : string) : bool :=
  match rmatch r line with Some _ => true | None => false end.

Definition found (r : regex) (line : string) : bool :=
  match search r line with Some _ => true | None => false end.

(** The four line shapes, as the loop tests them. *)
Definition summary_line (line : string) : bool := matches analysis_re line.
Definition header_line (line : string) : bool := matches unit_re line.
Definition item_line (line : string) : bool :=
  matches file_re line || matches gen_file_re line.
Definition suppr_line (line : string) : bool := matches suppr_msg_re line.

Definition count_true (l : list bool) : nat := length (filter (fun b => b) l).

(** How many of the four tests of the loop succeed on a line. *)
Definition recognizers_applied (line : string) : nat :=
  count_true [summary_line line; header_line line; item_line line;
              suppr_line line].

(** How many of the three trailing clauses are found in a line. *)
Definition clauses_fired (line : string) : nat :=
  count_true [found flow_re line; found proved_re line;
              found not_proved_re line].

(** What a unit-header line says: name, analyzed, total. *)
Definition header (line : string) : option (string * Z * Z) :=
  match rmatch unit_re line with
  | Some m =>
      match PyStr.int (group m 2), PyStr.int (group m 3) with
      | Some a, Some t => Some (group m 1, a, t)
      | _, _ => None
      end
  | None => None
  end.

Definition headers (lines : list string) : list (string * Z * Z) :=
  flat_map (fun l => match header l with Some h => [h] | None => [] end) lines.

Definition unit_key (u : Unit.t) : string * Z * Z :=
  (Unit.name u, Unit.numAnalyzed u, Unit.numTotal u).

(** [P] and [C] of a clause "not proved, P checks out of C proved". *)
Definition not_proved_clause (line : string) : option (Z * Z) :=
  match search not_proved_re line with
  | Some m =>
      match PyStr.int (group m 1), PyStr.int (group m 2) with
      | Some p, Some c => Some (p, c)
      | _, _ => None
      end
  | None => None
  end.

(** [C] of a clause "proved (C checks)". *)
Definition proved_clause (line : string) : option Z :=
  match search proved_re line with
  | Some m => PyStr.int (group m 1)
  | None => None
  end.

(** [E] and [W] of a clause "flow analyzed (E errors and W warnings)". *)
Definition flow_clause (line : string) : option (Z * Z) :=
  match search flow_re line with
  | Some m =>
      match PyStr.int (group m 1), PyStr.int (group m 2) with
      | Some e, Some w => Some (e, w)
      | _, _ => None
      end
  | None => None
  end.

(** What the clauses found in [line] make of a fresh [item]. *)
Definition built (line : string) (item : Item.t) : Item.t :=
  let item :=
    match flow_clause line with
    | Some (e, w) => Item.set_flow e w item
    | None => item
    end in
  let item :=
    match proved_clause line with
    | Some c => Item.set_proof c c item
    | None => item
    end in
  match not_proved_clause line with
  | Some (p, c) => Item.set_proof c p item
  | None => item
  end.

(** The item a line gives, as it is when appended: there is none when the
    line is no item line, and none when [int] fails on a clause. *)
Definition item_of_line (line : string) : option Item.t :=
  match new_item (rmatch file_re line) (rmatch gen_file_re line) with
  | Some item =>
      match build_item line item with
      | Ok item' => Some item'
      | Raise _ => None
      end
  | None => None
  end.

Definition is_some {A : Type} (o : option A) : bool :=
  match o with Some _ => true | None => false end.

(** [int] converts the numbers of the clauses found in the line. *)
Definition clauses_convert (line : string) : bool :=
  implb (found flow_re line) (is_some (flow_clause line)) &&
  implb (found proved_re line) (is_some (proved_clause line)) &&
  implb (found not_proved_re line) (is_some (not_proved_clause line)).

(** There is no last item to take a suppression. *)
Definition no_current_item (st : state) : Prop :=
  match currentUnit st with
  | None => True
  | Some u => Unit.items u = []
  end.

Definition all_items (us : list Unit.t) : list Item.t :=
  flat_map Unit.items us.

(** *** Well-formed input

    What the tests of the loop need of the lines read so far: whether a
    unit is under construction, and whether it has an item. *)
Inductive context : Type :=
| NoUnit      (* no header line yet *)
| EmptyUnit   (* a unit with no item yet *)
| HasItem.    (* a unit with a last item *)

Definition context_of (st : state) : context :=
  match currentUnit st with
  | None => NoUnit
  | Some u => match Unit.items u with [] => EmptyUnit | _ :: _ => HasItem end
  end.

(** The count of a summary line. *)
Definition summary_count (line : string) : option Z :=
  match rmatch analysis_re line with
  | Some m => PyStr.int (group m 1)
  | None => None
  end.

(** [int] converts every number that the tests of the loop read in the
    line: the count of a summary line, the two counts of a header line,
    the counts of the clauses of an item line. *)
Definition converts (line : string) : bool :=
  implb (summary_line line) (is_some (summary_count line)) &&
  implb (header_line line) (is_some (header line)) &&
  implb (item_line line) (clauses_convert line).

(** The effect of a line on the context: its numbers are converted first;
    then a header line opens an empty unit, an item line needs a unit, a
    suppression line needs an item. *)
Definition context_step (line : string) (c : context) : result context :=
  if converts line then
    let c := if header_line line then EmptyUnit else c in
    c <- (if item_line line then
            match c with NoUnit => Raise TypeError | _ => Ok HasItem end
          else Ok c) ;;
    if suppr_line line then
      match c with
      | NoUnit => Raise TypeError
      | EmptyUnit => Raise IndexError
      | HasItem => Ok HasItem
      end
    else Ok c
  else Raise ValueError.

Fixpoint context_loop (lines : list string) (c : context) : result context :=
  match lines with
  | [] => Ok c
  | line :: rest => c' <- context_step line c ;; context_loop rest c'
  end.

(** [int] converts every number read, every item line comes after a
    header line, and every suppression line comes when the unit under
    construction has an item, be it the item of this very line. *)
Definition well_formed (lines : list string) : bool :=
  match context_loop lines NoUnit with Ok _ => true | Raise _ => false end.

(** [s] is the state of the loop on lines that come after a first report
    with units [P], where [s0] is its state on these lines alone: either
    both have the same unit under construction, or the lines have not
    opened a unit yet and the last unit of [P] is still open in [s]. *)
Definition resumed (P : list Unit.t) (s0 s : state) : Prop :=
  (currentUnit s0 = currentUnit s /\
   Report.units (results s) = P ++ Report.units (results s0)) \/
  (currentUnit s0 = None /\ seal s = P ++ Report.units (results s0)).

(** The last character of the text is a newline. *)
Fixpoint terminated (s : string) : bool :=
  match s with
  | EmptyString => false
  | String c EmptyString => PyStr.is_LF c
  | String _ s' => terminated s'
  end.

(** *** What the lines of a report state *)

(** The count of the last summary line, if there is one. *)
Definition last_summary (lines : list string) : option Z :=
  fold_left (fun acc line =>
               match summary_count line with Some n => Some n | None => acc end)
            lines None.

(** The suppression a line states. *)
Definition suppression_of_line (line : string) : option Suppression.t :=
  match rmatch suppr_msg_re line with
  | Some m =>
      Some (Suppression.mk (group m 1) (group m 2) (group m 3)
                           (PyStr.strip (group m 4)))
  | None => None
  end.

Definition opt_list {A : Type} (o : option A) : list A :=
  match o with Some a => [a] | None => [] end.

Definition items_of_lines (lines : list string) : list Item.t :=
  flat_map (fun l => opt_list (item_of_line l)) lines.

Definition suppressions_of_lines (lines : list string) : list Suppression.t :=
  flat_map (fun l => opt_list (suppression_of_line l)) lines.

(** An item without its suppressions: what its own line made of it. *)
Definition without_suppressions (i : Item.t) : Item.t :=
  Item.mk (Item.name i) (Item.fileName i) (Item.lineNumber i)
          (Item.instFileName i) (Item.instLineNumber i) []
          (Item.numFlowErrors i) (Item.numFlowWarnings i)
          (Item.numChecks i) (Item.numProvedChecks i)
          (Item.flowAnalyzed i) (Item.proved i).

Definition all_suppressions (us : list Unit.t) : list Suppression.t :=
  flat_map Item.suppressions (all_items us).

(** No count of the item is negative. *)
Definition item_counts_nonneg (i : Item.t) : Prop :=
  (0 <= Item.numFlowErrors i /\ 0 <= Item.numFlowWarnings i /\
   0 <= Item.numChecks i /\ 0 <= Item.numProvedChecks i)%Z.

Definition sum (l : list Z) : Z := fold_right Z.add 0%Z l.

(** Sum of two results of [count_unit_totals]. *)
Definition totals_add (a b : Z * Z * Z * Z * Z) : Z * Z * Z * Z * Z :=
  let '(a1, a2, a3, a4, a5) := a in
  let '(b1, b2, b3, b4, b5) := b in
  ((a1 + b1)%Z, (a2 + b2)%Z, (a3 + b3)%Z, (a4 + b4)%Z, (a5 + b5)%Z).

Fixpoint last_char (s : string) : option ascii :=
  match s with
  | EmptyString => None
  | String c EmptyString => Some c
  | String _ s' => last_char s'
  end.

Definition first_char (s : string) : option ascii :=
  match s with
  | EmptyString => None
  | String c _ => Some c
  end.

Definition not_space (o : option ascii) : Prop :=
  match o with
  | Some c => PyStr.is_space c = false
  | None => True
  end.

(** The text neither starts nor ends with white space. *)
Definition trimmed (s : string) : Prop :=
  not_space (first_char s) /\ not_space (last_char s).

(** Every suppression with the item that has it, in the order of the
    report. *)
Definition suppression_rows (us : list Unit.t)
  : list (Item.t * Suppression.t) :=
  flat_map (fun item => map (pair item) (Item.suppressions item))
           (all_items us).

(** The calls that wrote to the cell at [(r, c)], in order. *)
Definition cells_at (s : Xls.sheet) (r c : nat)
  : list (Xls.value * Xls.style) :=
  map (fun w => (Xls.val w, Xls.sty w))
      (filter (fun w => (Xls.row w =? r)%nat && (Xls.col w =? c)%nat) s).

(** The calls the body [g] of a loop makes for [x] at row [i]; none when
    it raises. *)
Definition written {A : Type} (g : nat -> A -> result Xls.sheet)
           (i : nat) (x : A) : Xls.sheet :=
  match g i x with Ok ws => ws | Raise _ => [] end.

(** The float is a number between 0 and 1: a zero, or a positive
    mantissa [m] with an exponent [e] such that [m * 2^e <= 1]. *)
Definition in_unit_interval (f : spec_float) : Prop :=
  match f with
  | S754_zero _ => True
  | S754_finite false m e => (e <= 0)%Z /\ (Z.pos m <= 2 ^ (- e))%Z
  | _ => False
  end.





(** *** Some report texts *)

(** A number of 4301 digits. *)
Definition digits_4301 : string :=
  string_of_list_ascii (repeat "9"%char 4301).

(** An item line whose clause has this number. *)
Definition long_count_item_line : string :=
  "  Foo.Bar at foo.adb:10 proved (" ++ digits_4301 ++ " checks)" ++ nl.

Definition foo_header : string :=
  "in unit Foo, 2 subprograms and packages out of 2 analyzed" ++ nl.

Definition scenario_input : string :=
  "Analyzed 1 units" ++ nl ++ foo_header ++
  "  Foo.Bar at foo.adb:10 flow analyzed (0 errors and 1 warnings)" ++ nl ++
  "  Foo.Baz at foo.adb:20 proved (3 checks)" ++ nl.

Definition foo_bar : Item.t :=
  Item.mk "Foo.Bar" "foo.adb" "10" None None [] 0 1 0 0 true false.

Definition foo_baz : Item.t :=
  Item.mk "Foo.Baz" "foo.adb" "20" None None [] 0 0 3 3 false true.

(** The report of the scenario, and its first two sheets. *)
Definition scenario_result : Report.t :=
  Report.mk (Some 1%Z) [Unit.mk "Foo" 2 2 [foo_bar; foo_baz]].

Definition scenario_summary : Xls.sheet :=
  header_row ["Unit Name"; "Analyzed"; "Flow Errors"; "Flow Warnings";
              "Checks"; "Proved Checks"; "% Proved"; "Suppressions"] ++
  [Xls.mk 1 0 (Xls.Str "Foo") Xls.Plain;
   Xls.mk 1 1 (Xls.Str "2/2") Xls.Plain;
   Xls.mk 1 2 (Xls.Int 0) Xls.Plain;
   Xls.mk 1 3 (Xls.Int 1) Xls.Plain;
   Xls.mk 1 4 (Xls.Int 3) Xls.Plain;
   Xls.mk 1 5 (Xls.Int 3) Xls.Plain;
   Xls.mk 1 6 (Xls.Float PyFloat.one) Xls.Percent;
   Xls.mk 1 7 (Xls.Int 0) Xls.Plain].

Definition scenario_details : Xls.sheet :=
  header_row ["Name"; "File"; "Line"; "Analysis"; "Flow Warnings";
              "Flow Errors"; "Checks"; "Proved Checks"; "% Proved"] ++
  [Xls.mk 1 0 (Xls.Str "Foo.Bar") Xls.Plain;
   Xls.mk 1 1 (Xls.Str "foo.adb") Xls.Plain;
   Xls.mk 1 2 (Xls.Str "10") Xls.Plain;
   Xls.mk 1 3 (Xls.Str "flow only") Xls.Plain;
   Xls.mk 1 4 (Xls.Int 0) Xls.Plain;
   Xls.mk 1 5 (Xls.Int 1) Xls.Plain;
   Xls.mk 2 0 (Xls.Str "Foo.Baz") Xls.Plain;
   Xls.mk 2 1 (Xls.Str "foo.adb") Xls.Plain;
   Xls.mk 2 2 (Xls.Str "20") Xls.Plain;
   Xls.mk 2 3 (Xls.Str "proof only") Xls.Plain;
   Xls.mk 2 6 (Xls.Int 3) Xls.Plain;
   Xls.mk 2 7 (Xls.Int 3) Xls.Plain;
   Xls.mk 2 8 (Xls.Float PyFloat.one) Xls.Percent].

(** A line of both the item and the suppression shape. *)
Definition both_shapes_line : string :=
  "    x at f.adb:10:5: some message" ++ nl.

(** A line with a flow clause and a proof clause. *)
Definition flow_and_proof_line : string :=
  "  Foo.Qux at foo.adb:30 flow analyzed (0 errors and 0 warnings) and proved (2 checks)"
  ++ nl.

(** A line that states more proved checks than checks. *)
Definition inconsistent_line : string :=
  "  Foo.Bad at foo.adb:40 not proved, 5 checks out of 2 proved" ++ nl.

(** A summary line whose count is not a number. *)
Definition non_numeric_summary : string := "Analyzed X units" ++ nl.

(** A suppression line of the usual form. *)
Definition suppr_only_line : string :=
  "    foo.adb:12:5: range check justified" ++ nl.

(* ------------------------------------------------------------------ *)
(** ** What a match tells about the text *)

Module ReFacts.

Local Open Scope string_scope.

Lemma strip_prefix_app (p s s' : string) :
  strip_prefix p s = Some s' -> s = p ++ s'.
Proof.
  revert s; induction p as [|a p IH]; intros s H; simpl in *.
  - now inversion H.
  - destruct s as [|b s]; [discriminate|].
    destruct (Ascii.eqb a b) eqn:E; [|discriminate].
    apply Ascii.eqb_eq in E; subst b.
    now rewrite (IH _ H).
Qed.

Lemma greedy_sound {R : Type} (k : cls) (s : string) :
  forall (cont : string -> string -> option R) (r : R),
    greedy k cont s = Some r ->
    exists cap rest,
      s = cap ++ rest /\ cap <> "" /\ all_in k cap = true /\
      cont cap rest = Some r.
Proof.
  induction s as [|a s IH]; intros cont r H; simpl in H; [discriminate|].
  destruct (in_cls k a) eqn:Ea; [|discriminate].
  destruct (greedy k (fun cap rest => cont (String a cap) rest) s) eqn:Eg.
  - inversion H; subst r0.
    destruct (IH _ _ Eg) as (cap & rest & -> & _ & Hall & Hc).
    exists (String a cap), rest; simpl; rewrite Ea, Hall.
    repeat split; [discriminate | assumption].
  - exists (String a ""), s; simpl; rewrite Ea.
    repeat split; [discriminate | assumption].
Qed.

Lemma match_here_sound (r : regex) :
  forall s c0 m,
    match_here r s c0 = Some m ->
    exists caps, m = (c0 ++ caps)%list /\ shape r s caps.
Proof.
  induction r as [|t r IH]; intros s c0 m H; simpl in H.
  - inversion H; subst; exists []; split; [now rewrite app_nil_r | reflexivity].
  - destruct t as [p|k|].
    + destruct (strip_prefix p s) as [s'|] eqn:Ep; [|discriminate].
      apply strip_prefix_app in Ep.
      destruct (IH _ _ _ H) as (caps & -> & Hs).
      exists caps; split; [reflexivity|]; simpl; eauto.
    + apply greedy_sound in H.
      destruct H as (cap & rest & -> & Hne & Hall & Hc).
      destruct (IH _ _ _ Hc) as (caps & -> & Hs).
      exists (cap :: caps); split.
      * now rewrite <- app_assoc.
      * simpl. exists cap, rest, caps. auto.
    + destruct (at_eol s) eqn:Ee; [|discriminate].
      destruct (IH _ _ _ H) as (caps & -> & Hs).
      exists caps; simpl; auto.
Qed.

Lemma rmatch_shape (r : regex) (s : string) (m : groups) :
  rmatch r s = Some m -> shape r s m.
Proof.
  intros H; apply match_here_sound in H.
  now destruct H as (caps & -> & Hs).
Qed.

Lemma search_shape (r : regex) (s : string) (m : groups) :
  search r s = Some m -> exists pre suf, s = pre ++ suf /\ shape r suf m.
Proof.
  induction s as [|a s IH]; simpl; intros H.
  - destruct (match_here r "" []) eqn:E; [|discriminate].
    inversion H; subst. exists "", ""; split; [reflexivity|].
    now apply rmatch_shape.
  - destruct (match_here r (String a s) []) eqn:E.
    + inversion H; subst. exists "", (String a s); split; [reflexivity|].
      now apply rmatch_shape.
    + destruct (IH H) as (pre & suf & -> & Hs).
      exists (String a pre), suf; auto.
Qed.

(** A group of digits is a number. *)
Lemma all_in_digit (s : string) : all_in Digit s = PyStr.all_digits s.
Proof. induction s as [|a s IH]; simpl; [reflexivity | now rewrite IH]. Qed.

Lemma digit_val_nonneg (c : ascii) : PyStr.is_digit c = true -> (0 <= PyStr.digit_val c)%Z.
Proof.
  unfold PyStr.is_digit, PyStr.digit_val; intros H.
  apply andb_true_iff in H; destruct H as [H _].
  apply Nat.leb_le in H. lia.
Qed.

Lemma int_acc_nonneg (s : string) :
  forall acc, (0 <= acc)%Z -> PyStr.all_digits s = true ->
              (0 <= PyStr.int_acc acc s)%Z.
Proof.
  induction s as [|a s IH]; intros acc Hacc H;
    cbn [PyStr.int_acc PyStr.all_digits] in *; [assumption|].
  apply andb_true_iff in H; destruct H as [Ha Hs].
  apply IH; [|assumption].
  pose proof (digit_val_nonneg a Ha). lia.
Qed.

Lemma int_acc_value_nonneg (s : string) :
  PyStr.all_digits s = true -> (0 <= PyStr.int_acc 0 s)%Z.
Proof. apply int_acc_nonneg. lia. Qed.

(** [int] gives a number exactly on the groups of digits that are not
    too long, and the number is not negative. *)
Lemma int_digits (s : string) :
  s <> "" -> all_in Digit s = true ->
  PyStr.int s =
  if (String.length s <=? PyStr.int_max_str_digits)%nat
  then Some (PyStr.int_acc 0 s) else None.
Proof.
  intros Hne H; rewrite all_in_digit in H.
  unfold PyStr.int. destruct s as [|a s]; [congruence|].
  now rewrite H.
Qed.

Lemma int_nonneg (s : string) (z : Z) : PyStr.int s = Some z -> (0 <= z)%Z.
Proof.
  unfold PyStr.int. destruct s as [|a s]; [discriminate|].
  destruct (PyStr.all_digits (String a s)) eqn:E; [|discriminate].
  cbn [andb].
  destruct (String.length (String a s) <=? PyStr.int_max_str_digits)%nat;
    [|discriminate].
  inversion 1; subst z.
  apply (int_acc_nonneg (String a s) 0); [lia | assumption].
Qed.

Lemma py_int_int (s : string) :
  py_int s = match PyStr.int s with Some z => Ok z | None => Raise ValueError end.
Proof. reflexivity. Qed.

End ReFacts.

(* ------------------------------------------------------------------ *)
(** ** The four tests of the loop, one by one *)

Module Steps.

Import ReFacts.

(** What each pattern says of a line it matches. *)

Lemma analysis_inv (line : string) (m : groups) :
  rmatch analysis_re line = Some m ->
  exists d e,
    m = [d] /\ d <> "" /\ all_in Digit d = true /\ at_eol e = true /\
    line = ("Analyzed " ++ d ++ " units" ++ e)%string.
Proof.
  intros E; apply rmatch_shape in E; cbn [shape analysis_re] in E.
  destruct E as (s1 & -> & d & r1 & c1 & -> & Hne & Hd & -> & s2 & -> & He & ->).
  exists d, s2; auto.
Qed.

Lemma unit_inv (line : string) (m : groups) :
  rmatch unit_re line = Some m ->
  exists n a t,
    m = [n; a; t] /\ n <> "" /\
    a <> "" /\ all_in Digit a = true /\ t <> "" /\ all_in Digit t = true.
Proof.
  intros E; apply rmatch_shape in E; cbn [shape unit_re] in E.
  destruct E as (s1 & -> & n & r1 & c1 & -> & Hn & _ & -> &
                 s2 & -> & a & r2 & c2 & -> & Ha & Hda & -> &
                 s3 & -> & t & r3 & c3 & -> & Ht & Hdt & -> &
                 s4 & -> & He & ->).
  exists n, a, t; auto 10.
Qed.

Lemma flow_inv (line : string) (m : groups) :
  search flow_re line = Some m ->
  exists e w,
    m = [e; w] /\
    e <> "" /\ all_in Digit e = true /\ w <> "" /\ all_in Digit w = true.
Proof.
  intros E; apply search_shape in E.
  destruct E as (pre & suf & -> & E); cbn [shape flow_re] in E.
  destruct E as (s1 & -> & e & r1 & c1 & -> & He & Hde & -> &
                 s2 & -> & w & r2 & c2 & -> & Hw & Hdw & -> &
                 s3 & -> & ->).
  exists e, w; auto 10.
Qed.

Lemma proved_inv (line : string) (m : groups) :
  search proved_re line = Some m ->
  exists pre c e,
    m = [c] /\ c <> "" /\ all_in Digit c = true /\ at_eol e = true /\
    line = (pre ++ "proved (" ++ c ++ " checks)" ++ e)%string.
Proof.
  intros E; apply search_shape in E.
  destruct E as (pre & suf & -> & E); cbn [shape proved_re] in E.
  destruct E as (s1 & -> & c & r1 & c1 & -> & Hc & Hdc & -> &
                 s2 & -> & He & ->).
  exists pre, c, s2; auto 10.
Qed.

Lemma not_proved_inv (line : string) (m : groups) :
  search not_proved_re line = Some m ->
  exists pre p c e,
    m = [p; c] /\
    p <> "" /\ all_in Digit p = true /\ c <> "" /\ all_in Digit c = true /\
    at_eol e = true /\
    line = (pre ++ "not proved, " ++ p ++ " checks out of " ++ c ++
            " proved" ++ e)%string.
Proof.
  intros E; apply search_shape in E.
  destruct E as (pre & suf & -> & E); cbn [shape not_proved_re] in E.
  destruct E as (s1 & -> & p & r1 & c1 & -> & Hp & Hdp & -> &
                 s2 & -> & c & r2 & c2 & -> & Hc & Hdc & -> &
                 s3 & -> & He & ->).
  exists pre, p, c, s3; auto 10.
Qed.

(** The limit of [int] apart, each test does what the line states. *)

Lemma converts_parts (line : string) :
  converts line = true ->
  implb (summary_line line) (is_some (summary_count line)) = true /\
  implb (header_line line) (is_some (header line)) = true /\
  implb (item_line line) (clauses_convert line) = true.
Proof.
  unfold converts. intros H.
  apply andb_true_iff in H. destruct H as [H H3].
  apply andb_true_iff in H. destruct H as [H1 H2]. auto.
Qed.

Lemma on_analysis_spec (line : string) (st : state) :
  on_analysis line st =
  if summary_line line then
    match summary_count line with
    | Some n =>
        Ok (mkState (Report.mk (Some n) (Report.units (results st)))
                    (currentUnit st))
    | None => Raise ValueError
    end
  else Ok st.
Proof.
  unfold on_analysis, summary_line, matches, summary_count, py_int.
  destruct (rmatch analysis_re line) as [m|]; [|reflexivity].
  destruct (PyStr.int (group m 1)); reflexivity.
Qed.

(** The summary test, when its count converts, leaves the units alone. *)
Lemma on_analysis_count (line : string) (st : state) :
  implb (summary_line line) (is_some (summary_count line)) = true ->
  on_analysis line st =
  Ok (mkState
        (Report.mk match summary_count line with
                   | Some n => Some n
                   | None => Report.numUnitsAnalyzed (results st)
                   end
                   (Report.units (results st)))
        (currentUnit st)).
Proof.
  rewrite on_analysis_spec. intros H.
  destruct (summary_line line) eqn:Es.
  - destruct (summary_count line); [reflexivity | discriminate].
  - assert (Hn : summary_count line = None).
    { unfold summary_line, matches in Es. unfold summary_count.
      now destruct (rmatch analysis_re line). }
    rewrite Hn. destruct st as [[n us] cu]; reflexivity.
Qed.

Lemma on_analysis_ok (line : string) (st : state) :
  implb (summary_line line) (is_some (summary_count line)) = true ->
  exists n,
    on_analysis line st =
    Ok (mkState (Report.mk n (Report.units (results st))) (currentUnit st)).
Proof. intros H. rewrite (on_analysis_count _ _ H). eauto. Qed.

Lemma header_none (line : string) :
  header_line line = false -> header line = None.
Proof.
  unfold header_line, matches, header.
  now destruct (rmatch unit_re line).
Qed.

Lemma on_unit_spec (line : string) (st : state) :
  on_unit line st =
  if header_line line then
    match header line with
    | Some (n, a, t) =>
        Ok (mkState (Report.mk (Report.numUnitsAnalyzed (results st)) (seal st))
                    (Some (Unit.mk n a t [])))
    | None => Raise ValueError
    end
  else Ok st.
Proof.
  unfold on_unit, header_line, matches, header, py_int.
  destruct (rmatch unit_re line) as [m|]; [|reflexivity].
  destruct (PyStr.int (group m 2)), (PyStr.int (group m 3)); reflexivity.
Qed.

(** The header test, when its counts convert: without a match nothing
    changes; with one, the unit under construction is saved and a new one
    starts. *)
Lemma on_unit_ok (line : string) (st : state) :
  implb (header_line line) (is_some (header line)) = true ->
  match header line with
  | None => header_line line = false /\ on_unit line st = Ok st
  | Some (n, a, t) =>
      header_line line = true /\
      on_unit line st =
      Ok (mkState (Report.mk (Report.numUnitsAnalyzed (results st)) (seal st))
                  (Some (Unit.mk n a t [])))
  end.
Proof.
  rewrite on_unit_spec. intros H.
  destruct (header_line line) eqn:Eh.
  - destruct (header line) as [[[n a] t]|]; [auto | discriminate].
  - rewrite (header_none _ Eh). auto.
Qed.

(** Building an item fails exactly when [int] fails on a clause. *)
Lemma build_item_spec (line : string) (item : Item.t) :
  build_item line item =
  if clauses_convert line then Ok (built line item) else Raise ValueError.
Proof.
  unfold build_item, apply_flow, apply_proved, apply_not_proved, built,
    clauses_convert, found, flow_clause, proved_clause, not_proved_clause,
    py_int, is_some.
  destruct (search flow_re line) as [m1|];
    [destruct (PyStr.int (group m1 1)), (PyStr.int (group m1 2))|];
    cbn; try reflexivity;
    (destruct (search proved_re line) as [m2|];
     [destruct (PyStr.int (group m2 1))|]);
    cbn; try reflexivity;
    (destruct (search not_proved_re line) as [m3|];
     [destruct (PyStr.int (group m3 1)), (PyStr.int (group m3 2))|]);
    cbn; reflexivity.
Qed.

Lemma item_line_new_item (line : string) :
  item_line line =
  is_some (new_item (rmatch file_re line) (rmatch gen_file_re line)).
Proof.
  unfold item_line, matches, new_item.
  destruct (rmatch file_re line), (rmatch gen_file_re line); reflexivity.
Qed.

Lemma item_of_line_spec (line : string) :
  item_of_line line =
  match new_item (rmatch file_re line) (rmatch gen_file_re line) with
  | Some item => if clauses_convert line then Some (built line item) else None
  | None => None
  end.
Proof.
  unfold item_of_line. destruct (new_item _ _) as [item|]; [|reflexivity].
  rewrite build_item_spec. now destruct (clauses_convert line).
Qed.

Lemma item_of_line_some (line : string) (item : Item.t) :
  item_of_line line = Some item ->
  item_line line = true /\ clauses_convert line = true /\
  exists item0,
    new_item (rmatch file_re line) (rmatch gen_file_re line) = Some item0 /\
    item = built line item0.
Proof.
  rewrite item_of_line_spec, item_line_new_item.
  destruct (new_item _ _) as [item0|]; [|discriminate].
  destruct (clauses_convert line); [|discriminate].
  inversion 1. eauto.
Qed.

Lemma item_line_item (line : string) :
  implb (item_line line) (clauses_convert line) = true ->
  item_line line = is_some (item_of_line line).
Proof.
  rewrite item_of_line_spec, item_line_new_item.
  destruct (new_item _ _); [|reflexivity].
  cbn. now destruct (clauses_convert line).
Qed.

Lemma on_item_spec (line : string) (st : state) :
  on_item line st =
  if item_line line then
    if clauses_convert line then
      match item_of_line line, currentUnit st with
      | Some item, Some u =>
          Ok (mkState (results st)
                      (Some (Unit.set_items (Unit.items u ++ [item]) u)))
      | _, _ => Raise TypeError
      end
    else Raise ValueError
  else Ok st.
Proof.
  rewrite item_of_line_spec, item_line_new_item. unfold on_item.
  destruct (new_item _ _) as [item0|]; [|reflexivity].
  rewrite build_item_spec. cbn [is_some].
  destruct (clauses_convert line); reflexivity.
Qed.

(** The item test, when the clauses convert, fails exactly when there is
    an item and no unit. *)
Lemma on_item_ok (line : string) (st : state) :
  implb (item_line line) (clauses_convert line) = true ->
  on_item line st =
  match item_of_line line with
  | None => Ok st
  | Some item =>
      match currentUnit st with
      | Some u =>
          Ok (mkState (results st)
                      (Some (Unit.set_items (Unit.items u ++ [item]) u)))
      | None => Raise TypeError
      end
  end.
Proof.
  intros H. pose proof (item_line_item _ H) as Hi.
  rewrite on_item_spec, Hi.
  destruct (item_of_line line) as [item|] eqn:E; [|reflexivity].
  cbn [is_some]. rewrite Hi in H. cbn in H. rewrite H.
  reflexivity.
Qed.

Lemma on_suppr_spec (line : string) (st : state) :
  on_suppr line st =
  match suppression_of_line line with
  | Some s =>
      match currentUnit st with
      | Some u =>
          match update_last (Item.add_suppression s) (Unit.items u) with
          | Some items' =>
              Ok (mkState (results st) (Some (Unit.set_items items' u)))
          | None => Raise IndexError
          end
      | None => Raise TypeError
      end
  | None => Ok st
  end.
Proof.
  unfold on_suppr, suppression_of_line.
  now destruct (rmatch suppr_msg_re line).
Qed.

(** A number that [int] does not convert ends the turn of the loop, and
    the loop, before anything else can. *)
Lemma step_not_converts (line : string) (st : state) :
  converts line = false -> step line st = Raise ValueError.
Proof.
  unfold converts, step. intros H.
  rewrite on_analysis_spec.
  destruct (summary_line line) eqn:Es.
  - destruct (summary_count line) as [n|]; [|reflexivity].
    cbn [bind]. cbn [implb is_some andb] in H.
    rewrite on_unit_spec.
    destruct (header_line line) eqn:Eh.
    + destruct (header line) as [[[name a] t]|]; [|reflexivity].
      cbn [bind]. cbn [implb is_some andb] in H.
      rewrite on_item_spec.
      destruct (item_line line); [|discriminate].
      cbn [implb] in H. now rewrite H.
    + cbn [bind]. cbn [implb andb] in H.
      rewrite on_item_spec.
      destruct (item_line line); [|discriminate].
      cbn [implb] in H. now rewrite H.
  - cbn [bind]. cbn [implb andb] in H.
    rewrite on_unit_spec.
    destruct (header_line line) eqn:Eh.
    + destruct (header line) as [[[name a] t]|]; [|reflexivity].
      cbn [bind]. cbn [implb is_some andb] in H.
      rewrite on_item_spec.
      destruct (item_line line); [|discriminate].
      cbn [implb] in H. now rewrite H.
    + cbn [bind]. cbn [implb andb] in H.
      rewrite on_item_spec.
      destruct (item_line line); [|discriminate].
      cbn [implb] in H. now rewrite H.
Qed.

Lemma step_ok_converts (line : string) (st st' : state) :
  step line st = Ok st' -> converts line = true.
Proof.
  intros H. destruct (converts line) eqn:E; [reflexivity|].
  rewrite (step_not_converts _ _ E) in H. discriminate.
Qed.

Lemma update_last_nil {A : Type} (f : A -> A) (l : list A) :
  update_last f l = None <-> l = [].
Proof.
  induction l as [|x l IH]; cbn [update_last]; [tauto|].
  destruct l as [|y l]; [split; discriminate|].
  destruct (update_last f (y :: l)).
  - split; discriminate.
  - destruct IH as [IH _]. discriminate (IH eq_refl).
Qed.

Lemma update_last_snoc {A : Type} (f : A -> A) (l : list A) (x : A) :
  update_last f (l ++ [x]) = Some (l ++ [f x]).
Proof.
  induction l as [|y l IH]; [reflexivity|].
  cbn [app update_last]. rewrite IH.
  destruct (l ++ [x]) eqn:E; [|reflexivity].
  now destruct l.
Qed.

Lemma update_last_some {A : Type} (f : A -> A) (l r : list A) :
  update_last f l = Some r ->
  exists l' x, l = l' ++ [x] /\ r = l' ++ [f x].
Proof.
  intros H. destruct (exists_last (l := l)) as (l' & x & ->).
  - intros ->. discriminate.
  - rewrite update_last_snoc in H. inversion H. eauto.
Qed.

End Steps.

(* ------------------------------------------------------------------ *)
(** ** The loop *)

Module Loop.

Import ReFacts Steps.

Lemma loop_app (a b : list string) :
  forall st, loop (a ++ b) st = (st' <- loop a st ;; loop b st').
Proof.
  induction a as [|l a IH]; intros st; cbn [app loop bind]; [reflexivity|].
  destruct (step l st) as [st1|e]; cbn [bind]; [apply IH | reflexivity].
Qed.

(** A turn of the loop, with the two tests that cannot fail resolved. *)
Lemma step_unfold (line : string) (st : state) :
  converts line = true ->
  exists n,
    step line st =
    (st2 <- on_item line
              match header line with
              | None => mkState (Report.mk n (Report.units (results st)))
                                (currentUnit st)
              | Some (name, a, t) =>
                  mkState (Report.mk n (seal st)) (Some (Unit.mk name a t []))
              end ;;
     on_suppr line st2).
Proof.
  intros Hc. destruct (converts_parts _ Hc) as (H1 & H2 & H3).
  unfold step.
  destruct (on_analysis_ok line st H1) as (n & ->). cbn [bind].
  exists n.
  pose proof (on_unit_ok line
    (mkState (Report.mk n (Report.units (results st))) (currentUnit st)) H2)
    as H.
  destruct (header line) as [[[name a] t]|]; destruct H as [_ ->]; reflexivity.
Qed.

Lemma loop_ok_converts (lines : list string) :
  forall st st',
    loop lines st = Ok st' -> forall l, In l lines -> converts l = true.
Proof.
  induction lines as [|x lines IH]; intros st st' H l Hl; [contradiction|].
  cbn [loop] in H.
  destruct (step x st) as [st1|] eqn:E; cbn [bind] in H; [|discriminate].
  destruct Hl as [<-|Hl]; [exact (step_ok_converts _ _ _ E)|].
  exact (IH _ _ H l Hl).
Qed.

Lemma seal_keys_set_items (r : Report.t) (u : Unit.t) (l : list Item.t) :
  map unit_key (seal (mkState r (Some (Unit.set_items l u)))) =
  map unit_key (seal (mkState r (Some u))).
Proof. unfold seal; cbn. now rewrite !map_app. Qed.

Lemma on_item_keys (line : string) (st st' : state) :
  on_item line st = Ok st' ->
  map unit_key (seal st') = map unit_key (seal st).
Proof.
  rewrite on_item_spec.
  destruct (item_line line); [|now inversion 1].
  destruct (clauses_convert line); [|discriminate].
  destruct (item_of_line line) as [it|]; [|discriminate].
  destruct st as [r [u|]]; cbn; [|discriminate].
  intros H; inversion H; subst. apply seal_keys_set_items.
Qed.

Lemma on_suppr_keys (line : string) (st st' : state) :
  on_suppr line st = Ok st' ->
  map unit_key (seal st') = map unit_key (seal st).
Proof.
  unfold on_suppr. destruct (rmatch suppr_msg_re line) as [m|].
  - destruct st as [r [u|]]; cbn; [|discriminate].
    destruct (update_last _ _); [|discriminate].
    intros H; inversion H; subst. apply seal_keys_set_items.
  - now inversion 1.
Qed.

(** A turn of the loop adds the unit of a header line, and nothing else,
    to the units saved or under construction. *)
Lemma step_keys (line : string) (st st' : state) :
  step line st = Ok st' ->
  map unit_key (seal st') =
  map unit_key (seal st) ++ match header line with Some h => [h] | None => [] end.
Proof.
  intros Hs. pose proof (step_ok_converts _ _ _ Hs) as Hc. revert Hs.
  destruct (step_unfold line st Hc) as (n & ->).
  destruct (on_item line _) as [st2|] eqn:E2; cbn [bind]; [|discriminate].
  intros E3. rewrite (on_suppr_keys _ _ _ E3), (on_item_keys _ _ _ E2).
  destruct (header line) as [[[name a] t]|].
  - unfold seal at 1; cbn. now rewrite map_app.
  - unfold seal; cbn. now rewrite app_nil_r.
Qed.

Lemma loop_keys (lines : list string) :
  forall st st',
    loop lines st = Ok st' ->
    map unit_key (seal st') = map unit_key (seal st) ++ headers lines.
Proof.
  induction lines as [|l lines IH]; intros st st' H; cbn [loop] in H.
  - inversion H; subst. now rewrite app_nil_r.
  - destruct (step l st) as [st1|] eqn:E; cbn [bind] in H; [|discriminate].
    rewrite (IH _ _ H), (step_keys _ _ _ E).
    unfold headers; cbn [flat_map]. now rewrite <- app_assoc.
Qed.

Lemma headers_length (lines : list string) :
  (forall l, In l lines -> converts l = true) ->
  length (headers lines) = length (filter header_line lines).
Proof.
  induction lines as [|l lines IH]; intros Hc; [reflexivity|].
  unfold headers in *; cbn [flat_map filter].
  rewrite length_app, IH by (intros; apply Hc; now right).
  destruct (converts_parts _ (Hc l (or_introl eq_refl))) as (_ & H2 & _).
  pose proof (on_unit_ok l init_state H2) as H.
  destruct (header l) as [[[name a] t]|]; destruct H as [-> _]; reflexivity.
Qed.

(** The context follows the state, failures included. *)
Lemma on_item_context (line : string) (st : state) :
  implb (item_line line) (clauses_convert line) = true ->
  match on_item line st with
  | Ok st' =>
      (if item_line line then
         match context_of st with NoUnit => Raise TypeError | _ => Ok HasItem end
       else Ok (context_of st)) = Ok (context_of st')
  | Raise e =>
      (if item_line line then
         match context_of st with NoUnit => Raise TypeError | _ => Ok HasItem end
       else Ok (context_of st)) = Raise e
  end.
Proof.
  intros H. rewrite (on_item_ok _ _ H), (item_line_item _ H).
  destruct (item_of_line line) as [it|]; [|reflexivity].
  destruct st as [r [u|]]; unfold context_of; cbn; [|reflexivity].
  destruct (Unit.items u); reflexivity.
Qed.

Lemma on_suppr_context (line : string) (st : state) :
  match on_suppr line st with
  | Ok st' =>
      (if suppr_line line then
         match context_of st with
         | NoUnit => Raise TypeError
         | EmptyUnit => Raise IndexError
         | HasItem => Ok HasItem
         end
       else Ok (context_of st)) = Ok (context_of st')
  | Raise e =>
      (if suppr_line line then
         match context_of st with
         | NoUnit => Raise TypeError
         | EmptyUnit => Raise IndexError
         | HasItem => Ok HasItem
         end
       else Ok (context_of st)) = Raise e
  end.
Proof.
  unfold on_suppr, suppr_line, matches.
  destruct (rmatch suppr_msg_re line) as [m|]; [|reflexivity].
  destruct st as [r [u|]]; unfold context_of; cbn; [|reflexivity].
  destruct (update_last _ (Unit.items u)) as [l'|] eqn:E.
  - destruct (update_last_some _ _ _ E) as (l0 & x & -> & ->).
    cbn. destruct l0; reflexivity.
  - apply update_last_nil in E. now rewrite E.
Qed.

Lemma step_context (line : string) (st : state) :
  match step line st with
  | Ok st' => context_step line (context_of st) = Ok (context_of st')
  | Raise e => context_step line (context_of st) = Raise e
  end.
Proof.
  unfold context_step. destruct (converts line) eqn:Hc;
    [|now rewrite (step_not_converts _ _ Hc)].
  destruct (converts_parts _ Hc) as (_ & H2 & H3).
  destruct (step_unfold line st Hc) as (n & ->).
  pose proof (on_unit_ok line st H2) as Hh.
  match goal with |- context [on_item line ?s] => set (st1 := s) end.
  assert (H1 : (if header_line line then EmptyUnit else context_of st) =
               context_of st1).
  { subst st1. destruct (header line) as [[[name a] t]|];
      destruct Hh as [-> _]; reflexivity. }
  rewrite H1. clear H1 Hh.
  pose proof (on_item_context line st1 H3) as Hi.
  destruct (on_item line st1) as [st2|e]; rewrite Hi; cbn [bind];
    [|reflexivity].
  apply on_suppr_context.
Qed.

Lemma loop_context (lines : list string) :
  forall st,
    match loop lines st with
    | Ok st' => context_loop lines (context_of st) = Ok (context_of st')
    | Raise e => context_loop lines (context_of st) = Raise e
    end.
Proof.
  induction lines as [|l lines IH]; intros st; cbn [loop context_loop];
    [reflexivity|].
  pose proof (step_context l st) as Hs.
  destruct (step l st) as [st1|e]; rewrite Hs; cbn [bind]; [apply IH | reflexivity].
Qed.

(** The parser returns a report exactly on the well-formed inputs. *)
Lemma parse_lines_well_formed (lines : list string) :
  well_formed lines = true <-> exists r, parse_lines lines = Ok r.
Proof.
  unfold well_formed, parse_lines.
  pose proof (loop_context lines init_state) as H.
  destruct (loop lines init_state) as [st|e]; cbn [bind];
    change (context_of init_state) with NoUnit in H; rewrite H.
  - split; eauto.
  - split; [discriminate | intros (r & Hr); discriminate].
Qed.

End Loop.

(* ------------------------------------------------------------------ *)
(** ** The scenario of the specification *)

(** C1: the four-line report gives [numUnitsAnalyzed = 1] and the single
    unit [Foo] (2 analyzed out of 2) with the items [Foo.Bar] (foo.adb, line
    10, flow analyzed, 0 errors, 1 warning, not proved) and [Foo.Baz]
    (foo.adb, line 20, proved, 3 checks, 3 proved) in this order; the proof
    ratio of [Foo.Baz] is 1. *)
Theorem scenario_report :
  parse_gnatprove_report scenario_input =
    Ok (Report.mk (Some 1%Z) [Unit.mk "Foo" 2 2 [foo_bar; foo_baz]]) /\
  to_percent (Item.numProvedChecks foo_baz) (Item.numChecks foo_baz) =
    Ok (Xls.Float PyFloat.one).
Proof. split; vm_compute; reflexivity. Qed.

(* ------------------------------------------------------------------ *)
(** ** The proof ratio *)

Module FloatFacts.

Local Open Scope Z_scope.

Lemma div_eucl_div (a b : Z) : Z.div_eucl a b = (a / b, a mod b).
Proof. unfold Z.div, Z.modulo. now destruct (Z.div_eucl a b). Qed.

(** *** Digits *)

Lemma digits2_le (p : positive) : 2 ^ (Zdigits2 (Z.pos p) - 1) <= Z.pos p.
Proof.
  cbn [Zdigits2].
  induction p as [p IH|p IH|]; cbn [digits2_pos].
  - rewrite Pos2Z.inj_succ.
    replace (Z.succ (Z.pos (digits2_pos p)) - 1)
      with (1 + (Z.pos (digits2_pos p) - 1)) by lia.
    rewrite Z.pow_add_r by lia. change (2 ^ 1) with 2. lia.
  - rewrite Pos2Z.inj_succ.
    replace (Z.succ (Z.pos (digits2_pos p)) - 1)
      with (1 + (Z.pos (digits2_pos p) - 1)) by lia.
    rewrite Z.pow_add_r by lia. change (2 ^ 1) with 2. lia.
  - reflexivity.
Qed.






(** *** Shifts *)

Lemma shr_1_nonneg (mrs : shr_record) :
  0 <= shr_m mrs -> 0 <= shr_m (shr_1 mrs).
Proof.
  destruct mrs as [m r s]. cbn [shr_m]. intros H.
  destruct m as [|[p|p|]|p]; cbn; lia.
Qed.

Lemma iter_shr_1_nonneg (p : positive) :
  forall mrs, 0 <= shr_m mrs -> 0 <= shr_m (iter_pos shr_1 p mrs).
Proof.
  induction p as [p IH|p IH|]; intros mrs H; cbn [iter_pos].
  - apply IH, IH, shr_1_nonneg, H.
  - apply IH, IH, H.
  - apply shr_1_nonneg, H.
Qed.

Lemma shr_1_div2 (mrs : shr_record) :
  0 <= shr_m mrs -> shr_m (shr_1 mrs) = shr_m mrs / 2.
Proof.
  destruct mrs as [m r s]. cbn [shr_m]. intros H.
  destruct m as [|[p|p|]|p]; cbn [shr_1 shr_m]; try lia.
  - reflexivity.
  - apply Z.div_unique with (r := 1); lia.
  - apply Z.div_unique with (r := 0); lia.
  - reflexivity.
Qed.

Lemma iter_shr_1_div (p : positive) :
  forall mrs,
    0 <= shr_m mrs ->
    shr_m (iter_pos shr_1 p mrs) = shr_m mrs / 2 ^ Z.pos p.
Proof.
  induction p as [p IH|p IH|]; intros mrs H; cbn [iter_pos].
  - rewrite IH by (apply iter_shr_1_nonneg, shr_1_nonneg, H).
    rewrite IH by (apply shr_1_nonneg, H).
    rewrite shr_1_div2 by exact H.
    rewrite !Z.div_div by lia.
    f_equal. rewrite Pos2Z.inj_xI.
    replace (2 * Z.pos p + 1) with (1 + Z.pos p + Z.pos p) by lia.
    rewrite !Z.pow_add_r by lia. change (2 ^ 1) with 2. ring.
  - rewrite IH by (apply iter_shr_1_nonneg, H).
    rewrite IH by exact H.
    rewrite !Z.div_div by lia.
    f_equal. rewrite Pos2Z.inj_xO.
    rewrite <- Z.pow_add_r by lia. f_equal. lia.
  - now rewrite shr_1_div2.
Qed.

Lemma shr_record_of_loc_m (m : Z) (l : location) :
  shr_m (shr_record_of_loc m l) = m.
Proof. now destruct l as [|[| |]]. Qed.

(** *** What a mantissa and its two bits stand for

    The number is [P / c]; the unit of the mantissa is [2^k].  The
    record [(m, r, s)] says that the number is [m] units, a half unit
    more when [r] is set, and less than a half unit more when [s] is
    set. *)
Section Repr.

Variables P c : Z.
Hypothesis c_pos : 0 < c.




End Repr.

(** *** The division before rounding *)






(** *** Rounding *)




(** *** The quotient, rounded *)




(** *** Particular quotients *)

(** The division of a number by itself, before rounding. *)
Lemma core_same (c : positive) :
  SFdiv_core_binary 53 1024 (Zpos c) 0 (Zpos c) 0 = (2 ^ 53, -53, loc_Exact).
Proof.
  unfold SFdiv_core_binary.
  replace (Zdigits2 (Z.pos c) + 0 - (Zdigits2 (Z.pos c) + 0)) with 0 by lia.
  change (Z.min (fexp 53 1024 0) (0 - 0)) with (-53).
  change (0 - 0 - -53) with 53.
  cbv iota beta.
  rewrite Z.shiftl_mul_pow2 by lia.
  rewrite div_eucl_div.
  rewrite Z.mul_comm, Z.div_mul, Z.mod_mul by lia.
  unfold new_location, new_location_even, new_location_odd.
  cbn [Z.eqb]. now destruct (Z.even (Z.pos c)).
Qed.

Lemma truediv_same (c : Z) : 0 < c -> PyFloat.truediv c c = Ok PyFloat.one.
Proof.
  intros H. unfold PyFloat.truediv.
  destruct (Z.eqb_spec c 0); [lia|].
  destruct c as [|c|c]; try lia.
  unfold PyFloat.of_int, SFdiv, PyFloat.prec, PyFloat.emax.
  rewrite core_same. vm_compute. reflexivity.
Qed.


(** *** Quotients that are at most 1 *)

(** A mantissa [m] with exponent [e] that stands for a number at most 1
    has few digits. *)
Lemma digits2_bound (m e : Z) :
  0 <= m -> e <= 0 -> m <= 2 ^ (- e) -> Zdigits2 m + e <= 1.
Proof.
  intros Hm He Hle. destruct m as [|p|p]; [cbn; lia | | lia].
  pose proof (digits2_le p) as Hd.
  assert (H : 2 ^ (Zdigits2 (Z.pos p) - 1) <= 2 ^ (- e)) by lia.
  apply Z.pow_le_mono_r_iff in H; lia.
Qed.

Lemma shr_fexp_bound (m e : Z) (l : location) :
  0 <= m -> e <= 0 -> m <= 2 ^ (- e) ->
  0 <= shr_m (fst (shr_fexp 53 1024 m e l)) /\
  snd (shr_fexp 53 1024 m e l) <= 0 /\
  shr_m (fst (shr_fexp 53 1024 m e l)) <=
    2 ^ (- snd (shr_fexp 53 1024 m e l)) /\
  (m < 2 ^ (- e) ->
   shr_m (fst (shr_fexp 53 1024 m e l)) <
     2 ^ (- snd (shr_fexp 53 1024 m e l))).
Proof.
  intros Hm He Hle. unfold shr_fexp, shr.
  pose proof (digits2_bound m e Hm He Hle) as Hd.
  pose proof (shr_record_of_loc_m m l) as Hr.
  destruct (fexp 53 1024 (Zdigits2 m + e) - e) as [|n|n] eqn:En;
    cbn [fst snd]; rewrite ?Hr; try (repeat split; auto; lia).
  assert (Hn : e + Z.pos n <= 0).
  { unfold fexp, emin in En. lia. }
  rewrite iter_shr_1_div by (rewrite Hr; exact Hm). rewrite Hr.
  assert (Hp : 2 ^ (- e) = 2 ^ Z.pos n * 2 ^ (- (e + Z.pos n))).
  { rewrite <- Z.pow_add_r by lia. f_equal. lia. }
  split; [apply Z.div_pos; lia|]. split; [exact Hn|]. split.
  - apply Z.div_le_upper_bound; [lia|]. now rewrite <- Hp.
  - intros Hlt. apply Z.div_lt_upper_bound; [lia|]. now rewrite <- Hp.
Qed.

Lemma round_nearest_even_bound (m : Z) (l : location) :
  m <= round_nearest_even m l <= m + 1.
Proof.
  unfold round_nearest_even.
  destruct l as [|[| |]]; try lia. destruct (Z.even m); lia.
Qed.

(** Rounding a number below 1 gives a zero or a float that is at most 1. *)
Lemma binary_round_aux_bound (mz ez : Z) (lz : location) :
  0 <= mz -> ez <= 0 -> mz < 2 ^ (- ez) ->
  match binary_round_aux 53 1024 false mz ez lz with
  | S754_zero s => s = false
  | S754_finite s m e => s = false /\ e <= 0 /\ Z.pos m <= 2 ^ (- e)
  | _ => False
  end.
Proof.
  intros Hm He Hlt. unfold binary_round_aux.
  destruct (shr_fexp_bound mz ez lz Hm He (Z.lt_le_incl _ _ Hlt))
    as (H1 & H2 & _ & H4).
  specialize (H4 Hlt).
  destruct (shr_fexp 53 1024 mz ez lz) as [mrs' e']. cbn [fst snd] in *.
  pose proof (round_nearest_even_bound (shr_m mrs') (loc_of_shr_record mrs'))
    as Hr.
  set (m1 := round_nearest_even (shr_m mrs') (loc_of_shr_record mrs')) in *.
  destruct (shr_fexp_bound m1 e' loc_Exact) as (G1 & G2 & G3 & _);
    [lia | lia | lia |].
  destruct (shr_fexp 53 1024 m1 e' loc_Exact) as [mrs'' e''].
  cbn [fst snd] in *.
  destruct (shr_m mrs'') as [|p|p]; [reflexivity | | lia].
  destruct (Z.leb_spec e'' (1024 - 53)); [auto | lia].
Qed.

Lemma core_bound (p c : positive) :
  Z.pos p < Z.pos c ->
  let '(q, e, l) := SFdiv_core_binary 53 1024 (Z.pos p) 0 (Z.pos c) 0 in
  0 <= q /\ e <= 0 /\ q < 2 ^ (- e).
Proof.
  intros Hlt. unfold SFdiv_core_binary. cbv zeta.
  set (e := Z.min _ (0 - 0)).
  assert (He : e <= 0) by (subst e; lia).
  replace (0 - 0 - e) with (- e) by lia.
  destruct (- e) as [|s|s] eqn:Es; try lia.
  - rewrite div_eucl_div. rewrite Z.div_small by lia.
    split; [lia|]. split; [lia|]. cbn. lia.
  - rewrite div_eucl_div, Z.shiftl_mul_pow2 by lia.
    split; [apply Z.div_pos; lia|]. split; [lia|].
    apply Z.div_lt_upper_bound; [lia|]. rewrite ?Es.
    apply Zmult_lt_compat_r; [apply Z.pow_pos_nonneg; lia | exact Hlt].
Qed.

(** The quotient of a count by a larger one is a float between 0 and 1:
    the division does not overflow. *)
Lemma truediv_unit (p c : Z) :
  0 <= p <= c -> 0 < c ->
  exists f, PyFloat.truediv p c = Ok f /\ in_unit_interval f.
Proof.
  intros [Hp Hle] Hc.
  destruct (Z.eq_dec p c) as [->|Hne].
  { rewrite (truediv_same c Hc). eexists. split; [reflexivity|].
    cbn. split; [lia|]. vm_compute. discriminate. }
  unfold PyFloat.truediv.
  destruct (Z.eqb_spec c 0); [lia|].
  destruct c as [|c|c]; try lia.
  destruct p as [|p|p]; try lia.
  { eexists. split; [reflexivity | exact I]. }
  unfold PyFloat.of_int, SFdiv, PyFloat.prec, PyFloat.emax.
  pose proof (core_bound p c) as Hq.
  destruct (SFdiv_core_binary 53 1024 (Z.pos p) 0 (Z.pos c) 0)
    as [[mz ez] lz].
  destruct Hq as (H1 & H2 & H3); [lia|].
  cbn [xorb].
  pose proof (binary_round_aux_bound mz ez lz H1 H2 H3) as Hb.
  destruct (binary_round_aux 53 1024 false mz ez lz) as [s|s| |s m e];
    try contradiction.
  - eexists. split; [reflexivity | exact I].
  - destruct Hb as (-> & He & Hm). eexists. split; [reflexivity|].
    cbn. auto.
Qed.

End FloatFacts.




(* ------------------------------------------------------------------ *)
(** ** Units and header lines *)

(** C2: on a well-formed input the parser returns a report that has one
    unit per header line of the input, in the order of these lines, each
    with the name and the counts of its line; a unit under construction
    when the input ends is the last unit of the report. *)
Theorem units_follow_headers (content : string) :
  well_formed (PyStr.readlines content) = true ->
  exists r,
    parse_gnatprove_report content = Ok r /\
    length (Report.units r) =
      length (filter header_line (PyStr.readlines content)) /\
    map unit_key (Report.units r) = headers (PyStr.readlines content) /\
    (forall st u,
        loop (PyStr.readlines content) init_state = Ok st ->
        currentUnit st = Some u ->
        Report.units r = Report.units (results st) ++ [u]).
Proof.
  intros W. apply Loop.parse_lines_well_formed in W. destruct W as (r & H).
  exists r. split; [exact H|].
  unfold parse_lines in H.
  destruct (loop (PyStr.readlines content) init_state) as [st|] eqn:E;
    cbn [bind] in H; [|discriminate].
  inversion H; subst r; clear H. cbn [Report.units].
  pose proof (Loop.loop_keys _ _ _ E) as K. cbn in K.
  repeat split.
  - rewrite <- (Loop.headers_length _ (Loop.loop_ok_converts _ _ _ E)), <- K.
    now rewrite length_map.
  - exact K.
  - intros st' u Hst Hu. inversion Hst; subst st'.
    unfold seal. now rewrite Hu.
Qed.

Lemma units_follow_headers_witness :
  exists r,
    parse_gnatprove_report scenario_input = Ok r /\
    length (Report.units r) =
      length (filter header_line (PyStr.readlines scenario_input)) /\
    map unit_key (Report.units r) = headers (PyStr.readlines scenario_input) /\
    (forall st u,
        loop (PyStr.readlines scenario_input) init_state = Ok st ->
        currentUnit st = Some u ->
        Report.units r = Report.units (results st) ++ [u]).
Proof.
  apply (units_follow_headers scenario_input). vm_compute. reflexivity.
Defined.

(* ------------------------------------------------------------------ *)
(** ** Lines that come too early *)

Module Early.

Import ReFacts Steps Loop.

Lemma matches_head (a : ascii) (p : string) (r : regex) (s : string) :
  matches (Lit (String a p) :: r) s = true -> exists s', s = String a s'.
Proof.
  unfold matches, rmatch; cbn [match_here strip_prefix].
  destruct s as [|b s]; [discriminate|].
  destruct (Ascii.eqb a b) eqn:E; [|discriminate].
  apply Ascii.eqb_eq in E; subst b. eauto.
Qed.

Lemma summary_line_head (line : string) :
  summary_line line = true -> exists s, line = String "A" s.
Proof. apply matches_head. Qed.

Lemma header_line_head (line : string) :
  header_line line = true -> exists s, line = String "i" s.
Proof. apply matches_head. Qed.

Lemma item_line_head (line : string) :
  item_line line = true -> exists s, line = String " " s.
Proof.
  unfold item_line. intros H. apply orb_true_iff in H.
  destruct H as [H|H]; revert H; apply matches_head.
Qed.

Lemma suppr_line_head (line : string) :
  suppr_line line = true -> exists s, line = String " " s.
Proof. apply matches_head. Qed.

Lemma item_not_header (line : string) :
  item_line line = true -> header_line line = false.
Proof.
  intros H. destruct (item_line_head _ H) as (s & ->).
  destruct (header_line (String " " s)) eqn:E; [|reflexivity].
  destruct (header_line_head _ E) as (s' & Hs). discriminate.
Qed.

Lemma suppr_not_item_step (line : string) (st : state) :
  suppr_line line = true -> item_line line = false ->
  step line st = on_suppr line st.
Proof.
  intros Hs Hi.
  assert (Ha : summary_line line = false).
  { destruct (suppr_line_head _ Hs) as (s & ->). reflexivity. }
  assert (Hh : header_line line = false).
  { destruct (suppr_line_head _ Hs) as (s & ->). reflexivity. }
  unfold step. rewrite on_analysis_spec, Ha. cbn [bind].
  rewrite on_unit_spec, Hh. cbn [bind].
  rewrite on_item_spec, Hi. reflexivity.
Qed.

(** Without a header line the context stays [NoUnit], and a failure is
    that of an item or a suppression without unit, or that of [int]. *)
Lemma context_step_no_header (x : string) :
  header_line x = false ->
  (context_step x NoUnit = Ok NoUnit \/
   context_step x NoUnit = Raise TypeError \/
   context_step x NoUnit = Raise ValueError) /\
  (converts x = true -> context_step x NoUnit <> Raise ValueError).
Proof.
  intros Hh. unfold context_step. rewrite Hh.
  destruct (converts x); [|split; [auto | discriminate]].
  destruct (item_line x), (suppr_line x); cbn [bind];
    (split; [auto | discriminate]).
Qed.

Lemma context_loop_item_early (pre : list string) (line : string)
      (post : list string) :
  (forall x, In x pre -> header_line x = false) ->
  item_line line = true ->
  (context_loop (pre ++ line :: post) NoUnit = Raise TypeError \/
   context_loop (pre ++ line :: post) NoUnit = Raise ValueError) /\
  ((forall x, In x (pre ++ [line]) -> converts x = true) ->
   context_loop (pre ++ line :: post) NoUnit = Raise TypeError).
Proof.
  intros Hpre Hitem.
  induction pre as [|x pre IH]; cbn [app context_loop].
  - unfold context_step.
    rewrite (item_not_header _ Hitem), Hitem.
    destruct (converts line) eqn:Hc; cbn [bind].
    + split; [now left | reflexivity].
    + split; [now right|]. intros H.
      rewrite (H line (or_introl eq_refl)) in Hc. discriminate.
  - destruct IH as [IH1 IH2]; [intros y Hy; apply Hpre; now right|].
    destruct (context_step_no_header x (Hpre x (or_introl eq_refl)))
      as [[H|[H|H]] Hv]; rewrite H; cbn [bind].
    + split; [exact IH1|]. intros Hall. apply IH2.
      intros y Hy. apply Hall. now right.
    + split; [now left | reflexivity].
    + split; [now right|]. intros Hall.
      exfalso. apply Hv; [|exact H]. apply Hall. now left.
Qed.

Lemma parse_lines_context (lines : list string) (e : exn) :
  context_loop lines NoUnit = Raise e -> parse_lines lines = Raise e.
Proof.
  intros H. unfold parse_lines.
  pose proof (loop_context lines init_state) as Hl.
  change (context_of init_state) with NoUnit in Hl.
  destruct (loop lines init_state) as [st|e']; rewrite H in Hl;
    [discriminate|].
  now inversion Hl.
Qed.

End Early.


(** C10, as the code has it: when a line of the item shape is read and
    no header line came before it, the parser raises and returns no
    report.  It raises [TypeError] (it subscripts the [None] that
    [currentUnit] still is) when [int] converts every number of the lines
    read so far, this line included; otherwise [ValueError] can come
    first. *)
Theorem item_before_header (content : string) (pre : list string)
        (line : string) (post : list string) :
  PyStr.readlines content = pre ++ line :: post ->
  (forall x, In x pre -> header_line x = false) ->
  item_line line = true ->
  (parse_gnatprove_report content = Raise TypeError \/
   parse_gnatprove_report content = Raise ValueError) /\
  ((forall x, In x (pre ++ [line]) -> converts x = true) ->
   parse_gnatprove_report content = Raise TypeError).
Proof.
  intros Hc Hpre Hitem. unfold parse_gnatprove_report. rewrite Hc.
  destruct (Early.context_loop_item_early pre line post Hpre Hitem)
    as [[H|H] H2].
  - split; [left; now apply Early.parse_lines_context|].
    intros _. now apply Early.parse_lines_context.
  - split; [right; now apply Early.parse_lines_context|].
    intros Hall. apply Early.parse_lines_context. now apply H2.
Qed.

Lemma item_before_header_witness :
  parse_gnatprove_report
    ("Analyzed 1 units" ++ nl ++ "  Foo.Bar at foo.adb:10" ++ nl ++ foo_header)%string
  = Raise TypeError.
Proof.
  apply (item_before_header _ [("Analyzed 1 units" ++ nl)%string]
                            ("  Foo.Bar at foo.adb:10" ++ nl)%string
                            [foo_header]).
  - vm_compute. reflexivity.
  - intros x [<-|[]]. vm_compute. reflexivity.
  - vm_compute. reflexivity.
  - intros x [<-|[<-|[]]]; vm_compute; reflexivity.
Defined.

(** C10 fails as stated: this item line comes before any header line,
    and the parser fails on the number of its clause, in [int], before it
    comes to append the item. *)
Lemma item_before_header_value_error :
  item_line long_count_item_line = true /\
  parse_gnatprove_report long_count_item_line = Raise ValueError /\
  parse_gnatprove_report long_count_item_line <> Raise TypeError.
Proof.
  split; [vm_compute; reflexivity|].
  assert (H : parse_gnatprove_report long_count_item_line = Raise ValueError)
    by (vm_compute; reflexivity).
  split; [exact H|]. rewrite H. discriminate.
Qed.

(** C3, as the code has it: when a line of the suppression shape that is
    not of the item shape too is read while there is no unit under
    construction, or while that unit has no item, the parser raises and
    returns no report: [IndexError] (the last element of an empty list is
    asked for) when the unit has no item, [TypeError] when there is no
    unit. *)
Theorem suppression_without_item (content : string) (pre : list string)
        (line : string) (post : list string) (st : state) :
  PyStr.readlines content = pre ++ line :: post ->
  loop pre init_state = Ok st ->
  suppr_line line = true ->
  item_line line = false ->
  no_current_item st ->
  parse_gnatprove_report content =
  Raise match currentUnit st with None => TypeError | Some _ => IndexError end.
Proof.
  intros Hc Hpre Hs Hi Hno.
  unfold parse_gnatprove_report, parse_lines.
  rewrite Hc, Loop.loop_app, Hpre. cbn [bind loop].
  rewrite (Early.suppr_not_item_step _ _ Hs Hi). unfold on_suppr.
  unfold suppr_line, matches in Hs.
  destruct (rmatch suppr_msg_re line) as [m|]; [|discriminate].
  unfold no_current_item in Hno.
  destruct (currentUnit st) as [u|]; [|reflexivity].
  rewrite Hno. reflexivity.
Qed.

Lemma suppression_without_item_witness :
  parse_gnatprove_report (foo_header ++ suppr_only_line)%string =
  Raise IndexError.
Proof.
  refine (suppression_without_item
            (foo_header ++ suppr_only_line)%string
            [foo_header] suppr_only_line []
            (mkState (Report.mk None []) (Some (Unit.mk "Foo" 2 2 [])))
            _ _ _ _ _); vm_compute; reflexivity.
Defined.

(** C3 fails as stated: the second line has the suppression shape and is
    read when the unit under construction has no item, and the parser
    returns a report; the line has the item shape too, and its
    suppression is in the item that it made itself. *)
Lemma suppression_on_own_item :
  suppr_line both_shapes_line = true /\
  loop [foo_header] init_state =
    Ok (mkState (Report.mk None []) (Some (Unit.mk "Foo" 2 2 []))) /\
  parse_gnatprove_report (foo_header ++ both_shapes_line)%string =
  Ok (Report.mk None
        [Unit.mk "Foo" 2 2
           [Item.mk "  x" "f.adb:10" "5" None None
                    [Suppression.mk "x at f.adb" "10" "5" "some message"]
                    0 0 0 0 false false]]).
Proof. repeat split; vm_compute; reflexivity. Qed.

(* ------------------------------------------------------------------ *)
(** ** When a pattern matches *)

Module ReComplete.

Import ReFacts.

Local Open Scope string_scope.

Lemma strip_prefix_complete (p s : string) : strip_prefix p (p ++ s) = Some s.
Proof.
  induction p as [|a p IH]; cbn; [reflexivity|].
  now rewrite Ascii.eqb_refl.
Qed.

(** Backtracking finds a way to cut the text when there is one. *)
Lemma greedy_complete {R : Type} (k : cls) (cap : string) :
  forall (cont : string -> string -> option R) (rest : string),
    cap <> "" -> all_in k cap = true -> cont cap rest <> None ->
    greedy k cont (cap ++ rest) <> None.
Proof.
  induction cap as [|a cap IH]; intros cont rest Hne Hall Hc; [congruence|].
  cbn in Hall. apply andb_true_iff in Hall. destruct Hall as [Ha Hall].
  cbn [append greedy]. rewrite Ha.
  destruct cap as [|b cap].
  - cbn [append].
    destruct (greedy k (fun cap0 rest0 => cont (String a cap0) rest0) rest);
      [discriminate | exact Hc].
  - specialize (IH (fun cap0 rest0 => cont (String a cap0) rest0) rest).
    destruct (greedy k _ (String b cap ++ rest)); [discriminate|].
    exfalso. apply IH; [discriminate | assumption | assumption | reflexivity].
Qed.

Lemma match_here_complete (r : regex) :
  forall s caps c0, shape r s caps -> match_here r s c0 <> None.
Proof.
  induction r as [|t r IH]; intros s caps c0 H; cbn [match_here];
    [discriminate|].
  destruct t as [p|k|]; cbn [shape] in H.
  - destruct H as (s' & -> & H). rewrite strip_prefix_complete. eauto.
  - destruct H as (cap & rest & caps' & -> & Hne & Hall & -> & H).
    apply greedy_complete; eauto.
  - destruct H as [-> H]. eauto.
Qed.

Lemma shape_matches (r : regex) (s : string) (caps : groups) :
  shape r s caps -> matches r s = true.
Proof.
  intros H. unfold matches, rmatch.
  pose proof (match_here_complete r s caps [] H).
  now destruct (match_here r s []).
Qed.

End ReComplete.

(* ------------------------------------------------------------------ *)
(** ** Lines of more than one shape, and of none *)

Module StrFacts.

Local Open Scope string_scope.

Lemma append_assoc (a b c : string) : (a ++ b) ++ c = a ++ b ++ c.
Proof. induction a as [|x a IH]; cbn; [reflexivity | now rewrite IH]. Qed.

Lemma append_nil_r (a : string) : a ++ "" = a.
Proof. induction a as [|x a IH]; cbn; [reflexivity | now rewrite IH]. Qed.

Lemma length_append (a b : string) :
  String.length (a ++ b) = (String.length a + String.length b)%nat.
Proof. induction a as [|x a IH]; cbn; [reflexivity | now rewrite IH]. Qed.

Lemma chars_append (a b : string) :
  list_ascii_of_string (a ++ b) =
  (list_ascii_of_string a ++ list_ascii_of_string b)%list.
Proof. induction a as [|x a IH]; cbn; [reflexivity | now rewrite IH]. Qed.

Lemma at_eol_cases (e : string) : at_eol e = true -> e = "" \/ e = nl.
Proof.
  destruct e as [|c [|d e]]; cbn; intros H; try discriminate; [now left|].
  right. unfold PyStr.is_LF in H. apply Ascii.eqb_eq in H. now subst c.
Qed.

Lemma at_eol_length (e : string) : at_eol e = true -> (String.length e <= 1)%nat.
Proof. intros H; destruct (at_eol_cases e H) as [->| ->]; cbn; lia. Qed.

(** A count followed by [" units"] and the end of the line can only be
    read in one way. *)
Lemma count_field_unique (d : string) :
  forall x e,
    PyStr.all_digits d = true -> at_eol e = true ->
    x ++ " units" ++ nl = d ++ " units" ++ e -> x = d.
Proof.
  induction d as [|a d IH]; intros x e Hd He H.
  - destruct x as [|c x]; [reflexivity|]. exfalso.
    apply (f_equal String.length) in H.
    cbn in H. rewrite length_append in H. cbn in H.
    pose proof (at_eol_length e He). lia.
  - cbn in Hd. apply andb_true_iff in Hd. destruct Hd as [Ha Hd].
    destruct x as [|c x].
    + cbn in H. inversion H; subst a. discriminate Ha.
    + cbn in H. inversion H; subst c. f_equal. eapply IH; eauto.
Qed.

End StrFacts.

Module Shapes.

Import ReFacts Steps Loop Early StrFacts.

Lemma count_true_zero (a b c d : bool) :
  count_true [a; b; c; d] = 0%nat ->
  a = false /\ b = false /\ c = false /\ d = false.
Proof. destruct a, b, c, d; cbn; intros H; try discriminate; auto. Qed.

Lemma matches_false (r : regex) (line : string) :
  matches r line = false -> rmatch r line = None.
Proof. unfold matches. now destruct (rmatch r line). Qed.

(** A line of none of the four shapes changes nothing. *)
Lemma unrecognized_ignored (line : string) (st : state) :
  recognizers_applied line = 0%nat -> step line st = Ok st.
Proof.
  unfold recognizers_applied. intros H.
  apply count_true_zero in H. destruct H as (Ha & Hu & Hi & Hs).
  unfold item_line in Hi. apply orb_false_iff in Hi. destruct Hi as [Hf Hg].
  unfold step, on_analysis, on_unit, on_item, on_suppr.
  rewrite (matches_false _ _ Ha). cbn [bind].
  rewrite (matches_false _ _ Hu). cbn [bind].
  rewrite (matches_false _ _ Hf), (matches_false _ _ Hg). cbn [new_item bind].
  now rewrite (matches_false _ _ Hs).
Qed.

(** A summary line whose count is not a number is of no shape. *)
Lemma bad_count_unrecognized (x : string) :
  x = "" \/ PyStr.all_digits x = false ->
  recognizers_applied ("Analyzed " ++ x ++ " units" ++ nl)%string = 0%nat.
Proof.
  intros Hx. set (line := ("Analyzed " ++ x ++ " units" ++ nl)%string).
  assert (Ha : summary_line line = false).
  { unfold summary_line, matches.
    destruct (rmatch analysis_re line) as [m|] eqn:E; [|reflexivity].
    exfalso. destruct (analysis_inv _ _ E) as (d & e & _ & Hne & Hd & He & Hl).
    subst line. cbn in Hl. inversion Hl as [Hl'].
    rewrite all_in_digit in Hd.
    apply (count_field_unique d x e Hd He) in Hl'. subst x.
    destruct Hx as [Hx|Hx]; congruence. }
  assert (Hu : header_line line = false).
  { destruct (header_line line) eqn:E; [|reflexivity].
    destruct (header_line_head _ E) as (s & Hs). discriminate. }
  assert (Hi : item_line line = false).
  { destruct (item_line line) eqn:E; [|reflexivity].
    destruct (item_line_head _ E) as (s & Hs). discriminate. }
  assert (Hs : suppr_line line = false).
  { destruct (suppr_line line) eqn:E; [|reflexivity].
    destruct (suppr_line_head _ E) as (s & Hs). discriminate. }
  unfold recognizers_applied. now rewrite Ha, Hu, Hi, Hs.
Qed.

(** A summary line whose count has too many digits for [int] ends the
    loop. *)
Lemma long_count_raises (x : string) (st : state) :
  x <> "" -> PyStr.all_digits x = true ->
  (PyStr.int_max_str_digits < String.length x)%nat ->
  step ("Analyzed " ++ x ++ " units" ++ nl)%string st = Raise ValueError.
Proof.
  intros Hne Hall Hlen. set (line := ("Analyzed " ++ x ++ " units" ++ nl)%string).
  assert (Ha : summary_line line = true).
  { apply (ReComplete.shape_matches analysis_re line [x]).
    cbn [Shape.shape analysis_re].
    exists (x ++ " units" ++ nl)%string. split; [reflexivity|].
    exists x, (" units" ++ nl)%string, []. split; [reflexivity|].
    split; [exact Hne|]. split; [now rewrite all_in_digit|].
    split; [reflexivity|].
    exists nl. split; [reflexivity|]. split; reflexivity. }
  assert (Hc : summary_count line = None).
  { unfold summary_count.
    destruct (rmatch analysis_re line) as [m|] eqn:E; [|reflexivity].
    destruct (analysis_inv _ _ E) as (d & e & -> & _ & Hd & He & Hl).
    subst line. cbn in Hl. inversion Hl as [Hl'].
    rewrite all_in_digit in Hd.
    apply (count_field_unique d x e Hd He) in Hl'. subst d.
    unfold group. cbn [Nat.sub nth]. unfold PyStr.int.
    destruct x as [|a x]; [congruence|].
    rewrite Hall. cbn [andb].
    apply Nat.leb_gt in Hlen. now rewrite Hlen. }
  unfold step. now rewrite on_analysis_spec, Ha, Hc.
Qed.

(** A line of both shapes, read when a unit is under construction, gives
    the unit an item that has the suppression of the line. *)
Lemma both_shapes_step (line : string) (st : state) (u : Unit.t)
      (item : Item.t) (s : Suppression.t) :
  item_of_line line = Some item ->
  suppression_of_line line = Some s ->
  currentUnit st = Some u ->
  step line st =
  Ok (mkState (results st)
        (Some (Unit.set_items (Unit.items u ++ [Item.add_suppression s item])
                              u))).
Proof.
  intros Hi Hs Hu.
  destruct (item_of_line_some _ _ Hi) as (Hl & Hc & _).
  assert (Ha : summary_line line = false).
  { destruct (item_line_head _ Hl) as (t & ->). reflexivity. }
  assert (Hh : header_line line = false) by now apply item_not_header.
  unfold step. rewrite on_analysis_spec, Ha. cbn [bind].
  rewrite on_unit_spec, Hh. cbn [bind].
  rewrite on_item_spec, Hl, Hc, Hi, Hu. cbn [bind].
  rewrite on_suppr_spec, Hs. cbn [currentUnit results Unit.set_items Unit.items].
  rewrite update_last_snoc. destruct u; reflexivity.
Qed.

(** An item line read when no unit is under construction ends the loop. *)
Lemma item_no_unit_step (line : string) (st : state) :
  item_line line = true ->
  currentUnit st = None ->
  step line st =
  Raise (if clauses_convert line then TypeError else ValueError).
Proof.
  intros Hl Hu.
  assert (Ha : summary_line line = false).
  { destruct (item_line_head _ Hl) as (t & ->). reflexivity. }
  assert (Hh : header_line line = false) by now apply item_not_header.
  unfold step. rewrite on_analysis_spec, Ha. cbn [bind].
  rewrite on_unit_spec, Hh. cbn [bind].
  rewrite on_item_spec, Hl, Hu.
  destruct (clauses_convert line); [|reflexivity].
  now destruct (item_of_line line).
Qed.

(** The summary and the header shapes exclude every other shape. *)
Lemma summary_excludes (line : string) :
  summary_line line = true ->
  header_line line = false /\ item_line line = false /\ suppr_line line = false.
Proof.
  intros H. destruct (summary_line_head _ H) as (s & ->).
  split; [|split]; reflexivity.
Qed.

Lemma header_excludes (line : string) :
  header_line line = true ->
  summary_line line = false /\ item_line line = false /\ suppr_line line = false.
Proof.
  intros H. destruct (header_line_head _ H) as (s & ->).
  split; [|split]; reflexivity.
Qed.

End Shapes.

(** C7, as the code has it: the summary shape and the header shape each
    exclude the three other shapes, so that at most two of the four tests
    succeed on a line, and when two do they are the item test and the
    suppression test.  A line that gives an item and a suppression, read
    when a unit is under construction, adds to the unit the item of the
    line with the suppression of the line added to it.  An item line read
    when no unit is under construction ends the loop: with [TypeError]
    when [int] converts the numbers of its clauses, with [ValueError]
    when it does not. *)
Theorem recognizers_exclusive (line : string) :
  (summary_line line = true ->
   header_line line = false /\ item_line line = false /\
   suppr_line line = false) /\
  (header_line line = true ->
   summary_line line = false /\ item_line line = false /\
   suppr_line line = false) /\
  (recognizers_applied line <= 2)%nat /\
  (recognizers_applied line = 2%nat ->
   item_line line = true /\ suppr_line line = true) /\
  (forall st u item s,
      item_of_line line = Some item ->
      suppression_of_line line = Some s ->
      currentUnit st = Some u ->
      step line st =
      Ok (mkState (results st)
            (Some (Unit.set_items
                     (Unit.items u ++ [Item.add_suppression s item]) u)))) /\
  (forall st,
      item_line line = true ->
      currentUnit st = None ->
      step line st =
      Raise (if clauses_convert line then TypeError else ValueError)).
Proof.
  pose proof (Shapes.summary_excludes line) as Hs.
  pose proof (Shapes.header_excludes line) as Hh.
  split; [exact Hs|]. split; [exact Hh|].
  split; [|split; [|split]].
  - unfold recognizers_applied.
    destruct (summary_line line), (header_line line), (item_line line),
      (suppr_line line); cbn; try lia;
      try (destruct Hs as (? & ? & ?); [reflexivity|]; discriminate);
      try (destruct Hh as (? & ? & ?); [reflexivity|]; discriminate).
  - unfold recognizers_applied.
    destruct (summary_line line), (header_line line), (item_line line),
      (suppr_line line); cbn; intros H; try discriminate; try (split; reflexivity);
      try (destruct Hs as (? & ? & ?); [reflexivity|]; discriminate);
      try (destruct Hh as (? & ? & ?); [reflexivity|]; discriminate).
  - intros st u item s. apply Shapes.both_shapes_step.
  - intros st. apply Shapes.item_no_unit_step.
Qed.

Lemma recognizers_exclusive_witness :
  (header_line ("Analyzed 1 units" ++ nl)%string = false /\
   item_line ("Analyzed 1 units" ++ nl)%string = false /\
   suppr_line ("Analyzed 1 units" ++ nl)%string = false) /\
  (summary_line foo_header = false /\ item_line foo_header = false /\
   suppr_line foo_header = false) /\
  (item_line both_shapes_line = true /\ suppr_line both_shapes_line = true) /\
  step both_shapes_line
       (mkState (Report.mk None []) (Some (Unit.mk "Foo" 2 2 []))) =
  Ok (mkState (Report.mk None [])
        (Some (Unit.mk "Foo" 2 2
                 [Item.mk "  x" "f.adb:10" "5" None None
                          [Suppression.mk "x at f.adb" "10" "5" "some message"]
                          0 0 0 0 false false]))) /\
  step both_shapes_line init_state = Raise TypeError.
Proof.
  pose proof (recognizers_exclusive ("Analyzed 1 units" ++ nl)%string) as H1.
  pose proof (recognizers_exclusive foo_header) as H2.
  pose proof (recognizers_exclusive both_shapes_line) as H3.
  split; [|split; [|split; [|split]]].
  - apply (proj1 H1). vm_compute. reflexivity.
  - apply (proj1 (proj2 H2)). vm_compute. reflexivity.
  - apply (proj1 (proj2 (proj2 (proj2 H3)))). vm_compute. reflexivity.
  - apply (proj1 (proj2 (proj2 (proj2 (proj2 H3))))
             (mkState (Report.mk None []) (Some (Unit.mk "Foo" 2 2 [])))
             (Unit.mk "Foo" 2 2 [])
             (Item.mk "  x" "f.adb:10" "5" None None [] 0 0 0 0 false false)
             (Suppression.mk "x at f.adb" "10" "5" "some message"));
      vm_compute; reflexivity.
  - apply (proj2 (proj2 (proj2 (proj2 (proj2 H3)))) init_state);
      vm_compute; reflexivity.
Defined.

(** C7 fails as stated: on this line the item test and the suppression
    test both succeed; the line gives an item and, to this very item, a
    suppression. *)
Lemma item_and_suppression_on_one_line :
  ~ (recognizers_applied both_shapes_line <= 1)%nat /\
  parse_gnatprove_report (foo_header ++ both_shapes_line)%string =
  Ok (Report.mk None
        [Unit.mk "Foo" 2 2
           [Item.mk "  x" "f.adb:10" "5" None None
                    [Suppression.mk "x at f.adb" "10" "5" "some message"]
                    0 0 0 0 false false]]).
Proof.
  split; [vm_compute; lia | vm_compute; reflexivity].
Qed.

(** C6, as the code has it: a line of none of the four shapes leaves the
    state as it is, and a summary line whose count is not a non-empty
    string of digits is such a line: it is ignored, not reported.  The
    count that ends the loop is the one that is too long: a summary line
    whose count has more digits than [int] takes raises [ValueError]. *)
Theorem non_numeric_ignored :
  (forall line st, recognizers_applied line = 0%nat -> step line st = Ok st) /\
  (forall x,
      x = ""%string \/ PyStr.all_digits x = false ->
      recognizers_applied ("Analyzed " ++ x ++ " units" ++ nl)%string = 0%nat) /\
  (forall x st,
      x <> ""%string -> PyStr.all_digits x = true ->
      (PyStr.int_max_str_digits < String.length x)%nat ->
      step ("Analyzed " ++ x ++ " units" ++ nl)%string st = Raise ValueError).
Proof.
  split; [|split].
  - apply Shapes.unrecognized_ignored.
  - apply Shapes.bad_count_unrecognized.
  - apply Shapes.long_count_raises.
Qed.

Lemma non_numeric_ignored_witness :
  step non_numeric_summary init_state = Ok init_state /\
  recognizers_applied ("Analyzed " ++ "X" ++ " units" ++ nl)%string = 0%nat /\
  step ("Analyzed " ++ digits_4301 ++ " units" ++ nl)%string init_state =
  Raise ValueError.
Proof.
  split; [|split].
  - apply (proj1 non_numeric_ignored). vm_compute. reflexivity.
  - apply (proj1 (proj2 non_numeric_ignored)). right. vm_compute. reflexivity.
  - apply (proj2 (proj2 non_numeric_ignored)).
    + vm_compute. discriminate.
    + vm_compute. reflexivity.
    + apply Nat.ltb_lt. vm_compute. reflexivity.
Defined.

(** C6 fails as stated: the line is ignored and a report is returned. *)
Lemma non_numeric_summary_ignored :
  parse_gnatprove_report non_numeric_summary = Ok (Report.mk None []) /\
  parse_gnatprove_report (non_numeric_summary ++ scenario_input)%string =
  parse_gnatprove_report scenario_input.
Proof. split; vm_compute; reflexivity. Qed.

(* ------------------------------------------------------------------ *)
(** ** The trailing clauses *)

Module Clauses.

Import ReFacts Steps StrFacts.

Lemma tail_conflict (X Y : list ascii) (e e' : string) :
  at_eol e = true -> at_eol e' = true ->
  X ++ ")"%char :: list_ascii_of_string e =
  Y ++ "d"%char :: list_ascii_of_string e' -> False.
Proof.
  intros He He' H.
  destruct (at_eol_cases e He) as [->| ->],
           (at_eol_cases e' He') as [->| ->]; cbn in H.
  - apply app_inj_tail in H. destruct H as [_ H]. discriminate.
  - change (Y ++ ["d"%char; PyStr.LF]) with (Y ++ ["d"%char] ++ [PyStr.LF]) in H.
    rewrite app_assoc in H. apply app_inj_tail in H.
    destruct H as [_ H]. discriminate.
  - change (X ++ [")"%char; PyStr.LF]) with (X ++ [")"%char] ++ [PyStr.LF]) in H.
    rewrite app_assoc in H. apply app_inj_tail in H.
    destruct H as [_ H]. discriminate.
  - change (X ++ [")"%char; PyStr.LF]) with (X ++ [")"%char] ++ [PyStr.LF]) in H.
    change (Y ++ ["d"%char; PyStr.LF]) with (Y ++ ["d"%char] ++ [PyStr.LF]) in H.
    rewrite !app_assoc in H. apply app_inj_tail in H. destruct H as [H _].
    apply app_inj_tail in H. destruct H as [_ H]. discriminate.
Qed.

(** A line ends in one way: the two proof clauses, both tied to the end
    of the line, cannot both be found. *)
Lemma proved_xor_not_proved (line : string) :
  found proved_re line = true -> found not_proved_re line = false.
Proof.
  unfold found.
  destruct (search proved_re line) as [m|] eqn:E; [|discriminate].
  destruct (search not_proved_re line) as [m'|] eqn:E'; [|reflexivity].
  intros _. exfalso.
  destruct (proved_inv _ _ E) as (pre & c & e & _ & _ & _ & He & Hl).
  destruct (not_proved_inv _ _ E')
    as (pre' & p & c' & e' & _ & _ & _ & _ & _ & He' & Hl').
  apply (f_equal list_ascii_of_string) in Hl, Hl'.
  rewrite !chars_append in Hl. rewrite !chars_append in Hl'.
  cbn [list_ascii_of_string] in Hl, Hl'.
  rewrite Hl in Hl'. clear Hl.
  apply (tail_conflict
           (list_ascii_of_string pre ++
            list_ascii_of_string "proved (" ++
            list_ascii_of_string c ++ list_ascii_of_string " checks")
           (list_ascii_of_string pre' ++
            list_ascii_of_string "not proved, " ++
            list_ascii_of_string p ++
            list_ascii_of_string " checks out of " ++
            list_ascii_of_string c' ++ list_ascii_of_string " prove")
           e e' He He').
  cbn [list_ascii_of_string]. rewrite <- !app_assoc. cbn [app] in *.
  exact Hl'.
Qed.

Lemma new_item_fresh (f g : option groups) (item : Item.t) :
  new_item f g = Some item ->
  Item.numChecks item = 0%Z /\ Item.numProvedChecks item = 0%Z /\
  Item.flowAnalyzed item = false /\ Item.proved item = false /\
  Item.suppressions item = [].
Proof.
  unfold new_item. destruct g, f; inversion 1; subst; cbn; auto.
Qed.

(** The counts and the flag of an item, from the clauses of its line. *)
Lemma built_proof_fields (line : string) (item0 : Item.t) :
  Item.numChecks item0 = 0%Z -> Item.numProvedChecks item0 = 0%Z ->
  Item.proved item0 = false ->
  let item := built line item0 in
  match not_proved_clause line, proved_clause line with
  | Some (p, c), _ =>
      Item.proved item = true /\ Item.numProvedChecks item = p /\
      Item.numChecks item = c
  | None, Some c =>
      Item.proved item = true /\ Item.numProvedChecks item = c /\
      Item.numChecks item = c
  | None, None =>
      Item.proved item = false /\ Item.numProvedChecks item = 0%Z /\
      Item.numChecks item = 0%Z
  end.
Proof.
  intros H1 H2 H3. unfold built.
  destruct (not_proved_clause line) as [[p c]|],
           (proved_clause line) as [c0|],
           (flow_clause line) as [[e w]|]; cbn; auto.
Qed.

Lemma not_proved_clause_nonneg (line : string) (p c : Z) :
  not_proved_clause line = Some (p, c) -> (0 <= p)%Z /\ (0 <= c)%Z.
Proof.
  unfold not_proved_clause.
  destruct (search not_proved_re line) as [m|]; [|discriminate].
  destruct (PyStr.int (group m 1)) as [p'|] eqn:Ep; [|discriminate].
  destruct (PyStr.int (group m 2)) as [c'|] eqn:Ec; [|discriminate].
  inversion 1; subst. split; eapply int_nonneg; eauto.
Qed.

Lemma proved_clause_nonneg (line : string) (c : Z) :
  proved_clause line = Some c -> (0 <= c)%Z.
Proof.
  unfold proved_clause.
  destruct (search proved_re line) as [m|]; [|discriminate].
  apply int_nonneg.
Qed.

End Clauses.

(** C8, as the code has it: the two proof clauses exclude each other, so
    that at most two of the three clauses are found in a line, and when
    two are, one of them is the flow clause. *)
Theorem proof_clauses_exclusive (line : string) :
  (found proved_re line = true -> found not_proved_re line = false) /\
  (clauses_fired line <= 2)%nat /\
  (clauses_fired line = 2%nat -> found flow_re line = true).
Proof.
  pose proof (Clauses.proved_xor_not_proved line) as H.
  unfold clauses_fired.
  destruct (found flow_re line), (found proved_re line),
    (found not_proved_re line); cbn; repeat split; intros; try lia;
    try reflexivity; try discriminate;
    try (specialize (H eq_refl); discriminate).
Qed.

Lemma proof_clauses_exclusive_witness :
  found not_proved_re ("  Foo.Baz at foo.adb:20 proved (3 checks)" ++ nl)%string
  = false /\
  found flow_re flow_and_proof_line = true.
Proof.
  split.
  - apply (proj1 (proof_clauses_exclusive
                    ("  Foo.Baz at foo.adb:20 proved (3 checks)" ++ nl)%string)).
    vm_compute. reflexivity.
  - apply (proj2 (proj2 (proof_clauses_exclusive flow_and_proof_line))).
    vm_compute. reflexivity.
Defined.

(** C8 fails as stated: in this line the flow clause and a proof clause
    are both found, and the item has the flow fields and the proof fields
    set; the exporter calls such an item 'flow + proof'. *)
Lemma flow_and_proof_on_one_line :
  ~ (clauses_fired flow_and_proof_line <= 1)%nat /\
  item_of_line flow_and_proof_line =
    Some (Item.mk "Foo.Qux" "foo.adb" "30" None None [] 0 0 2 2 true true) /\
  parse_gnatprove_report (foo_header ++ flow_and_proof_line)%string =
    Ok (Report.mk None
          [Unit.mk "Foo" 2 2
             [Item.mk "Foo.Qux" "foo.adb" "30" None None [] 0 0 2 2 true true]]) /\
  analysis_type (Item.mk "Foo.Qux" "foo.adb" "30" None None [] 0 0 2 2 true true)
  = FlowAndProof.
Proof.
  repeat split; try (vm_compute; reflexivity). vm_compute. lia.
Qed.

(* ------------------------------------------------------------------ *)
(** ** The items of a report *)

Module Items.

Import ReFacts Steps Loop Clauses.

Lemma all_items_app (a b : list Unit.t) :
  all_items (a ++ b) = all_items a ++ all_items b.
Proof. apply flat_map_app. Qed.

Lemma all_items_seal (r : Report.t) (u : Unit.t) :
  all_items (seal (mkState r (Some u))) =
  all_items (Report.units r) ++ Unit.items u.
Proof.
  unfold seal; cbn [currentUnit results].
  rewrite all_items_app. cbn. now rewrite app_nil_r.
Qed.

Section Invariant.

Variable Q : Item.t -> Prop.
Hypothesis Q_suppr : forall s item, Q item -> Q (Item.add_suppression s item).

Lemma on_item_items (line : string) (st st' : state) :
  (forall item, item_of_line line = Some item -> Q item) ->
  Forall Q (all_items (seal st)) ->
  on_item line st = Ok st' ->
  Forall Q (all_items (seal st')).
Proof.
  intros Hl Hst. rewrite on_item_spec.
  destruct (item_line line); [|inversion 1; subst; assumption].
  destruct (clauses_convert line); [|discriminate].
  destruct (item_of_line line) as [item|]; [|discriminate].
  destruct st as [r [u|]]; cbn [currentUnit results]; [|discriminate].
  inversion 1; subst st'.
  rewrite all_items_seal in *. cbn [Unit.set_items Unit.items].
  rewrite app_assoc. apply Forall_app; split; [assumption|].
  constructor; [now apply Hl | constructor].
Qed.

Lemma on_suppr_items (line : string) (st st' : state) :
  Forall Q (all_items (seal st)) ->
  on_suppr line st = Ok st' ->
  Forall Q (all_items (seal st')).
Proof.
  intros Hst. unfold on_suppr.
  destruct (rmatch suppr_msg_re line) as [m|]; [|inversion 1; subst; assumption].
  destruct st as [r [u|]]; cbn [currentUnit results]; [|discriminate].
  destruct (update_last _ (Unit.items u)) as [l'|] eqn:E; [|discriminate].
  inversion 1; subst st'.
  destruct (update_last_some _ _ _ E) as (l0 & x & Hu & ->).
  rewrite all_items_seal in *. cbn [Unit.set_items Unit.items].
  rewrite Hu in Hst. rewrite !app_assoc in *.
  apply Forall_app in Hst. destruct Hst as [H0 Hx].
  apply Forall_app; split; [assumption|].
  inversion Hx; subst. constructor; [now apply Q_suppr | constructor].
Qed.

Lemma step_items (line : string) (st st' : state) :
  (forall item, item_of_line line = Some item -> Q item) ->
  Forall Q (all_items (seal st)) ->
  step line st = Ok st' ->
  Forall Q (all_items (seal st')).
Proof.
  intros Hl Hst H. pose proof (step_ok_converts _ _ _ H) as Hc.
  destruct (step_unfold line st Hc) as (n & E). rewrite E in H. clear E.
  revert H.
  destruct (on_item line _) as [st2|] eqn:E2; cbn [bind]; [|discriminate].
  apply on_suppr_items.
  apply (on_item_items _ _ _ Hl) in E2; [assumption|].
  destruct (header line) as [[[name a] t]|].
  - rewrite all_items_seal. cbn. now rewrite app_nil_r.
  - exact Hst.
Qed.

Lemma loop_items (lines : list string) :
  forall st st',
    (forall line item, In line lines -> item_of_line line = Some item -> Q item) ->
    Forall Q (all_items (seal st)) ->
    loop lines st = Ok st' ->
    Forall Q (all_items (seal st')).
Proof.
  induction lines as [|l lines IH]; intros st st' Hl Hst H; cbn [loop] in H.
  - now inversion H; subst.
  - destruct (step l st) as [st1|] eqn:E; cbn [bind] in H; [|discriminate].
    apply (IH st1 st'); [| |assumption].
    + intros line item Hin. apply Hl. now right.
    + apply (step_items l st st1); [|assumption..].
      intros item. apply Hl. now left.
Qed.

(** Every item of a report is as its line made it, up to suppressions. *)
Lemma parse_lines_items (lines : list string) (r : Report.t) :
  (forall line item, In line lines -> item_of_line line = Some item -> Q item) ->
  parse_lines lines = Ok r ->
  forall u item, In u (Report.units r) -> In item (Unit.items u) -> Q item.
Proof.
  intros Hl H u item Hu Hi. unfold parse_lines in H.
  destruct (loop lines init_state) as [st|] eqn:E; cbn [bind] in H;
    [|discriminate].
  inversion H; subst r. cbn [Report.units] in Hu.
  assert (HF : Forall Q (all_items (seal st))).
  { apply (loop_items lines init_state st); [assumption | constructor | assumption]. }
  rewrite Forall_forall in HF. apply HF.
  unfold all_items. apply in_flat_map. eauto.
Qed.

End Invariant.

Lemma item_of_line_proof_fields (line : string) (item : Item.t) :
  item_of_line line = Some item ->
  match not_proved_clause line, proved_clause line with
  | Some (p, c), _ =>
      Item.proved item = true /\ Item.numProvedChecks item = p /\
      Item.numChecks item = c
  | None, Some c =>
      Item.proved item = true /\ Item.numProvedChecks item = c /\
      Item.numChecks item = c
  | None, None =>
      Item.proved item = false /\ Item.numProvedChecks item = 0%Z /\
      Item.numChecks item = 0%Z
  end.
Proof.
  intros H. destruct (item_of_line_some _ _ H) as (_ & _ & item0 & E & ->).
  destruct (new_item_fresh _ _ _ E) as (H1 & H2 & _ & H4 & _).
  now apply built_proof_fields.
Qed.

End Items.

(** C4, as the code has it: an item made by a clause "not proved, P checks
    out of C proved" has [proved] set, [numProvedChecks = P] and
    [numChecks = C], whatever [P] and [C] are; an item made by a clause
    "proved (C checks)" has [numProvedChecks = numChecks = C]; and when
    every "not proved" clause of the input has [P <= C], every item of the
    report has [0 <= numProvedChecks <= numChecks]. *)
Theorem proved_checks_as_stated :
  (forall line item p c,
      item_of_line line = Some item ->
      not_proved_clause line = Some (p, c) ->
      Item.proved item = true /\ Item.numProvedChecks item = p /\
      Item.numChecks item = c) /\
  (forall line item c,
      item_of_line line = Some item ->
      not_proved_clause line = None ->
      proved_clause line = Some c ->
      Item.proved item = true /\ Item.numProvedChecks item = c /\
      Item.numChecks item = c) /\
  (forall content r,
      parse_gnatprove_report content = Ok r ->
      (forall line p c,
          In line (PyStr.readlines content) ->
          not_proved_clause line = Some (p, c) -> (p <= c)%Z) ->
      forall u item,
        In u (Report.units r) -> In item (Unit.items u) ->
        (0 <= Item.numProvedChecks item <= Item.numChecks item)%Z).
Proof.
  split; [|split].
  - intros line item p c Hi Hn.
    pose proof (Items.item_of_line_proof_fields line item Hi) as H.
    now rewrite Hn in H.
  - intros line item c Hi Hn Hp.
    pose proof (Items.item_of_line_proof_fields line item Hi) as H.
    now rewrite Hn, Hp in H.
  - intros content r Hr Hle.
    apply (Items.parse_lines_items
             (fun item =>
                (0 <= Item.numProvedChecks item <= Item.numChecks item)%Z)
             (fun s item H => H) (PyStr.readlines content) r); [|exact Hr].
    intros line item Hin Hi.
    pose proof (Items.item_of_line_proof_fields line item Hi) as H.
    destruct (not_proved_clause line) as [[p c]|] eqn:En.
    + destruct H as (_ & -> & ->).
      destruct (Clauses.not_proved_clause_nonneg _ _ _ En).
      pose proof (Hle line p c Hin En). lia.
    + destruct (proved_clause line) as [c|] eqn:Ep.
      * destruct H as (_ & -> & ->).
        pose proof (Clauses.proved_clause_nonneg _ _ Ep). lia.
      * destruct H as (_ & -> & ->). lia.
Qed.

Lemma proved_checks_as_stated_witness :
  (Item.proved (Item.mk "Foo.Bad" "foo.adb" "40" None None [] 0 0 2 5 false true)
   = true /\
   Item.numProvedChecks
     (Item.mk "Foo.Bad" "foo.adb" "40" None None [] 0 0 2 5 false true) = 5%Z /\
   Item.numChecks
     (Item.mk "Foo.Bad" "foo.adb" "40" None None [] 0 0 2 5 false true) = 2%Z) /\
  (Item.proved foo_baz = true /\ Item.numProvedChecks foo_baz = 3%Z /\
   Item.numChecks foo_baz = 3%Z) /\
  (0 <= Item.numProvedChecks foo_baz <= Item.numChecks foo_baz)%Z.
Proof.
  split; [|split].
  - apply (proj1 proved_checks_as_stated inconsistent_line);
      vm_compute; reflexivity.
  - apply (proj1 (proj2 proved_checks_as_stated)
                 ("  Foo.Baz at foo.adb:20 proved (3 checks)" ++ nl)%string);
      vm_compute; reflexivity.
  - apply (proj2 (proj2 proved_checks_as_stated) scenario_input
                 (Report.mk (Some 1%Z) [Unit.mk "Foo" 2 2 [foo_bar; foo_baz]]))
      with (u := Unit.mk "Foo" 2 2 [foo_bar; foo_baz]).
    + vm_compute. reflexivity.
    + intros line p c Hin.
      vm_compute in Hin.
      destruct Hin as [<-|[<-|[<-|[<-|[]]]]]; vm_compute; discriminate.
    + left. reflexivity.
    + right. left. reflexivity.
Defined.

(** C4 fails as stated: the line says 5 checks proved out of 2; the item
    has [proved] set and more proved checks than checks. *)
Lemma more_proved_than_checks :
  parse_gnatprove_report (foo_header ++ inconsistent_line)%string =
    Ok (Report.mk None
          [Unit.mk "Foo" 2 2
             [Item.mk "Foo.Bad" "foo.adb" "40" None None [] 0 0 2 5 false true]]) /\
  ~ (Item.numProvedChecks
       (Item.mk "Foo.Bad" "foo.adb" "40" None None [] 0 0 2 5 false true) <=
     Item.numChecks
       (Item.mk "Foo.Bad" "foo.adb" "40" None None [] 0 0 2 5 false true))%Z.
Proof. split; [vm_compute; reflexivity | cbn; lia]. Qed.


(* ------------------------------------------------------------------ *)
(** ** Two reports, one after the other *)

Module Concat.

Import ReFacts Steps Loop StrFacts.

Local Open Scope string_scope.

Lemma string_pair_ind (P : string -> Prop) :
  P "" ->
  (forall c, P (String c "")) ->
  (forall c d s, P s -> P (String d s) -> P (String c (String d s))) ->
  forall s, P s.
Proof.
  intros H0 H1 H2 s.
  assert (H : P s /\ forall c, P (String c s)).
  { induction s as [|d s [IH1 IH2]]; [split; auto|].
    split; [apply IH2|]. intros c. apply H2; auto. }
  apply H.
Qed.

Lemma terminated_cons (c d : ascii) (s : string) :
  terminated (String c (String d s)) = terminated (String d s).
Proof. reflexivity. Qed.

(** Newline translation goes through a text that ends with a newline. *)
Lemma universal_newlines_app (A : string) :
  terminated A = true ->
  forall B,
    PyStr.universal_newlines (A ++ B) =
    PyStr.universal_newlines A ++ PyStr.universal_newlines B.
Proof.
  induction A as [|c|c d A IH1 IH2] using string_pair_ind; intros T B.
  - discriminate.
  - cbn in T. unfold PyStr.is_LF in T. apply Ascii.eqb_eq in T. subst c.
    reflexivity.
  - rewrite terminated_cons in T.
    cbn [append PyStr.universal_newlines].
    destruct (Ascii.eqb c PyStr.CR).
    + destruct (Ascii.eqb d PyStr.LF).
      * destruct A as [|a A].
        -- reflexivity.
        -- cbn [append]. f_equal. apply IH1. exact T.
      * cbn [append]. f_equal. apply (IH2 T B).
    + cbn [append]. f_equal. apply (IH2 T B).
Qed.

Lemma universal_newlines_cons2 (c d : ascii) (s : string) :
  PyStr.universal_newlines (String c (String d s)) =
  if Ascii.eqb c PyStr.CR then
    if Ascii.eqb d PyStr.LF then String PyStr.LF (PyStr.universal_newlines s)
    else String PyStr.LF (PyStr.universal_newlines (String d s))
  else String c (PyStr.universal_newlines (String d s)).
Proof. reflexivity. Qed.

Lemma terminated_cons_nonempty (c : ascii) (s : string) :
  s <> "" -> terminated (String c s) = terminated s.
Proof. destruct s; [congruence | reflexivity]. Qed.

Lemma universal_newlines_nonempty (c : ascii) (s : string) :
  PyStr.universal_newlines (String c s) <> "".
Proof.
  cbn. destruct (Ascii.eqb c PyStr.CR); [|discriminate].
  destruct s as [|d s]; [discriminate|].
  destruct (Ascii.eqb d PyStr.LF); discriminate.
Qed.

Lemma universal_newlines_terminated (A : string) :
  terminated A = true -> terminated (PyStr.universal_newlines A) = true.
Proof.
  induction A as [|c|c d A IH1 IH2] using string_pair_ind; intros T.
  - discriminate.
  - cbn in T. unfold PyStr.is_LF in T. apply Ascii.eqb_eq in T. subst c.
    reflexivity.
  - rewrite terminated_cons in T. rewrite universal_newlines_cons2.
    specialize (IH2 T).
    pose proof (universal_newlines_nonempty d A) as Hne.
    destruct (Ascii.eqb c PyStr.CR).
    + destruct (Ascii.eqb d PyStr.LF) eqn:Ed.
      * destruct A as [|a A]; [reflexivity|].
        rewrite terminated_cons_nonempty;
          [apply IH1; exact T | apply universal_newlines_nonempty].
      * now rewrite terminated_cons_nonempty.
    + now rewrite terminated_cons_nonempty.
Qed.

Lemma iter_lines_cons_nonempty (c : ascii) (s : string) :
  PyStr.iter_lines (String c s) <> [].
Proof.
  cbn. destruct (PyStr.is_LF c); [discriminate|].
  destruct (PyStr.iter_lines s); discriminate.
Qed.

(** The lines of a text that ends with a newline are not changed by what
    follows it. *)
Lemma iter_lines_app (S : string) :
  terminated S = true ->
  forall T,
    PyStr.iter_lines (S ++ T) = (PyStr.iter_lines S ++ PyStr.iter_lines T)%list.
Proof.
  induction S as [|c S IH]; intros H T; [discriminate|].
  destruct S as [|d S].
  - cbn in H. cbn [append PyStr.iter_lines]. rewrite H. reflexivity.
  - rewrite terminated_cons in H. specialize (IH H T).
    change (String c (String d S) ++ T) with (String c (String d S ++ T)).
    cbn [PyStr.iter_lines] in *. rewrite IH.
    destruct (PyStr.is_LF c); [reflexivity|].
    pose proof (iter_lines_cons_nonempty d S) as Hne.
    cbn [PyStr.iter_lines] in Hne.
    match goal with
    | |- context [match (?X ++ _)%list with _ => _ end] =>
        destruct X as [|l ls]; [congruence | reflexivity]
    end.
Qed.

Lemma readlines_app (A B : string) :
  terminated A = true ->
  PyStr.readlines (A ++ B) = (PyStr.readlines A ++ PyStr.readlines B)%list.
Proof.
  intros T. unfold PyStr.readlines.
  rewrite (universal_newlines_app A T).
  apply iter_lines_app. now apply universal_newlines_terminated.
Qed.

Local Close Scope string_scope.

Lemma resumed_seal (P : list Unit.t) (s0 s : state) :
  resumed P s0 s -> seal s = P ++ seal s0.
Proof.
  unfold resumed, seal. intros [[Hc Hu]|[Hc Hs]].
  - rewrite <- Hc, Hu. destruct (currentUnit s0); [|reflexivity].
    now rewrite app_assoc.
  - now rewrite Hc.
Qed.

Lemma resumed_init (st : state) : resumed (seal st) init_state st.
Proof. right. cbn. now rewrite app_nil_r. Qed.

Lemma on_item_resumed (P : list Unit.t) (line : string) (s0 s0' s : state) :
  resumed P s0 s ->
  on_item line s0 = Ok s0' ->
  exists s', on_item line s = Ok s' /\ resumed P s0' s'.
Proof.
  intros R. rewrite !on_item_spec.
  destruct (item_line line); [|inversion 1; subst s0'; eauto].
  destruct (clauses_convert line); [|discriminate].
  destruct (item_of_line line) as [item|]; [|discriminate].
  destruct s0 as [r0 [u|]]; cbn [currentUnit results]; [|discriminate].
  inversion 1; subst s0'.
  destruct R as [[Hc Hu]|[Hc _]]; [|discriminate].
  cbn [currentUnit results] in Hc, Hu. rewrite <- Hc.
  eexists; split; [reflexivity|]. left. cbn. auto.
Qed.

Lemma on_suppr_resumed (P : list Unit.t) (line : string) (s0 s0' s : state) :
  resumed P s0 s ->
  on_suppr line s0 = Ok s0' ->
  exists s', on_suppr line s = Ok s' /\ resumed P s0' s'.
Proof.
  intros R. unfold on_suppr.
  destruct (rmatch suppr_msg_re line) as [m|].
  - destruct s0 as [r0 [u|]]; cbn [currentUnit results]; [|discriminate].
    destruct (update_last _ (Unit.items u)) as [l'|] eqn:E; [|discriminate].
    inversion 1; subst s0'.
    destruct R as [[Hc Hu]|[Hc _]]; [|discriminate].
    cbn [currentUnit results] in Hc, Hu. rewrite <- Hc, E.
    eexists; split; [reflexivity|]. left. cbn. auto.
  - inversion 1; subst s0'. eauto.
Qed.

Lemma step_resumed (P : list Unit.t) (line : string) (s0 s0' s : state) :
  resumed P s0 s ->
  step line s0 = Ok s0' ->
  exists s', step line s = Ok s' /\ resumed P s0' s'.
Proof.
  intros R H. pose proof (step_ok_converts _ _ _ H) as Hcv. revert H.
  destruct (step_unfold line s0 Hcv) as (n0 & ->).
  destruct (step_unfold line s Hcv) as (n & ->).
  match goal with
  | |- context [on_item line ?a] =>
      match goal with
      | |- context [ex (fun _ => bind (on_item line ?b) _ = _ /\ _)] =>
          assert (R1 : resumed P a b)
      end
  end.
  { destruct (header line) as [[[name a] t]|].
    - left. cbn [currentUnit results Report.units].
      split; [reflexivity | now apply resumed_seal].
    - destruct R as [[Hc Hu]|[Hc Hs]]; [left | right]; cbn; auto. }
  destruct (on_item line _) as [s02|] eqn:E0; cbn [bind]; [|discriminate].
  destruct (on_item_resumed _ _ _ _ _ R1 E0) as (s2 & -> & R2). cbn [bind].
  now apply on_suppr_resumed.
Qed.

Lemma loop_resumed (P : list Unit.t) (lines : list string) :
  forall s0 s0' s,
    resumed P s0 s ->
    loop lines s0 = Ok s0' ->
    exists s', loop lines s = Ok s' /\ resumed P s0' s'.
Proof.
  induction lines as [|l lines IH]; intros s0 s0' s R H; cbn [loop] in *.
  - inversion H; subst. eauto.
  - destruct (step l s0) as [s01|] eqn:E; cbn [bind] in H; [|discriminate].
    destruct (step_resumed _ _ _ _ _ R E) as (s1 & -> & R1). cbn [bind].
    eapply IH; eauto.
Qed.

(** Lines that make a report by themselves add its units to those of a
    report that was being read. *)
Lemma parse_lines_app (la lb : list string) (ra rb : Report.t) :
  parse_lines la = Ok ra ->
  parse_lines lb = Ok rb ->
  exists r,
    parse_lines (la ++ lb) = Ok r /\
    Report.units r = Report.units ra ++ Report.units rb.
Proof.
  unfold parse_lines. intros Ha Hb. rewrite loop_app.
  destruct (loop la init_state) as [sa|] eqn:Ea; cbn [bind] in *;
    [|discriminate].
  destruct (loop lb init_state) as [sb|] eqn:Eb; cbn [bind] in *;
    [|discriminate].
  inversion Ha; subst ra. inversion Hb; subst rb. cbn [Report.units].
  destruct (loop_resumed _ _ _ _ _ (resumed_init sa) Eb) as (s' & -> & R).
  cbn [bind]. eexists; split; [reflexivity|].
  cbn [Report.units]. now apply resumed_seal.
Qed.

End Concat.

(** C9: when a text that ends with a newline and a second text each make
    a report, the first followed by the second makes a report, whose units
    are the units of the first report followed by those of the second. *)
Theorem concatenated_reports (A B : string) (rA rB : Report.t) :
  terminated A = true ->
  parse_gnatprove_report A = Ok rA ->
  parse_gnatprove_report B = Ok rB ->
  exists r,
    parse_gnatprove_report (A ++ B)%string = Ok r /\
    Report.units r = Report.units rA ++ Report.units rB.
Proof.
  intros T HA HB. unfold parse_gnatprove_report in *.
  rewrite (Concat.readlines_app A B T).
  now apply Concat.parse_lines_app.
Qed.

Lemma concatenated_reports_witness :
  exists r,
    parse_gnatprove_report
      (scenario_input ++ (foo_header ++ flow_and_proof_line))%string = Ok r /\
    Report.units r =
      [Unit.mk "Foo" 2 2 [foo_bar; foo_baz]] ++
      [Unit.mk "Foo" 2 2
         [Item.mk "Foo.Qux" "foo.adb" "30" None None [] 0 0 2 2 true true]].
Proof.
  apply (concatenated_reports
           scenario_input (foo_header ++ flow_and_proof_line)%string
           (Report.mk (Some 1%Z) [Unit.mk "Foo" 2 2 [foo_bar; foo_baz]])
           (Report.mk None
              [Unit.mk "Foo" 2 2
                 [Item.mk "Foo.Qux" "foo.adb" "30" None None [] 0 0 2 2
                          true true]]));
    vm_compute; reflexivity.
Defined.


(* ------------------------------------------------------------------ *)
(** ** The two patterns of an item line *)

(** X1: every line the pattern of a generic instantiation matches is
    matched by the pattern of a plain item too, so that the test
    [file_match or gen_file_match] succeeds exactly when [file_re]
    matches. *)
Theorem generic_is_plain (line : string) :
  (matches gen_file_re line = true -> matches file_re line = true) /\
  item_line line = matches file_re line.
Proof.
  assert (H : matches gen_file_re line = true -> matches file_re line = true).
  { unfold matches at 1.
    destruct (rmatch gen_file_re line) as [m|] eqn:E; [|discriminate].
    intros _. apply ReFacts.rmatch_shape in E. cbn [shape gen_file_re] in E.
    destruct E as (s1 & -> & n & r1 & c1 & -> & Hn & Hdn & -> &
                   s2 & -> & f & r2 & c2 & -> & Hf & Hdf & -> &
                   s3 & -> & l & r3 & c3 & -> & Hl & Hdl & -> & _).
    apply (ReComplete.shape_matches file_re _ [n; f; l]).
    cbn [shape file_re].
    eexists; split; [reflexivity|].
    exists n, (" at " ++ f ++ ":" ++ l ++ r3)%string, [f; l].
    do 4 (split; [auto; fail|]).
    eexists; split; [reflexivity|].
    exists f, (":" ++ l ++ r3)%string, [l].
    do 4 (split; [auto; fail|]).
    eexists; split; [reflexivity|].
    exists l, r3, []. auto. }
  split; [exact H|].
  unfold item_line.
  destruct (matches gen_file_re line); [|now rewrite orb_false_r].
  rewrite (H eq_refl). reflexivity.
Qed.

Lemma generic_is_plain_witness :
  matches file_re
    ("  G.P at g.ads:3, instantiated at h.adb:77 proved (1 checks)" ++ nl)%string
  = true.
Proof.
  apply (proj1 (generic_is_plain _)). vm_compute. reflexivity.
Defined.

(* ------------------------------------------------------------------ *)
(** ** What a report keeps of the lines *)

Module Trace.

Import ReFacts Steps Loop Clauses Items.

Lemma on_item_results (line : string) (st st' : state) :
  on_item line st = Ok st' -> results st' = results st.
Proof.
  rewrite on_item_spec. destruct (item_line line); [|now inversion 1].
  destruct (clauses_convert line); [|discriminate].
  destruct (item_of_line line); [|discriminate].
  destruct st as [r [u|]]; cbn; [|discriminate]. now inversion 1.
Qed.

Lemma on_suppr_results (line : string) (st st' : state) :
  on_suppr line st = Ok st' -> results st' = results st.
Proof.
  unfold on_suppr. destruct (rmatch suppr_msg_re line); [|now inversion 1].
  destruct st as [r [u|]]; cbn; [|discriminate].
  destruct (update_last _ _); [|discriminate]. now inversion 1.
Qed.

(** A turn of the loop, up to the item test, with what it does to the
    saved units and to the count of the summary. *)
Lemma step_results (line : string) (st st' : state) :
  step line st = Ok st' ->
  Report.numUnitsAnalyzed (results st') =
    match summary_count line with
    | Some n => Some n
    | None => Report.numUnitsAnalyzed (results st)
    end /\
  Report.units (results st') =
    if header_line line then seal st else Report.units (results st).
Proof.
  intros H. pose proof (step_ok_converts _ _ _ H) as Hcv.
  destruct (converts_parts _ Hcv) as (Ha & Hh & _).
  revert H. unfold step. rewrite (on_analysis_count _ _ Ha). cbn [bind].
  match goal with |- context [on_unit line ?s] => set (st1 := s) end.
  pose proof (on_unit_ok line st1 Hh) as Hu. clear Hh.
  destruct (header line) as [[[name a] t]|]; destruct Hu as [-> ->];
    cbn [bind]; intros H;
    (destruct (on_item line _) as [st2|] eqn:E2; cbn [bind] in H;
     [|discriminate]);
    apply on_item_results in E2; apply on_suppr_results in H;
    rewrite H, E2; cbn; auto.
Qed.

Lemma loop_last_summary (lines : list string) :
  forall st st',
    loop lines st = Ok st' ->
    Report.numUnitsAnalyzed (results st') =
    fold_left (fun acc line =>
                 match summary_count line with Some n => Some n | None => acc end)
              lines (Report.numUnitsAnalyzed (results st)).
Proof.
  induction lines as [|l lines IH]; intros st st' H; cbn [loop] in H.
  - now inversion H.
  - destruct (step l st) as [st1|] eqn:E; cbn [bind] in H; [|discriminate].
    cbn [fold_left]. rewrite (IH _ _ H).
    now destruct (step_results _ _ _ E) as [-> _].
Qed.

(** The units saved so far stay at the head of the saved units. *)
Lemma loop_units_prefix (lines : list string) :
  forall st st',
    loop lines st = Ok st' ->
    exists more,
      Report.units (results st') = Report.units (results st) ++ more.
Proof.
  induction lines as [|l lines IH]; intros st st' H; cbn [loop] in H.
  - inversion H; subst. exists []. now rewrite app_nil_r.
  - destruct (step l st) as [st1|] eqn:E; cbn [bind] in H; [|discriminate].
    destruct (IH _ _ H) as (more & ->).
    destruct (step_results _ _ _ E) as [_ ->].
    destruct (header_line l); [|eauto].
    unfold seal. destruct (currentUnit st) as [u|].
    + exists ([u] ++ more). now rewrite app_assoc.
    + eauto.
Qed.

Lemma item_of_line_fresh (line : string) (item : Item.t) :
  item_of_line line = Some item -> Item.suppressions item = [].
Proof.
  intros H. destruct (item_of_line_some _ _ H) as (_ & _ & item0 & E & ->).
  destruct (new_item_fresh _ _ _ E) as (_ & _ & _ & _ & Hs).
  unfold built.
  destruct (not_proved_clause line) as [[p c]|],
           (proved_clause line) as [c0|],
           (flow_clause line) as [[e w]|]; cbn; assumption.
Qed.

Lemma without_suppressions_fresh (item : Item.t) :
  Item.suppressions item = [] -> without_suppressions item = item.
Proof. destruct item; cbn; intros ->; reflexivity. Qed.

Lemma without_suppressions_add (s : Suppression.t) (item : Item.t) :
  without_suppressions (Item.add_suppression s item) =
  without_suppressions item.
Proof. reflexivity. Qed.

Lemma on_item_trace (line : string) (st st' : state) :
  on_item line st = Ok st' ->
  all_items (seal st') = all_items (seal st) ++ opt_list (item_of_line line).
Proof.
  rewrite on_item_spec. destruct (item_line line) eqn:El.
  - destruct (clauses_convert line); [|discriminate].
    destruct (item_of_line line) as [item|]; [|discriminate].
    destruct st as [r [u|]]; cbn [currentUnit results]; [|discriminate].
    inversion 1; subst st'. rewrite !all_items_seal.
    cbn. now rewrite app_assoc.
  - inversion 1; subst.
    assert (Hn : item_of_line line = None).
    { rewrite item_of_line_spec. rewrite item_line_new_item in El.
      destruct (new_item _ _); [discriminate | reflexivity]. }
    rewrite Hn. cbn. now rewrite app_nil_r.
Qed.

Lemma on_suppr_trace (line : string) (st st' : state) :
  on_suppr line st = Ok st' ->
  map without_suppressions (all_items (seal st')) =
    map without_suppressions (all_items (seal st)) /\
  all_suppressions (seal st') =
    all_suppressions (seal st) ++ opt_list (suppression_of_line line).
Proof.
  unfold on_suppr, suppression_of_line, all_suppressions.
  destruct (rmatch suppr_msg_re line) as [m|].
  - destruct st as [r [u|]]; cbn [currentUnit results]; [|discriminate].
    destruct (update_last _ (Unit.items u)) as [l'|] eqn:E; [|discriminate].
    inversion 1; subst st'.
    destruct (update_last_some _ _ _ E) as (l0 & x & Hu & ->).
    rewrite !all_items_seal. cbn [Unit.set_items Unit.items]. rewrite Hu.
    rewrite !map_app, !flat_map_app. cbn. rewrite !app_nil_r.
    split; [reflexivity|]. now rewrite <- !app_assoc.
  - inversion 1; subst st'. cbn. now rewrite app_nil_r.
Qed.

(** What a turn of the loop does to the items and to the suppressions of
    the units saved or under construction. *)
Lemma step_items_suppressions (line : string) (st st' : state) :
  step line st = Ok st' ->
  map without_suppressions (all_items (seal st')) =
    map without_suppressions (all_items (seal st)) ++
    opt_list (item_of_line line) /\
  all_suppressions (seal st') =
    all_suppressions (seal st) ++ opt_list (suppression_of_line line).
Proof.
  intros H. pose proof (step_ok_converts _ _ _ H) as Hcv. revert H.
  destruct (step_unfold line st Hcv) as (n & ->).
  match goal with |- context [on_item line ?s] => set (st1 := s) end.
  assert (H1 : all_items (seal st1) = all_items (seal st)).
  { subst st1. destruct (header line) as [[[name a] t]|]; [|reflexivity].
    rewrite all_items_seal. cbn. now rewrite app_nil_r. }
  clearbody st1.
  destruct (on_item line st1) as [st2|] eqn:E2; cbn [bind]; [|discriminate].
  intros E3. apply on_item_trace in E2. apply on_suppr_trace in E3.
  destruct E3 as [-> ->]. unfold all_suppressions. rewrite E2, H1.
  rewrite map_app, flat_map_app.
  destruct (item_of_line line) as [item|] eqn:Ei; cbn [opt_list map flat_map].
  - pose proof (item_of_line_fresh _ _ Ei) as Hs.
    rewrite Hs, (without_suppressions_fresh _ Hs). cbn.
    now rewrite !app_nil_r.
  - now rewrite !app_nil_r.
Qed.

Lemma loop_items_suppressions (lines : list string) :
  forall st st',
    loop lines st = Ok st' ->
    map without_suppressions (all_items (seal st')) =
      map without_suppressions (all_items (seal st)) ++ items_of_lines lines /\
    all_suppressions (seal st') =
      all_suppressions (seal st) ++ suppressions_of_lines lines.
Proof.
  induction lines as [|l lines IH]; intros st st' H; cbn [loop] in H.
  - inversion H; subst. cbn. now rewrite !app_nil_r.
  - destruct (step l st) as [st1|] eqn:E; cbn [bind] in H; [|discriminate].
    destruct (IH _ _ H) as [-> ->].
    destruct (step_items_suppressions _ _ _ E) as [-> ->].
    unfold items_of_lines, suppressions_of_lines. cbn [flat_map].
    now rewrite <- !app_assoc.
Qed.

End Trace.

Module TraceFacts.

Import ReFacts Steps Loop Clauses Items Trace.

Lemma parse_lines_loop (lines : list string) (r : Report.t) :
  parse_lines lines = Ok r ->
  exists st,
    loop lines init_state = Ok st /\
    r = Report.mk (Report.numUnitsAnalyzed (results st)) (seal st).
Proof.
  unfold parse_lines.
  destruct (loop lines init_state) as [st|]; cbn [bind]; [|discriminate].
  inversion 1. eauto.
Qed.

Lemma items_of_lines_length (lines : list string) :
  (forall l, In l lines -> converts l = true) ->
  length (items_of_lines lines) = length (filter item_line lines).
Proof.
  induction lines as [|l lines IH]; intros Hc; [reflexivity|].
  unfold items_of_lines in *. cbn [flat_map filter].
  destruct (converts_parts l (Hc l (or_introl eq_refl))) as (_ & _ & Hi).
  rewrite length_app, IH, (item_line_item _ Hi).
  - destruct (item_of_line l); reflexivity.
  - intros x Hx. apply Hc. now right.
Qed.

Lemma suppressions_of_lines_length (lines : list string) :
  length (suppressions_of_lines lines) = length (filter suppr_line lines).
Proof.
  induction lines as [|l lines IH]; [reflexivity|].
  unfold suppressions_of_lines in *. cbn [flat_map filter].
  rewrite length_app, IH. unfold suppression_of_line, suppr_line, matches.
  destruct (rmatch suppr_msg_re l); reflexivity.
Qed.

Lemma summary_count_nonneg (line : string) (n : Z) :
  summary_count line = Some n -> (0 <= n)%Z.
Proof.
  unfold summary_count. destruct (rmatch analysis_re line); [|discriminate].
  apply int_nonneg.
Qed.

Lemma last_summary_nonneg (lines : list string) :
  forall acc n,
    (forall k, acc = Some k -> (0 <= k)%Z) ->
    fold_left (fun acc line =>
                 match summary_count line with Some n => Some n | None => acc end)
              lines acc = Some n ->
    (0 <= n)%Z.
Proof.
  induction lines as [|l lines IH]; intros acc n Hacc H; cbn [fold_left] in H.
  - now apply Hacc.
  - eapply IH; [|exact H]. intros k Hk.
    destruct (summary_count l) as [k'|] eqn:E.
    + inversion Hk; subst. now apply (summary_count_nonneg l).
    + now apply Hacc.
Qed.

Lemma header_nonneg (line : string) (n : string) (a t : Z) :
  header line = Some (n, a, t) -> (0 <= a)%Z /\ (0 <= t)%Z.
Proof.
  unfold header. destruct (rmatch unit_re line) as [m|]; [|discriminate].
  destruct (PyStr.int (group m 2)) as [a'|] eqn:Ea; [|discriminate].
  destruct (PyStr.int (group m 3)) as [t'|] eqn:Et; [|discriminate].
  inversion 1; subst. split; eapply int_nonneg; eauto.
Qed.

Lemma headers_nonneg (lines : list string) (n : string) (a t : Z) :
  In (n, a, t) (headers lines) -> (0 <= a)%Z /\ (0 <= t)%Z.
Proof.
  unfold headers. rewrite in_flat_map. intros (l & _ & Hin).
  destruct (header l) as [[[n' a'] t']|] eqn:E; [|contradiction].
  destruct Hin as [Hin|[]]. inversion Hin; subst.
  eapply header_nonneg; eauto.
Qed.

Lemma flow_clause_nonneg (line : string) (e w : Z) :
  flow_clause line = Some (e, w) -> (0 <= e)%Z /\ (0 <= w)%Z.
Proof.
  unfold flow_clause. destruct (search flow_re line) as [m|]; [|discriminate].
  destruct (PyStr.int (group m 1)) as [e'|] eqn:Ee; [|discriminate].
  destruct (PyStr.int (group m 2)) as [w'|] eqn:Ew; [|discriminate].
  inversion 1; subst. split; eapply int_nonneg; eauto.
Qed.

Lemma item_of_line_nonneg (line : string) (item : Item.t) :
  item_of_line line = Some item -> item_counts_nonneg item.
Proof.
  intros H. destruct (item_of_line_some _ _ H) as (_ & _ & item0 & E & ->).
  assert (H0 : item_counts_nonneg item0).
  { unfold new_item in E.
    destruct (rmatch gen_file_re line), (rmatch file_re line);
      inversion E; subst; cbv; repeat split; discriminate. }
  unfold built, item_counts_nonneg in *.
  destruct H0 as (H1 & H2 & H3 & H4).
  destruct (not_proved_clause line) as [[p c]|] eqn:En;
    [destruct (not_proved_clause_nonneg _ _ _ En)|];
    (destruct (proved_clause line) as [c0|] eqn:Ep;
     [pose proof (proved_clause_nonneg _ _ Ep)|]);
    (destruct (flow_clause line) as [[e w]|] eqn:Ef;
     [destruct (flow_clause_nonneg _ _ _ Ef)|]);
    cbn; auto.
Qed.

Lemma parse_last_summary (lines : list string) (r : Report.t) :
  parse_lines lines = Ok r ->
  Report.numUnitsAnalyzed r = last_summary lines.
Proof.
  intros H. apply parse_lines_loop in H.
  destruct H as (st & Hl & ->). cbn [Report.numUnitsAnalyzed].
  exact (loop_last_summary _ _ _ Hl).
Qed.

End TraceFacts.

(** X2: the items of a returned report are, in the order of the report,
    the items of the item lines of the input in the order of the lines,
    each as its own line made it (suppressions apart); so the report has
    as many items as the input has item lines. *)
Theorem items_follow_lines (content : string) (r : Report.t) :
  parse_gnatprove_report content = Ok r ->
  map without_suppressions (all_items (Report.units r)) =
    items_of_lines (PyStr.readlines content) /\
  length (all_items (Report.units r)) =
    length (filter item_line (PyStr.readlines content)).
Proof.
  intros H. apply TraceFacts.parse_lines_loop in H.
  destruct H as (st & Hl & ->). cbn [Report.units].
  destruct (Trace.loop_items_suppressions _ _ _ Hl) as [Hi _].
  cbn in Hi. split; [exact Hi|].
  rewrite <- (TraceFacts.items_of_lines_length _
                (Loop.loop_ok_converts _ _ _ Hl)), <- Hi.
  now rewrite length_map.
Qed.

Lemma items_follow_lines_witness :
  map without_suppressions [foo_bar; foo_baz] =
    items_of_lines (PyStr.readlines scenario_input) /\
  length [foo_bar; foo_baz] =
    length (filter item_line (PyStr.readlines scenario_input)).
Proof.
  apply (items_follow_lines scenario_input
           (Report.mk (Some 1%Z) [Unit.mk "Foo" 2 2 [foo_bar; foo_baz]])).
  vm_compute. reflexivity.
Defined.

(** X3: the suppressions of a returned report, read item after item, are
    the suppressions of the suppression lines of the input in the order of
    the lines: none is lost, none is added, none changes place. *)
Theorem suppressions_follow_lines (content : string) (r : Report.t) :
  parse_gnatprove_report content = Ok r ->
  all_suppressions (Report.units r) =
    suppressions_of_lines (PyStr.readlines content) /\
  length (all_suppressions (Report.units r)) =
    length (filter suppr_line (PyStr.readlines content)).
Proof.
  intros H. apply TraceFacts.parse_lines_loop in H.
  destruct H as (st & Hl & ->). cbn [Report.units].
  destruct (Trace.loop_items_suppressions _ _ _ Hl) as [_ Hs].
  cbn in Hs. split; [exact Hs|].
  now rewrite <- TraceFacts.suppressions_of_lines_length, <- Hs.
Qed.

Lemma suppressions_follow_lines_witness :
  all_suppressions
    [Unit.mk "Foo" 2 2
       [Item.add_suppression
          (Suppression.mk "foo.adb" "12" "5" "range check justified")
          foo_baz]] =
  suppressions_of_lines
    (PyStr.readlines
       (foo_header ++ "  Foo.Baz at foo.adb:20 proved (3 checks)" ++ nl ++
        suppr_only_line)%string).
Proof.
  apply (suppressions_follow_lines
           (foo_header ++ "  Foo.Baz at foo.adb:20 proved (3 checks)" ++ nl ++
            suppr_only_line)%string
           (Report.mk None
              [Unit.mk "Foo" 2 2
                 [Item.add_suppression
                    (Suppression.mk "foo.adb" "12" "5" "range check justified")
                    foo_baz]])).
  vm_compute. reflexivity.
Defined.

(** X4: the units saved when a part of the input has been read are found
    unchanged, and first, in the report of the whole input: what comes
    after a header line never touches the units before it. *)
Theorem saved_units_kept (content : string) (pre post : list string)
        (st : state) (r : Report.t) :
  PyStr.readlines content = pre ++ post ->
  loop pre init_state = Ok st ->
  parse_gnatprove_report content = Ok r ->
  exists more, Report.units r = Report.units (results st) ++ more.
Proof.
  intros Hc Hpre H. apply TraceFacts.parse_lines_loop in H.
  destruct H as (st' & Hl & ->). cbn [Report.units].
  rewrite Hc, Loop.loop_app, Hpre in Hl. cbn [bind] in Hl.
  destruct (Trace.loop_units_prefix _ _ _ Hl) as (more & Hm).
  unfold seal. rewrite Hm.
  destruct (currentUnit st') as [u|].
  - exists (more ++ [u]). now rewrite app_assoc.
  - eauto.
Qed.

Lemma saved_units_kept_witness :
  exists more,
    [Unit.mk "Foo" 2 2 [foo_bar; foo_baz]] ++
    [Unit.mk "Foo" 2 2
       [Item.mk "Foo.Qux" "foo.adb" "30" None None [] 0 0 2 2 true true]] =
    [Unit.mk "Foo" 2 2 [foo_bar; foo_baz]] ++ more.
Proof.
  refine (saved_units_kept
            (scenario_input ++ (foo_header ++ flow_and_proof_line))%string
            (PyStr.readlines scenario_input ++ [foo_header])
            [flow_and_proof_line]
            (mkState (Report.mk (Some 1%Z) [Unit.mk "Foo" 2 2 [foo_bar; foo_baz]])
                     (Some (Unit.mk "Foo" 2 2 [])))
            (Report.mk (Some 1%Z)
               ([Unit.mk "Foo" 2 2 [foo_bar; foo_baz]] ++
                [Unit.mk "Foo" 2 2
                   [Item.mk "Foo.Qux" "foo.adb" "30" None None [] 0 0 2 2
                            true true]]))
            _ _ _); vm_compute; reflexivity.
Defined.

(** X5: [numUnitsAnalyzed] of a returned report is the count of the last
    summary line of the input, and [None] when there is no such line. *)
Theorem summary_is_last_count (content : string) (r : Report.t) :
  parse_gnatprove_report content = Ok r ->
  Report.numUnitsAnalyzed r = last_summary (PyStr.readlines content).
Proof.
  apply TraceFacts.parse_last_summary.
Qed.

Lemma summary_is_last_count_witness :
  Some 7%Z =
  last_summary
    (PyStr.readlines ("Analyzed 3 units" ++ nl ++ "Analyzed 7 units" ++ nl)%string).
Proof.
  apply (summary_is_last_count
           ("Analyzed 3 units" ++ nl ++ "Analyzed 7 units" ++ nl)%string
           (Report.mk (Some 7%Z) [])).
  vm_compute. reflexivity.
Defined.

(** X6: no count of a returned report is negative: the count of the
    summary, the two counts of every unit, the four counts of every item. *)
Theorem counts_never_negative (content : string) (r : Report.t) :
  parse_gnatprove_report content = Ok r ->
  (forall n, Report.numUnitsAnalyzed r = Some n -> (0 <= n)%Z) /\
  (forall u,
      In u (Report.units r) ->
      (0 <= Unit.numAnalyzed u)%Z /\ (0 <= Unit.numTotal u)%Z /\
      forall item, In item (Unit.items u) -> item_counts_nonneg item).
Proof.
  intros H. split.
  - intros n Hn. rewrite (TraceFacts.parse_last_summary _ r H) in Hn.
    apply (TraceFacts.last_summary_nonneg (PyStr.readlines content) None n);
      [discriminate | exact Hn].
  - intros u Hu.
    assert (Hk : In (unit_key u) (headers (PyStr.readlines content))).
    { pose proof H as H'. apply TraceFacts.parse_lines_loop in H'.
      destruct H' as (st & Hl & ->). cbn [Report.units] in *.
      pose proof (Loop.loop_keys _ _ _ Hl) as K. cbn in K.
      rewrite <- K. now apply in_map. }
    destruct (TraceFacts.headers_nonneg _ _ _ _ Hk) as [Ha Ht].
    split; [exact Ha | split; [exact Ht|]].
    intros item Hi.
    apply (Items.parse_lines_items item_counts_nonneg (fun s i Hq => Hq)
             (PyStr.readlines content) r) with (u := u); auto.
    intros line it _. apply TraceFacts.item_of_line_nonneg.
Qed.

Lemma counts_never_negative_witness :
  (forall n, Some 1%Z = Some n -> (0 <= n)%Z) /\
  (forall u,
      In u [Unit.mk "Foo" 2 2 [foo_bar; foo_baz]] ->
      (0 <= Unit.numAnalyzed u)%Z /\ (0 <= Unit.numTotal u)%Z /\
      forall item, In item (Unit.items u) -> item_counts_nonneg item).
Proof.
  apply (counts_never_negative scenario_input
           (Report.mk (Some 1%Z) [Unit.mk "Foo" 2 2 [foo_bar; foo_baz]])).
  vm_compute. reflexivity.
Defined.

(* ------------------------------------------------------------------ *)
(** ** Where the loop stops *)

Module Stops.

Import Steps Loop.

(** A loop that raises has a first line at which it raises. *)
Lemma loop_raise (lines : list string) :
  forall st e,
    loop lines st = Raise e ->
    exists pre line post st',
      lines = pre ++ line :: post /\
      loop pre st = Ok st' /\
      step line st' = Raise e.
Proof.
  induction lines as [|l lines IH]; intros st e H; cbn [loop] in H.
  - discriminate.
  - destruct (step l st) as [st1|e1] eqn:E; cbn [bind] in H.
    + destruct (IH _ _ H) as (pre & line & post & st' & -> & Hp & Hs).
      exists (l :: pre), line, post, st'. repeat split; [|assumption].
      cbn [loop]. now rewrite E.
    + inversion H; subst e1.
      exists [], l, lines, st. repeat split. assumption.
Qed.

(** What a line and a context are when the line raises. *)
Lemma context_step_raise (line : string) (c : context) (e : exn) :
  context_step line c = Raise e ->
  match e with
  | ValueError => converts line = false
  | TypeError =>
      converts line = true /\ c = NoUnit /\ header_line line = false /\
      (item_line line = true \/ suppr_line line = true)
  | IndexError =>
      converts line = true /\ c = EmptyUnit /\ header_line line = false /\
      item_line line = false /\ suppr_line line = true
  | OverflowError | ZeroDivisionError => False
  end.
Proof.
  unfold context_step.
  pose proof (Shapes.header_excludes line) as Hh.
  destruct (converts line); [|now inversion 1].
  destruct (header_line line).
  - destruct Hh as (_ & -> & ->); [reflexivity|]. cbn. discriminate.
  - clear Hh.
    destruct (item_line line), (suppr_line line), c; cbn;
      inversion 1; subst; auto 6.
Qed.

End Stops.

(** X7: a report is returned exactly for the well-formed inputs.  When
    the parser raises, the loop has stopped at a first line, and the
    exception tells what this line is: [ValueError], [int] fails on a
    count that a test of the loop reads in the line; [TypeError], the
    counts convert, no unit is under construction, the line is no header
    line, and it is an item line or a suppression line; [IndexError], the
    counts convert, the unit under construction has no item, and the line
    is a suppression line that is neither a header line nor an item
    line.  The parser raises nothing else. *)
Theorem raises_iff_ill_formed (content : string) :
  match parse_gnatprove_report content with
  | Ok _ => well_formed (PyStr.readlines content) = true
  | Raise e =>
      well_formed (PyStr.readlines content) = false /\
      exists pre line post st,
        PyStr.readlines content = pre ++ line :: post /\
        loop pre init_state = Ok st /\
        step line st = Raise e /\
        match e with
        | ValueError => converts line = false
        | TypeError =>
            converts line = true /\ currentUnit st = None /\
            header_line line = false /\
            (item_line line = true \/ suppr_line line = true)
        | IndexError =>
            converts line = true /\
            (exists u, currentUnit st = Some u /\ Unit.items u = []) /\
            header_line line = false /\
            item_line line = false /\ suppr_line line = true
        | OverflowError | ZeroDivisionError => False
        end
  end.
Proof.
  unfold parse_gnatprove_report, parse_lines, well_formed.
  pose proof (Loop.loop_context (PyStr.readlines content) init_state) as H.
  change (context_of init_state) with NoUnit in H.
  destruct (loop (PyStr.readlines content) init_state) as [st|e] eqn:E;
    cbn [bind]; rewrite H; [reflexivity|].
  split; [reflexivity|].
  destruct (Stops.loop_raise _ _ _ E) as (pre & line & post & st & Hl & Hp & Hs).
  exists pre, line, post, st. do 3 (split; [assumption|]).
  pose proof (Loop.step_context line st) as Hc. rewrite Hs in Hc.
  apply Stops.context_step_raise in Hc.
  destruct e; try exact Hc.
  - destruct Hc as (H1 & H2 & H3 & H4). repeat split; try assumption.
    unfold context_of in H2. destruct (currentUnit st) as [u|]; [|reflexivity].
    destruct (Unit.items u); discriminate.
  - destruct Hc as (H1 & H2 & H3 & H4 & H5). repeat split; try assumption.
    unfold context_of in H2. destruct (currentUnit st) as [u|]; [|discriminate].
    exists u. split; [reflexivity|]. destruct (Unit.items u); [reflexivity|discriminate].
Qed.

(* ------------------------------------------------------------------ *)
(** ** Classification and totals *)

Module Totals.

Import ReFacts Steps Clauses.

(** When [int] converts the numbers of the clauses, a clause is found
    exactly when it gives its numbers. *)
Lemma found_clauses (line : string) :
  clauses_convert line = true ->
  found flow_re line = is_some (flow_clause line) /\
  found proved_re line = is_some (proved_clause line) /\
  found not_proved_re line = is_some (not_proved_clause line).
Proof.
  unfold clauses_convert, found, flow_clause, proved_clause, not_proved_clause.
  destruct (search flow_re line) as [m1|];
    [destruct (PyStr.int (group m1 1)), (PyStr.int (group m1 2))|];
    (destruct (search proved_re line) as [m2|];
     [destruct (PyStr.int (group m2 1))|]);
    (destruct (search not_proved_re line) as [m3|];
     [destruct (PyStr.int (group m3 1)), (PyStr.int (group m3 2))|]);
    cbn; intros H; try discriminate; auto.
Qed.

Lemma fold_totals (items : list Item.t) :
  forall a1 a2 a3 a4 a5,
    fold_left
      (fun '(flowErrors, flowWarnings, checks, provedChecks, suppressions) item =>
         ((flowErrors + Item.numFlowErrors item)%Z,
          (flowWarnings + Item.numFlowWarnings item)%Z,
          (checks + Item.numChecks item)%Z,
          (provedChecks + Item.numProvedChecks item)%Z,
          (suppressions + Z.of_nat (length (Item.suppressions item)))%Z))
      items (a1, a2, a3, a4, a5) =
    ((a1 + sum (map Item.numFlowErrors items))%Z,
     (a2 + sum (map Item.numFlowWarnings items))%Z,
     (a3 + sum (map Item.numChecks items))%Z,
     (a4 + sum (map Item.numProvedChecks items))%Z,
     (a5 + Z.of_nat (length (flat_map Item.suppressions items)))%Z).
Proof.
  induction items as [|i items IH]; intros a1 a2 a3 a4 a5.
  - cbn. now rewrite !Z.add_0_r.
  - cbn [fold_left]. rewrite IH. cbn [map sum fold_right flat_map].
    rewrite length_app, Nat2Z.inj_add.
    repeat match goal with |- (_, _) = (_, _) => f_equal end;
      unfold sum; lia.
Qed.

(** The totals of a unit are the sums over its items. *)
Lemma count_unit_totals_sums (u : Unit.t) :
  count_unit_totals u =
  (sum (map Item.numFlowErrors (Unit.items u)),
   sum (map Item.numFlowWarnings (Unit.items u)),
   sum (map Item.numChecks (Unit.items u)),
   sum (map Item.numProvedChecks (Unit.items u)),
   Z.of_nat (length (flat_map Item.suppressions (Unit.items u)))).
Proof. unfold count_unit_totals. now rewrite fold_totals. Qed.

Lemma sum_app (a b : list Z) : sum (a ++ b) = (sum a + sum b)%Z.
Proof.
  unfold sum. induction a as [|x a IH]; cbn; [reflexivity | rewrite IH; lia].
Qed.

Lemma sum_nonneg (f : Item.t -> Z) (items : list Item.t) :
  (forall i, In i items -> (0 <= f i)%Z) -> (0 <= sum (map f items))%Z.
Proof.
  induction items as [|i items IH]; intros H; cbn [map sum fold_right]; [lia|].
  pose proof (H i (or_introl eq_refl)).
  assert (0 <= sum (map f items))%Z by (apply IH; intros; apply H; now right).
  unfold sum in *. lia.
Qed.

Lemma sum_le (f g : Item.t -> Z) (items : list Item.t) :
  (forall i, In i items -> (f i <= g i)%Z) ->
  (sum (map f items) <= sum (map g items))%Z.
Proof.
  induction items as [|i items IH]; intros H; cbn [map sum fold_right]; [lia|].
  pose proof (H i (or_introl eq_refl)).
  assert (sum (map f items) <= sum (map g items))%Z
    by (apply IH; intros; apply H; now right).
  unfold sum in *. lia.
Qed.

Lemma suppression_totals (us : list Unit.t) :
  fold_right Z.add 0%Z (map (fun u => snd (count_unit_totals u)) us) =
  Z.of_nat (length (all_suppressions us)).
Proof.
  unfold all_suppressions, all_items.
  induction us as [|u us IH]; [reflexivity|].
  cbn [map fold_right flat_map]. rewrite IH.
  rewrite count_unit_totals_sums. cbn [snd].
  now rewrite flat_map_app, length_app, Nat2Z.inj_add.
Qed.

End Totals.

(** X8: the classification of an item is read off the clauses of its
    line: flow or not by the flow clause, proof or not by either proof
    clause; an item whose line says "not proved, P checks out of C proved"
    is classified as proof, like one whose line says "proved". *)
Theorem classification_of_line (line : string) (item : Item.t) :
  item_of_line line = Some item ->
  analysis_type item =
  match found flow_re line, found proved_re line || found not_proved_re line with
  | true, true => FlowAndProof
  | true, false => FlowOnly
  | false, true => ProofOnly
  | false, false => NotAnalyzed
  end.
Proof.
  intros H.
  destruct (Steps.item_of_line_some _ _ H) as (_ & Hc & item0 & E & ->).
  destruct (Clauses.new_item_fresh _ _ _ E) as (_ & _ & Hf & Hp & _).
  destruct (Totals.found_clauses _ Hc) as (-> & -> & ->).
  unfold analysis_type, built, is_some.
  destruct (not_proved_clause line) as [[p c]|],
           (proved_clause line) as [c0|],
           (flow_clause line) as [[e w]|]; cbn; rewrite ?Hf, ?Hp; reflexivity.
Qed.

Lemma classification_of_line_witness :
  analysis_type
    (Item.mk "Foo.Bad" "foo.adb" "40" None None [] 0 0 2 5 false true) =
  ProofOnly.
Proof.
  apply (classification_of_line inconsistent_line). vm_compute. reflexivity.
Defined.

(** X9: the totals of a unit add up over its items: a unit without items
    has all five totals zero, and the totals of a unit whose items are
    those of two units, one after the other, are the sums of theirs. *)
Theorem totals_additive (n1 n2 n : string) (a1 t1 a2 t2 a t : Z)
        (l1 l2 : list Item.t) :
  count_unit_totals (Unit.mk n a t []) = (0, 0, 0, 0, 0)%Z /\
  count_unit_totals (Unit.mk n a t (l1 ++ l2)) =
  totals_add (count_unit_totals (Unit.mk n1 a1 t1 l1))
             (count_unit_totals (Unit.mk n2 a2 t2 l2)).
Proof.
  split; [reflexivity|].
  rewrite !Totals.count_unit_totals_sums. cbn [Unit.items totals_add].
  rewrite !map_app, !Totals.sum_app, flat_map_app, length_app, Nat2Z.inj_add.
  reflexivity.
Qed.

(** X10: in a returned report the five totals of every unit are
    non-negative; when every "not proved" clause of the input has
    [P <= C], the proved checks of a unit do not exceed its checks. *)
Theorem unit_totals_bounds (content : string) (r : Report.t) (u : Unit.t) :
  parse_gnatprove_report content = Ok r ->
  In u (Report.units r) ->
  let '(flowErrors, flowWarnings, checks, provedChecks, suppressions) :=
    count_unit_totals u in
  (0 <= flowErrors /\ 0 <= flowWarnings /\ 0 <= checks /\
   0 <= provedChecks /\ 0 <= suppressions)%Z /\
  ((forall line p c,
       In line (PyStr.readlines content) ->
       not_proved_clause line = Some (p, c) -> (p <= c)%Z) ->
   (provedChecks <= checks)%Z).
Proof.
  intros H Hu. rewrite Totals.count_unit_totals_sums.
  assert (Hn : forall item, In item (Unit.items u) -> item_counts_nonneg item).
  { intros item Hi.
    apply (Items.parse_lines_items item_counts_nonneg (fun s i Hq => Hq)
             (PyStr.readlines content) r) with (u := u); auto.
    intros line it _. apply TraceFacts.item_of_line_nonneg. }
  split.
  - repeat apply conj; try apply Totals.sum_nonneg; try lia;
      intros i Hi; apply (Hn i Hi).
  - intros Hle. apply Totals.sum_le. intros i Hi.
    assert (Hq : (0 <= Item.numProvedChecks i <= Item.numChecks i)%Z).
    { apply (Items.parse_lines_items
               (fun item =>
                  (0 <= Item.numProvedChecks item <= Item.numChecks item)%Z)
               (fun s item Hq => Hq) (PyStr.readlines content) r)
        with (u := u); auto.
      intros line item Hin Hit.
      pose proof (Items.item_of_line_proof_fields line item Hit) as Hf.
      destruct (not_proved_clause line) as [[p c]|] eqn:En.
      - destruct Hf as (_ & -> & ->).
        destruct (Clauses.not_proved_clause_nonneg _ _ _ En).
        pose proof (Hle line p c Hin En). lia.
      - destruct (proved_clause line) as [c|] eqn:Ep.
        + destruct Hf as (_ & -> & ->).
          pose proof (Clauses.proved_clause_nonneg _ _ Ep). lia.
        + destruct Hf as (_ & -> & ->). lia. }
    lia.
Qed.

Lemma unit_totals_bounds_witness :
  (0 <= 0 /\ 0 <= 1 /\ 0 <= 3 /\ 0 <= 3 /\ 0 <= 0)%Z /\ (3 <= 3)%Z.
Proof.
  destruct (unit_totals_bounds scenario_input
              (Report.mk (Some 1%Z) [Unit.mk "Foo" 2 2 [foo_bar; foo_baz]])
              (Unit.mk "Foo" 2 2 [foo_bar; foo_baz])) as [H1 H2].
  - vm_compute. reflexivity.
  - left. reflexivity.
  - split; [exact H1|]. apply H2.
    intros line p c Hin. vm_compute in Hin.
    destruct Hin as [<-|[<-|[<-|[<-|[]]]]]; vm_compute; discriminate.
Defined.

(** X11: the suppression totals of the units of a returned report add
    up to the number of suppression lines of the input. *)
Theorem suppression_totals_count_lines (content : string) (r : Report.t) :
  parse_gnatprove_report content = Ok r ->
  fold_right Z.add 0%Z
    (map (fun u => snd (count_unit_totals u)) (Report.units r)) =
  Z.of_nat (length (filter suppr_line (PyStr.readlines content))).
Proof.
  intros H. apply TraceFacts.parse_lines_loop in H.
  destruct H as (st & Hl & ->). cbn [Report.units].
  destruct (Trace.loop_items_suppressions _ _ _ Hl) as [_ Hs]. cbn in Hs.
  rewrite <- TraceFacts.suppressions_of_lines_length, <- Hs.
  apply Totals.suppression_totals.
Qed.

Lemma suppression_totals_count_lines_witness :
  fold_right Z.add 0%Z
    (map (fun u => snd (count_unit_totals u))
         [Unit.mk "Foo" 2 2
            [Item.add_suppression
               (Suppression.mk "foo.adb" "12" "5" "range check justified")
               foo_baz]]) =
  Z.of_nat
    (length
       (filter suppr_line
          (PyStr.readlines
             (foo_header ++ "  Foo.Baz at foo.adb:20 proved (3 checks)" ++ nl ++
              suppr_only_line)%string))).
Proof.
  apply (suppression_totals_count_lines
           (foo_header ++ "  Foo.Baz at foo.adb:20 proved (3 checks)" ++ nl ++
            suppr_only_line)%string
           (Report.mk None
              [Unit.mk "Foo" 2 2
                 [Item.add_suppression
                    (Suppression.mk "foo.adb" "12" "5" "range check justified")
                    foo_baz]])).
  vm_compute. reflexivity.
Defined.


(** X12: for counts with [0 <= provedChecks <= checks], [to_percent]
    raises nothing: it is the integer 1 when there are no checks, and
    otherwise a float between 0 and 1. *)
Theorem to_percent_range (provedChecks checks : Z) :
  (0 <= provedChecks <= checks)%Z ->
  (checks = 0%Z /\ to_percent provedChecks checks = Ok (Xls.Int 1)) \/
  ((0 < checks)%Z /\
   exists f,
     to_percent provedChecks checks = Ok (Xls.Float f) /\
     in_unit_interval f).
Proof.
  intros H. unfold to_percent.
  destruct (Z.eqb_spec checks 0) as [->|Hne]; [left; auto|].
  right. split; [lia|].
  destruct (FloatFacts.truediv_unit provedChecks checks H) as (f & -> & Hf);
    [lia|].
  exists f. split; [reflexivity | exact Hf].
Qed.

Lemma to_percent_range_witness :
  exists f, to_percent 2 5 = Ok (Xls.Float f) /\ in_unit_interval f.
Proof.
  destruct (to_percent_range 2 5) as [[H _]|[_ H]]; [lia | discriminate H |].
  exact H.
Defined.

(** X19: in a report returned by the parser, when every "not proved"
    clause of the input has [P <= C], every ratio that the exporter asks
    of [to_percent] is given, and is a float between 0 and 1: the ratio
    of a unit that has checks, from its totals, and the ratio of an item
    that has checks. *)
Theorem ratios_in_range (content : string) (r : Report.t) :
  parse_gnatprove_report content = Ok r ->
  (forall line p c,
      In line (PyStr.readlines content) ->
      not_proved_clause line = Some (p, c) -> (p <= c)%Z) ->
  forall u,
    In u (Report.units r) ->
    (let '(flowErrors, flowWarnings, checks, provedChecks, suppressions) :=
       count_unit_totals u in
     (0 < checks)%Z ->
     exists f,
       to_percent provedChecks checks = Ok (Xls.Float f) /\
       in_unit_interval f) /\
    (forall item,
        In item (Unit.items u) ->
        (0 < Item.numChecks item)%Z ->
        exists f,
          to_percent (Item.numProvedChecks item) (Item.numChecks item) =
          Ok (Xls.Float f) /\
          in_unit_interval f).
Proof.
  intros H Hle u Hu.
  assert (Hq : forall item,
             In item (Unit.items u) ->
             (0 <= Item.numProvedChecks item <= Item.numChecks item)%Z).
  { intros item Hi.
    apply (Items.parse_lines_items
             (fun item =>
                (0 <= Item.numProvedChecks item <= Item.numChecks item)%Z)
             (fun s item Hq => Hq) (PyStr.readlines content) r)
      with (u := u); auto.
    intros line it Hin Hit.
    pose proof (Items.item_of_line_proof_fields line it Hit) as Hf.
    destruct (not_proved_clause line) as [[p c]|] eqn:En.
    - destruct Hf as (_ & -> & ->).
      destruct (Clauses.not_proved_clause_nonneg _ _ _ En).
      pose proof (Hle line p c Hin En). lia.
    - destruct (proved_clause line) as [c|] eqn:Ep.
      + destruct Hf as (_ & -> & ->).
        pose proof (Clauses.proved_clause_nonneg _ _ Ep). lia.
      + destruct Hf as (_ & -> & ->). lia. }
  assert (Hr : forall p c,
             (0 <= p <= c)%Z -> (0 < c)%Z ->
             exists f, to_percent p c = Ok (Xls.Float f) /\ in_unit_interval f).
  { intros p c Hpc Hc. unfold to_percent.
    destruct (Z.eqb_spec c 0); [lia|].
    destruct (FloatFacts.truediv_unit p c Hpc Hc) as (f & -> & Hf).
    exists f. split; [reflexivity | exact Hf]. }
  split.
  - rewrite Totals.count_unit_totals_sums. intros Hc. apply Hr; [|exact Hc].
    split.
    + apply Totals.sum_nonneg. intros i Hi. apply (Hq i Hi).
    + apply Totals.sum_le. intros i Hi. apply (Hq i Hi).
  - intros item Hi Hc. apply Hr; [|exact Hc]. apply (Hq item Hi).
Qed.

Lemma ratios_in_range_witness :
  exists f,
    to_percent (Item.numProvedChecks foo_baz) (Item.numChecks foo_baz) =
    Ok (Xls.Float f) /\
    in_unit_interval f.
Proof.
  refine (proj2 (ratios_in_range scenario_input scenario_result _ _
                   (Unit.mk "Foo" 2 2 [foo_bar; foo_baz]) _)
                foo_baz _ _).
  - vm_compute. reflexivity.
  - intros line p c Hin. vm_compute in Hin.
    destruct Hin as [<-|[<-|[<-|[<-|[]]]]]; vm_compute; discriminate.
  - left. reflexivity.
  - right. left. reflexivity.
  - reflexivity.
Defined.

(* ------------------------------------------------------------------ *)
(** ** The sheets *)

Module Sheets.

Local Open Scope nat_scope.

Lemma for_each_app {A : Type} (body : nat -> A -> Xls.sheet * nat)
      (l1 l2 : list A) :
  forall row,
    for_each body (l1 ++ l2) row =
    let (w1, r1) := for_each body l1 row in
    let (w2, r2) := for_each body l2 r1 in
    (w1 ++ w2, r2).
Proof.
  induction l1 as [|x l1 IH]; intros row; cbn [app for_each].
  - now destruct (for_each body l2 row).
  - destruct (body row x) as [ws row1]. rewrite IH.
    destruct (for_each body l1 row1) as [w1 r1].
    destruct (for_each body l2 r1) as [w2 r2].
    now rewrite app_assoc.
Qed.

(** Nested loops that share the counter are one loop over all the
    elements. *)
Lemma for_each_flat {A B : Type} (body : nat -> B -> Xls.sheet * nat)
      (f : A -> list B) (l : list A) :
  forall row,
    for_each (fun r x => for_each body (f x) r) l row =
    for_each body (flat_map f l) row.
Proof.
  induction l as [|x l IH]; intros row; cbn [for_each flat_map];
    [reflexivity|].
  rewrite for_each_app.
  destruct (for_each body (f x) row) as [w1 r1]. now rewrite IH.
Qed.

Lemma for_each_map {A B : Type} (body : nat -> B -> Xls.sheet * nat)
      (f : A -> B) (l : list A) :
  forall row,
    for_each body (map f l) row = for_each (fun r x => body r (f x)) l row.
Proof.
  induction l as [|x l IH]; intros row; cbn [for_each map]; [reflexivity|].
  destruct (body row (f x)) as [ws row1]. now rewrite IH.
Qed.

Lemma for_each_ext {A : Type} (b1 b2 : nat -> A -> Xls.sheet * nat)
      (l : list A) :
  (forall row x, b1 row x = b2 row x) ->
  forall row, for_each b1 l row = for_each b2 l row.
Proof.
  intros H. induction l as [|x l IH]; intros row; cbn [for_each];
    [reflexivity|].
  rewrite H. destruct (b2 row x) as [ws row1]. now rewrite IH.
Qed.

(** A loop that writes one row per element writes the rows from the
    first value of the counter on, one after the other. *)
Lemma for_each_rows {A : Type} (g : nat -> A -> Xls.sheet) (l : list A) :
  forall row,
    for_each (fun r x => (g r x, S r)) l row =
    (flat_map (fun '(i, x) => g i x) (combine (seq row (length l)) l),
     (row + length l)%nat).
Proof.
  induction l as [|x l IH]; intros row; cbn [for_each length seq combine flat_map].
  - now rewrite Nat.add_0_r.
  - rewrite IH. f_equal. lia.
Qed.

(** The same for the loops whose body may raise. *)
Lemma try_each_app {A : Type} (body : nat -> A -> result (Xls.sheet * nat))
      (l1 l2 : list A) :
  forall row,
    try_each body (l1 ++ l2) row =
    (r1 <- try_each body l1 row ;;
     r2 <- try_each body l2 (snd r1) ;;
     Ok (fst r1 ++ fst r2, snd r2)).
Proof.
  induction l1 as [|x l1 IH]; intros row; cbn [app try_each bind fst snd].
  - now destruct (try_each body l2 row) as [[w r]|e].
  - destruct (body row x) as [[ws row1]|e]; cbn [bind fst snd];
      [|reflexivity].
    rewrite IH.
    destruct (try_each body l1 row1) as [[w1 r1]|e]; cbn [bind fst snd];
      [|reflexivity].
    destruct (try_each body l2 r1) as [[w2 r2]|e]; cbn [bind fst snd];
      [|reflexivity].
    now rewrite app_assoc.
Qed.

Lemma try_each_flat {A B : Type} (body : nat -> B -> result (Xls.sheet * nat))
      (f : A -> list B) (l : list A) :
  forall row,
    try_each (fun r x => try_each body (f x) r) l row =
    try_each body (flat_map f l) row.
Proof.
  induction l as [|x l IH]; intros row; cbn [try_each flat_map];
    [reflexivity|].
  rewrite try_each_app.
  destruct (try_each body (f x) row) as [[w1 r1]|e]; cbn [bind fst snd];
    [|reflexivity].
  now rewrite IH.
Qed.

(** A loop that ends without an exception has written one row per
    element, and its body has raised for none of them. *)
Lemma try_each_rows {A : Type} (g : nat -> A -> result Xls.sheet)
      (l : list A) :
  forall row ws row',
    try_each (fun r x => ws <- g r x ;; Ok (ws, S r)) l row = Ok (ws, row') ->
    ws = flat_map (fun '(i, x) => written g i x)
                  (combine (seq row (length l)) l) /\
    row' = row + length l /\
    forall k x, nth_error l k = Some x -> exists w, g (row + k) x = Ok w.
Proof.
  induction l as [|a l IH]; intros row ws row' H; cbn [try_each] in H.
  - inversion H; subst. split; [reflexivity|]. split; [cbn; lia|].
    intros [|k] x; discriminate.
  - destruct (g row a) as [w1|e] eqn:E; cbn [bind fst snd] in H;
      [|discriminate].
    destruct (try_each _ l (S row)) as [[w2 r2]|e] eqn:E2;
      cbn [bind fst snd] in H; [|discriminate].
    inversion H; subst ws row'. clear H.
    destruct (IH _ _ _ E2) as (-> & -> & Hk).
    split; [|split].
    + cbn [length seq combine flat_map]. f_equal.
      unfold written. now rewrite E.
    + cbn [length]. lia.
    + intros [|k] x Hx; cbn [nth_error] in Hx.
      * inversion Hx; subst. rewrite Nat.add_0_r. eauto.
      * replace (row + S k) with (S row + k) by lia. now apply Hk.
Qed.

Lemma cells_at_app (a b : Xls.sheet) (r c : nat) :
  cells_at (a ++ b) r c = cells_at a r c ++ cells_at b r c.
Proof. unfold cells_at. now rewrite filter_app, map_app. Qed.

Lemma cells_at_other_row (s : Xls.sheet) (i r c : nat) :
  (forall w, In w s -> Xls.row w = i) -> i <> r -> cells_at s r c = [].
Proof.
  intros H Hne. unfold cells_at.
  induction s as [|w s IH]; [reflexivity|]. cbn [filter].
  rewrite (H w (or_introl eq_refl)).
  destruct (Nat.eqb_spec i r); [contradiction|]. cbn [andb].
  apply IH. intros w' Hw'. apply H. now right.
Qed.

(** The cell at row [r] comes from the element of rank [r - row]. *)
Lemma cells_at_rows {A : Type} (g : nat -> A -> Xls.sheet) :
  (forall i x w, In w (g i x) -> Xls.row w = i) ->
  forall (l : list A) (row r c : nat),
    cells_at (flat_map (fun '(i, x) => g i x)
                       (combine (seq row (length l)) l)) r c =
    if row <=? r then
      match nth_error l (r - row) with
      | Some x => cells_at (g r x) r c
      | None => []
      end
    else [].
Proof.
  intros Hg l. induction l as [|x l IH]; intros row r c.
  - cbn. destruct (row <=? r); [|reflexivity]. now destruct (r - row).
  - cbn [length seq combine flat_map]. rewrite cells_at_app, IH.
    destruct (Nat.eq_dec row r) as [->|Hne].
    + rewrite Nat.leb_refl, Nat.sub_diag. cbn [nth_error].
      destruct (Nat.leb_spec (S r) r); [lia|]. now rewrite app_nil_r.
    + rewrite (cells_at_other_row (g row x) row r c (Hg row x) Hne).
      cbn [app].
      destruct (Nat.leb_spec (S row) r), (Nat.leb_spec row r); try lia;
        [|reflexivity].
      replace (r - row) with (S (r - S row)) by lia. reflexivity.
Qed.

Lemma header_row_row (titles : list string) (w : Xls.cell) :
  In w (header_row titles) -> Xls.row w = 0.
Proof.
  unfold header_row. rewrite in_map_iff.
  intros ([c t] & <- & _). reflexivity.
Qed.

Lemma written_row {A : Type} (g : nat -> A -> result Xls.sheet) :
  (forall i x ws w, g i x = Ok ws -> In w ws -> Xls.row w = i) ->
  forall i x w, In w (written g i x) -> Xls.row w = i.
Proof.
  intros H i x w. unfold written.
  destruct (g i x) as [ws|e] eqn:E; [now apply (H i x ws) | contradiction].
Qed.

(** A sheet made of a header row and of the rows of a loop that ended
    without an exception: the row [0] is the header row, the row [S k]
    is what the body wrote for the element [k]. *)
Lemma sheet_cells {A : Type} (g : nat -> A -> result Xls.sheet)
      (titles : list string) (l : list A) (ws : Xls.sheet) (row' : nat) :
  (forall i x ws w, g i x = Ok ws -> In w ws -> Xls.row w = i) ->
  try_each (fun r x => ws <- g r x ;; Ok (ws, S r)) l 1 = Ok (ws, row') ->
  (forall c, cells_at (header_row titles ++ ws) 0 c =
             cells_at (header_row titles) 0 c) /\
  (forall k,
      match nth_error l k with
      | Some x =>
          exists w, g (S k) x = Ok w /\
                    forall c, cells_at (header_row titles ++ ws) (S k) c =
                              cells_at w (S k) c
      | None => forall c, cells_at (header_row titles ++ ws) (S k) c = []
      end).
Proof.
  intros Hg H. destruct (try_each_rows g l _ _ _ H) as (-> & _ & Hk).
  pose proof (written_row g Hg) as Hw.
  split.
  - intros c. rewrite cells_at_app, (cells_at_rows (written g) Hw).
    cbn [Nat.leb]. now rewrite app_nil_r.
  - intros k.
    assert (Hh : forall c, cells_at (header_row titles) (S k) c = []).
    { intros c. apply (cells_at_other_row _ 0); [|discriminate].
      intros w. apply header_row_row. }
    destruct (nth_error l k) as [x|] eqn:E.
    + destruct (Hk k x E) as (w & Ew). cbn [Nat.add] in Ew.
      exists w. split; [exact Ew|]. intros c.
      rewrite cells_at_app, Hh, (cells_at_rows (written g) Hw).
      cbn [Nat.leb app]. replace (S k - 1) with k by lia. rewrite E.
      unfold written. now rewrite Ew.
    + intros c.
      rewrite cells_at_app, Hh, (cells_at_rows (written g) Hw).
      cbn [Nat.leb app]. replace (S k - 1) with k by lia. now rewrite E.
Qed.

End Sheets.

Module SheetCells.

Import Sheets.

Local Open Scope nat_scope.

Lemma cells_at_cons (r c c' : nat) (v : Xls.value) (s : Xls.style)
      (rest : Xls.sheet) :
  cells_at (Xls.mk r c' v s :: rest) r c =
  (if c' =? c then [(v, s)] else []) ++ cells_at rest r c.
Proof.
  unfold cells_at. cbn [filter Xls.row Xls.col]. rewrite Nat.eqb_refl.
  cbn [andb]. now destruct (c' =? c).
Qed.

Lemma cells_at_nil (r c : nat) : cells_at [] r c = [].
Proof. reflexivity. Qed.

Ltac row_cells :=
  cbn [app]; repeat rewrite cells_at_cons; rewrite ?cells_at_nil;
  cbn [Nat.eqb app].

(** The calls of the body of the 'Summary' loop, when it does not raise. *)
Lemma summary_row_ok (i : nat) (u : Unit.t) (ws : Xls.sheet) :
  summary_row i u = Ok ws ->
  let '(flowErrors, flowWarnings, checks, provedChecks, suppressions) :=
    count_unit_totals u in
  exists percent,
    (if (0 <? checks)%Z then
       exists ratio, to_percent provedChecks checks = Ok ratio /\
                     percent = [Xls.mk i 6 ratio Xls.Percent]
     else percent = []) /\
    ws =
    [Xls.mk i 0 (Xls.Str (Unit.name u)) Xls.Plain;
     Xls.mk i 1
       (Xls.Str (format_int (Unit.numAnalyzed u) ++ "/" ++
                 format_int (Unit.numTotal u))) Xls.Plain;
     Xls.mk i 2 (Xls.Int flowErrors) Xls.Plain;
     Xls.mk i 3 (Xls.Int flowWarnings) Xls.Plain;
     Xls.mk i 4 (Xls.Int checks) Xls.Plain;
     Xls.mk i 5 (Xls.Int provedChecks) Xls.Plain] ++
    percent ++ [Xls.mk i 7 (Xls.Int suppressions) Xls.Plain].
Proof.
  unfold summary_row.
  destruct (count_unit_totals u) as [[[[fe fw] ch] pc] su].
  destruct (0 <? ch)%Z.
  - destruct (to_percent pc ch) as [ratio|e]; cbn [bind]; [|discriminate].
    inversion 1. eexists. split; [eexists; split; reflexivity | reflexivity].
  - cbn [bind]. inversion 1. eexists. split; reflexivity.
Qed.

(** The calls of the body of the 'Details' loop, when it does not raise. *)
Lemma details_row_ok (i : nat) (item : Item.t) (ws : Xls.sheet) :
  details_row i item = Ok ws ->
  exists percent,
    (if Item.proved item && (0 <? Item.numChecks item)%Z then
       exists ratio,
         to_percent (Item.numProvedChecks item) (Item.numChecks item) =
         Ok ratio /\
         percent = [Xls.mk i 8 ratio Xls.Percent]
     else percent = []) /\
    ws =
    [Xls.mk i 0 (Xls.Str (Item.name item)) Xls.Plain;
     Xls.mk i 1 (Xls.Str (Item.fileName item)) Xls.Plain;
     Xls.mk i 2 (Xls.Str (Item.lineNumber item)) Xls.Plain;
     Xls.mk i 3 (Xls.Str (analysis_label (analysis_type item))) Xls.Plain] ++
    (if Item.flowAnalyzed item then
       [Xls.mk i 4 (Xls.Int (Item.numFlowErrors item)) Xls.Plain;
        Xls.mk i 5 (Xls.Int (Item.numFlowWarnings item)) Xls.Plain]
     else []) ++
    (if Item.proved item then
       [Xls.mk i 6 (Xls.Int (Item.numChecks item)) Xls.Plain;
        Xls.mk i 7 (Xls.Int (Item.numProvedChecks item)) Xls.Plain] ++
       percent
     else []).
Proof.
  unfold details_row.
  destruct (Item.proved item); cbn [andb].
  - destruct (0 <? Item.numChecks item)%Z.
    + destruct (to_percent _ _) as [ratio|e]; cbn [bind]; [|discriminate].
      inversion 1. eexists. split; [eexists; split; reflexivity | reflexivity].
    + cbn [bind]. inversion 1. eexists. split; reflexivity.
  - cbn [bind]. inversion 1. exists []. split; reflexivity.
Qed.

Lemma summary_row_row (i : nat) (u : Unit.t) (ws : Xls.sheet) (w : Xls.cell) :
  summary_row i u = Ok ws -> In w ws -> Xls.row w = i.
Proof.
  intros H. apply summary_row_ok in H.
  destruct (count_unit_totals u) as [[[[fe fw] ch] pc] su].
  destruct H as (percent & Hp & ->).
  destruct (0 <? ch)%Z; [destruct Hp as (ratio & _ & ->) | subst percent];
    cbn; intuition (subst; reflexivity).
Qed.

Lemma details_row_row (i : nat) (item : Item.t) (ws : Xls.sheet)
      (w : Xls.cell) :
  details_row i item = Ok ws -> In w ws -> Xls.row w = i.
Proof.
  intros H. apply details_row_ok in H. destruct H as (percent & Hp & ->).
  destruct (Item.flowAnalyzed item), (Item.proved item),
    (0 <? Item.numChecks item)%Z; cbn [andb] in Hp;
    try destruct Hp as (ratio & _ & ->); subst;
    cbn; intuition (subst; reflexivity).
Qed.

Lemma suppr_row_row (i : nat) (item : Item.t) (s : Suppression.t)
      (w : Xls.cell) :
  In w (suppr_row i item s) -> Xls.row w = i.
Proof. unfold suppr_row; cbn; intuition (subst; reflexivity). Qed.

(** The first two sheets, row by row, when they are written without an
    exception. *)
Lemma summary_cells (results : Report.t) (sheet : Xls.sheet) :
  summary_sheet results = Ok sheet ->
  (forall c,
      cells_at sheet 0 c =
      cells_at (header_row ["Unit Name"; "Analyzed"; "Flow Errors";
                            "Flow Warnings"; "Checks"; "Proved Checks";
                            "% Proved"; "Suppressions"]%string) 0 c) /\
  (forall k,
      match nth_error (Report.units results) k with
      | Some u =>
          exists w, summary_row (S k) u = Ok w /\
                    forall c, cells_at sheet (S k) c = cells_at w (S k) c
      | None => forall c, cells_at sheet (S k) c = []
      end).
Proof.
  unfold summary_sheet.
  destruct (try_each _ (Report.units results) 1) as [[ws row']|e] eqn:E;
    cbn [bind fst]; [|discriminate].
  intros H.
  apply (f_equal (fun r => match r with Ok s => s | Raise _ => [] end)) in H.
  cbv beta iota in H. subst sheet.
  exact (sheet_cells summary_row _ _ _ _ summary_row_row E).
Qed.

Lemma details_cells (results : Report.t) (sheet : Xls.sheet) :
  details_sheet results = Ok sheet ->
  (forall c,
      cells_at sheet 0 c =
      cells_at (header_row ["Name"; "File"; "Line"; "Analysis";
                            "Flow Warnings"; "Flow Errors"; "Checks";
                            "Proved Checks"; "% Proved"]%string) 0 c) /\
  (forall k,
      match nth_error (all_items (Report.units results)) k with
      | Some item =>
          exists w, details_row (S k) item = Ok w /\
                    forall c, cells_at sheet (S k) c = cells_at w (S k) c
      | None => forall c, cells_at sheet (S k) c = []
      end).
Proof.
  unfold details_sheet.
  rewrite (try_each_flat
             (fun row item => ws <- details_row row item ;; Ok (ws, S row))
             Unit.items).
  fold (all_items (Report.units results)).
  destruct (try_each _ (all_items (Report.units results)) 1)
    as [[ws row']|e] eqn:E; cbn [bind fst]; [|discriminate].
  intros H.
  apply (f_equal (fun r => match r with Ok s => s | Raise _ => [] end)) in H.
  cbv beta iota in H. subst sheet.
  exact (sheet_cells details_row _ _ _ _ details_row_row E).
Qed.

(** The third sheet, row by row. *)
Lemma suppressed_sheet_rows (results : Report.t) :
  suppressed_sheet results =
  header_row ["Name"; "File"; "Line"; "Column"; "Reason"]%string ++
  flat_map (fun '(i, p) => suppr_row i (fst p) (snd p))
           (combine (seq 1 (length (suppression_rows (Report.units results))))
                    (suppression_rows (Report.units results))).
Proof.
  unfold suppressed_sheet, suppression_rows.
  rewrite (for_each_flat
             (fun row item =>
                for_each (fun row suppr => (suppr_row row item suppr, S row))
                         (Item.suppressions item) row)
             Unit.items).
  fold (all_items (Report.units results)).
  rewrite (for_each_ext _
             (fun row item =>
                for_each (fun r p => (suppr_row r (fst p) (snd p), S r))
                         (map (pair item) (Item.suppressions item)) row)).
  - rewrite (for_each_flat
               (fun r p => (suppr_row r (fst p) (snd p), S r))
               (fun item => map (pair item) (Item.suppressions item))).
    now rewrite for_each_rows.
  - intros row item. now rewrite for_each_map.
Qed.

Lemma header_no_data (titles : list string) (k c : nat) :
  cells_at (header_row titles) (S k) c = [].
Proof.
  apply (cells_at_other_row _ 0); [|discriminate].
  intros w. apply header_row_row.
Qed.

Lemma data_no_header {A : Type} (g : nat -> A -> Xls.sheet) (l : list A)
      (c : nat) :
  (forall i x w, In w (g i x) -> Xls.row w = i) ->
  cells_at (flat_map (fun '(i, x) => g i x) (combine (seq 1 (length l)) l))
           0 c = [].
Proof. intros H. now rewrite (cells_at_rows g H). Qed.

Lemma data_row {A : Type} (g : nat -> A -> Xls.sheet) (l : list A)
      (k c : nat) :
  (forall i x w, In w (g i x) -> Xls.row w = i) ->
  cells_at (flat_map (fun '(i, x) => g i x) (combine (seq 1 (length l)) l))
           (S k) c =
  match nth_error l k with
  | Some x => cells_at (g (S k) x) (S k) c
  | None => []
  end.
Proof.
  intros H. rewrite (cells_at_rows g H). cbn [Nat.leb].
  now replace (S k - 1) with k by lia.
Qed.

Lemma suppressed_cells (results : Report.t) (k c : nat) :
  cells_at (suppressed_sheet results) (S k) c =
  match nth_error (suppression_rows (Report.units results)) k with
  | Some p => cells_at (suppr_row (S k) (fst p) (snd p)) (S k) c
  | None => []
  end.
Proof.
  rewrite suppressed_sheet_rows, cells_at_app, header_no_data.
  apply (data_row (fun i p => suppr_row i (fst p) (snd p))).
  intros i p w. apply suppr_row_row.
Qed.

Lemma summary_row_single (i c : nat) (u : Unit.t) (ws : Xls.sheet) :
  summary_row i u = Ok ws -> length (cells_at ws i c) <= 1.
Proof.
  intros H. apply summary_row_ok in H.
  destruct (count_unit_totals u) as [[[[fe fw] ch] pc] su].
  destruct H as (percent & Hp & ->).
  destruct (0 <? ch)%Z; [destruct Hp as (ratio & _ & ->) | subst percent];
    row_cells; destruct c as [|[|[|[|[|[|[|[|c]]]]]]]]; cbn; lia.
Qed.

Lemma details_row_single (i c : nat) (item : Item.t) (ws : Xls.sheet) :
  details_row i item = Ok ws -> length (cells_at ws i c) <= 1.
Proof.
  intros H. apply details_row_ok in H. destruct H as (percent & Hp & ->).
  destruct (Item.flowAnalyzed item), (Item.proved item),
    (0 <? Item.numChecks item)%Z; cbn [andb] in Hp;
    try destruct Hp as (ratio & _ & ->); subst;
    row_cells; destruct c as [|[|[|[|[|[|[|[|[|c]]]]]]]]]; cbn; lia.
Qed.

Lemma suppr_row_single (i c : nat) (item : Item.t) (s : Suppression.t) :
  length (cells_at (suppr_row i item s) i c) <= 1.
Proof.
  unfold suppr_row. row_cells.
  destruct c as [|[|[|[|[|c]]]]]; cbn; lia.
Qed.

Lemma suppression_rows_length (us : list Unit.t) :
  length (suppression_rows us) = length (all_suppressions us).
Proof.
  unfold suppression_rows, all_suppressions.
  induction (all_items us) as [|item l IH]; [reflexivity|].
  cbn [flat_map]. now rewrite !length_app, length_map, IH.
Qed.

End SheetCells.

(** X13: when the 'Summary' sheet is written without an exception, the
    row after the header row and the [k] rows that follow it holds unit
    [k] of the report and nothing else: its name, "analyzed/total", and
    its five totals; when the unit has checks, [to_percent] has returned
    a value and the '% Proved' cell holds it; when it has none, the cell
    is not written; beyond the units the rows are empty. *)
Theorem summary_rows (results : Report.t) (sheet : Xls.sheet) (k : nat) :
  summary_sheet results = Ok sheet ->
  match nth_error (Report.units results) k with
  | Some u =>
      let '(flowErrors, flowWarnings, checks, provedChecks, suppressions) :=
        count_unit_totals u in
      cells_at sheet (S k) 0 = [(Xls.Str (Unit.name u), Xls.Plain)] /\
      cells_at sheet (S k) 1 =
        [(Xls.Str (format_int (Unit.numAnalyzed u) ++ "/" ++
                   format_int (Unit.numTotal u)), Xls.Plain)] /\
      cells_at sheet (S k) 2 = [(Xls.Int flowErrors, Xls.Plain)] /\
      cells_at sheet (S k) 3 = [(Xls.Int flowWarnings, Xls.Plain)] /\
      cells_at sheet (S k) 4 = [(Xls.Int checks, Xls.Plain)] /\
      cells_at sheet (S k) 5 = [(Xls.Int provedChecks, Xls.Plain)] /\
      (if (0 <? checks)%Z then
         exists ratio,
           to_percent provedChecks checks = Ok ratio /\
           cells_at sheet (S k) 6 = [(ratio, Xls.Percent)]
       else cells_at sheet (S k) 6 = []) /\
      cells_at sheet (S k) 7 = [(Xls.Int suppressions, Xls.Plain)]
  | None => forall c, cells_at sheet (S k) c = []
  end.
Proof.
  intros Hs. destruct (SheetCells.summary_cells results sheet Hs) as [_ H].
  specialize (H k).
  destruct (nth_error (Report.units results) k) as [u|]; [|exact H].
  destruct H as (w & Hw & H). apply SheetCells.summary_row_ok in Hw.
  destruct (count_unit_totals u) as [[[[fe fw] ch] pc] su].
  destruct Hw as (percent & Hp & ->). rewrite !H.
  destruct (0 <? ch)%Z.
  - destruct Hp as (ratio & Hr & ->). SheetCells.row_cells.
    do 6 (split; [reflexivity|]). split; [|reflexivity].
    exists ratio. split; [exact Hr | reflexivity].
  - subst percent. SheetCells.row_cells.
    do 7 (split; [reflexivity|]). reflexivity.
Qed.

Lemma summary_rows_witness :
  cells_at scenario_summary 1 0 = [(Xls.Str "Foo", Xls.Plain)] /\
  exists ratio,
    to_percent 3 3 = Ok ratio /\
    cells_at scenario_summary 1 6 = [(ratio, Xls.Percent)].
Proof.
  assert (H : summary_sheet scenario_result = Ok scenario_summary)
    by (vm_compute; reflexivity).
  pose proof (summary_rows scenario_result scenario_summary 0 H) as T.
  split.
  - exact (proj1 T).
  - exact (proj1 (proj2 (proj2 (proj2 (proj2 (proj2 (proj2 T))))))).
Defined.

(** X14: no cell of a saved workbook is written twice: on each of the
    three sheets the calls to [write] go to pairwise different cells. *)
Theorem no_cell_written_twice (results : Report.t) (wb : Xls.workbook)
        (name : string) (sheet : Xls.sheet) (r c : nat) :
  save_results results = Ok wb ->
  In (name, sheet) wb ->
  (length (cells_at sheet r c) <= 1)%nat.
Proof.
  unfold save_results.
  destruct (summary_sheet results) as [s|e] eqn:Es; cbn [bind]; [|discriminate].
  destruct (details_sheet results) as [d|e] eqn:Ed; cbn [bind]; [|discriminate].
  intros Hwb.
  apply (f_equal (fun r => match r with Ok s => s | Raise _ => [] end)) in Hwb.
  cbv beta iota in Hwb. subst wb.
  destruct (SheetCells.summary_cells _ _ Es) as [Hs0 Hs].
  destruct (SheetCells.details_cells _ _ Ed) as [Hd0 Hd].
  intros [H|[H|[H|[]]]]; inversion H; subst name sheet; clear H;
    destruct r as [|k].
  - rewrite Hs0. cbn [header_row length seq combine map].
    SheetCells.row_cells.
    destruct c as [|[|[|[|[|[|[|[|c]]]]]]]]; cbn; lia.
  - specialize (Hs k). destruct (nth_error _ k).
    + destruct Hs as (w & Hw & ->). exact (SheetCells.summary_row_single _ _ _ _ Hw).
    + rewrite Hs. cbn; lia.
  - rewrite Hd0. cbn [header_row length seq combine map].
    SheetCells.row_cells.
    destruct c as [|[|[|[|[|[|[|[|[|c]]]]]]]]]; cbn; lia.
  - specialize (Hd k). destruct (nth_error _ k).
    + destruct Hd as (w & Hw & ->). exact (SheetCells.details_row_single _ _ _ _ Hw).
    + rewrite Hd. cbn; lia.
  - rewrite SheetCells.suppressed_sheet_rows, Sheets.cells_at_app.
    rewrite (SheetCells.data_no_header
               (fun i p => suppr_row i (fst p) (snd p)) _ c
               (fun i p w => SheetCells.suppr_row_row i (fst p) (snd p) w)).
    rewrite app_nil_r. cbn [header_row length seq combine map].
    SheetCells.row_cells.
    destruct c as [|[|[|[|[|c]]]]]; cbn; lia.
  - rewrite SheetCells.suppressed_cells.
    destruct (nth_error _ k); [apply SheetCells.suppr_row_single | cbn; lia].
Qed.

Lemma no_cell_written_twice_witness :
  (length (cells_at scenario_summary 1 6) <= 1)%nat.
Proof.
  apply (no_cell_written_twice
           scenario_result
           [("Summary"%string, scenario_summary);
            ("Details"%string, scenario_details);
            ("Suppressed Messages"%string, suppressed_sheet scenario_result)]
           "Summary").
  - vm_compute. reflexivity.
  - left. reflexivity.
Defined.

(** X15: when the 'Details' sheet is written without an exception, the
    row after the header row and the [k] rows that follow it holds item
    [k] of the report, counted through the units, and nothing else: name,
    file, line (as text), the label of its classification; the two flow
    counts only for a flow-analyzed item, the two proof counts only for a
    proved one; for a proved item that has checks, [to_percent] has
    returned a value and the '% Proved' cell holds it; otherwise this cell
    is not written.  Column 4, headed 'Flow Warnings', holds
    [numFlowErrors] and column 5, headed 'Flow Errors', holds
    [numFlowWarnings]. *)
Theorem details_rows (results : Report.t) (sheet : Xls.sheet) (k : nat) :
  details_sheet results = Ok sheet ->
  cells_at sheet 0 4 = [(Xls.Str "Flow Warnings", Xls.Bold)] /\
  cells_at sheet 0 5 = [(Xls.Str "Flow Errors", Xls.Bold)] /\
  match nth_error (all_items (Report.units results)) k with
  | Some item =>
      cells_at sheet (S k) 0 = [(Xls.Str (Item.name item), Xls.Plain)] /\
      cells_at sheet (S k) 1 = [(Xls.Str (Item.fileName item), Xls.Plain)] /\
      cells_at sheet (S k) 2 = [(Xls.Str (Item.lineNumber item), Xls.Plain)] /\
      cells_at sheet (S k) 3 =
        [(Xls.Str (analysis_label (analysis_type item)), Xls.Plain)] /\
      cells_at sheet (S k) 4 =
        (if Item.flowAnalyzed item
         then [(Xls.Int (Item.numFlowErrors item), Xls.Plain)] else []) /\
      cells_at sheet (S k) 5 =
        (if Item.flowAnalyzed item
         then [(Xls.Int (Item.numFlowWarnings item), Xls.Plain)] else []) /\
      cells_at sheet (S k) 6 =
        (if Item.proved item
         then [(Xls.Int (Item.numChecks item), Xls.Plain)] else []) /\
      cells_at sheet (S k) 7 =
        (if Item.proved item
         then [(Xls.Int (Item.numProvedChecks item), Xls.Plain)] else []) /\
      (if Item.proved item && (0 <? Item.numChecks item)%Z then
         exists ratio,
           to_percent (Item.numProvedChecks item) (Item.numChecks item) =
           Ok ratio /\
           cells_at sheet (S k) 8 = [(ratio, Xls.Percent)]
       else cells_at sheet (S k) 8 = [])
  | None => forall c, cells_at sheet (S k) c = []
  end.
Proof.
  intros Hs. destruct (SheetCells.details_cells results sheet Hs) as [H0 H].
  split; [now rewrite H0 | split; [now rewrite H0|]].
  specialize (H k).
  destruct (nth_error (all_items (Report.units results)) k) as [item|];
    [|exact H].
  destruct H as (w & Hw & H). apply SheetCells.details_row_ok in Hw.
  destruct Hw as (percent & Hp & ->). rewrite !H.
  destruct (Item.flowAnalyzed item), (Item.proved item),
    (0 <? Item.numChecks item)%Z; cbn [andb] in *;
    try destruct Hp as (ratio & Hr & ->); subst;
    SheetCells.row_cells; do 8 (split; [reflexivity|]);
    try reflexivity; (exists ratio; split; [exact Hr | reflexivity]).
Qed.

Lemma details_rows_witness :
  cells_at scenario_details 0 4 = [(Xls.Str "Flow Warnings", Xls.Bold)] /\
  cells_at scenario_details 1 4 = [(Xls.Int 0, Xls.Plain)] /\
  cells_at scenario_details 1 5 = [(Xls.Int 1, Xls.Plain)].
Proof.
  assert (H : details_sheet scenario_result = Ok scenario_details)
    by (vm_compute; reflexivity).
  pose proof (details_rows scenario_result scenario_details 0 H) as T.
  split; [exact (proj1 T)|].
  pose proof (proj2 (proj2 T)) as T'.
  split.
  - exact (proj1 (proj2 (proj2 (proj2 (proj2 T'))))).
  - exact (proj1 (proj2 (proj2 (proj2 (proj2 (proj2 T')))))).
Defined.

(** X16: in the 'Suppressed Messages' sheet the row after the header row
    and the [k] rows that follow it holds suppression [k] of the report,
    counted through the units and their items, with the name of the item
    that has it; beyond the suppressions the rows are empty. *)
Theorem suppressed_rows (results : Report.t) (k : nat) :
  match nth_error (suppression_rows (Report.units results)) k with
  | Some (item, suppr) =>
      cells_at (suppressed_sheet results) (S k) 0 =
        [(Xls.Str (Item.name item), Xls.Plain)] /\
      cells_at (suppressed_sheet results) (S k) 1 =
        [(Xls.Str (Suppression.fileName suppr), Xls.Plain)] /\
      cells_at (suppressed_sheet results) (S k) 2 =
        [(Xls.Str (Suppression.lineNumber suppr), Xls.Plain)] /\
      cells_at (suppressed_sheet results) (S k) 3 =
        [(Xls.Str (Suppression.column suppr), Xls.Plain)] /\
      cells_at (suppressed_sheet results) (S k) 4 =
        [(Xls.Str (Suppression.message suppr), Xls.Plain)]
  | None => forall c, cells_at (suppressed_sheet results) (S k) c = []
  end.
Proof.
  destruct (nth_error (suppression_rows (Report.units results)) k)
    as [[item suppr]|] eqn:E.
  - pose proof (fun c => SheetCells.suppressed_cells results k c) as H.
    rewrite E in H. rewrite !H. cbn [fst snd]. unfold suppr_row.
    SheetCells.row_cells. repeat split; reflexivity.
  - intros c. rewrite SheetCells.suppressed_cells. now rewrite E.
Qed.

(** X17: from the text to the sheets: for a report returned by the
    parser and sheets written without an exception, 'Summary' has as many
    rows under its header as the input has header lines, 'Details' as
    many as it has item lines, 'Suppressed Messages' as many as it has
    suppression lines. *)
Theorem rows_count_lines (content : string) (r : Report.t)
        (summary details : Xls.sheet) (k : nat) :
  parse_gnatprove_report content = Ok r ->
  summary_sheet r = Ok summary ->
  details_sheet r = Ok details ->
  (cells_at summary (S k) 0 = [] <->
   (length (filter header_line (PyStr.readlines content)) <= k)%nat) /\
  (cells_at details (S k) 0 = [] <->
   (length (filter item_line (PyStr.readlines content)) <= k)%nat) /\
  (cells_at (suppressed_sheet r) (S k) 0 = [] <->
   (length (filter suppr_line (PyStr.readlines content)) <= k)%nat).
Proof.
  intros H Hs Hd. apply TraceFacts.parse_lines_loop in H.
  destruct H as (st & Hl & ->).
  destruct (Trace.loop_items_suppressions _ _ _ Hl) as [Hi Hsu].
  pose proof (Loop.loop_keys _ _ _ Hl) as Hk. cbn in Hi, Hsu, Hk.
  pose proof (Loop.loop_ok_converts _ _ _ Hl) as Hc.
  rewrite <- (Loop.headers_length _ Hc), <- Hk, length_map.
  rewrite <- (TraceFacts.items_of_lines_length _ Hc), <- Hi, length_map.
  rewrite <- TraceFacts.suppressions_of_lines_length, <- Hsu.
  rewrite <- SheetCells.suppression_rows_length.
  rewrite <- !nth_error_None.
  destruct (SheetCells.summary_cells _ _ Hs) as [_ Hs'].
  destruct (SheetCells.details_cells _ _ Hd) as [_ Hd'].
  specialize (Hs' k). specialize (Hd' k).
  rewrite SheetCells.suppressed_cells.
  cbn [Report.units] in *.
  split; [|split].
  - destruct (nth_error (seal st) k) as [u|]; [|split; auto].
    destruct Hs' as (w & Hw & ->). apply SheetCells.summary_row_ok in Hw.
    destruct (count_unit_totals u) as [[[[fe fw] ch] pc] su].
    destruct Hw as (percent & _ & ->).
    SheetCells.row_cells. split; discriminate.
  - destruct (nth_error (all_items (seal st)) k) as [item|]; [|split; auto].
    destruct Hd' as (w & Hw & ->). apply SheetCells.details_row_ok in Hw.
    destruct Hw as (percent & _ & ->).
    SheetCells.row_cells. split; discriminate.
  - destruct (nth_error (suppression_rows (seal st)) k) as [p|]; [|tauto].
    unfold suppr_row. SheetCells.row_cells. split; discriminate.
Qed.

Lemma rows_count_lines_witness :
  cells_at scenario_details 3 0 = [] <->
  (length (filter item_line (PyStr.readlines scenario_input)) <= 2)%nat.
Proof.
  apply (rows_count_lines scenario_input scenario_result
           scenario_summary scenario_details 2);
    vm_compute; reflexivity.
Defined.

(* ------------------------------------------------------------------ *)
(** ** The message of a suppression *)

Module Strip.

Lemma lstrip_first (s : string) : not_space (first_char (PyStr.lstrip s)).
Proof.
  induction s as [|c s IH]; cbn [PyStr.lstrip]; [exact I|].
  destruct (PyStr.is_space c) eqn:E; [exact IH | exact E].
Qed.

Lemma rstrip_cons (c : ascii) (s : string) :
  PyStr.is_space c = false ->
  exists r, PyStr.rstrip (String c s) = String c r.
Proof.
  intros E. cbn [PyStr.rstrip]. rewrite E.
  destruct (PyStr.rstrip s); eauto.
Qed.

Lemma rstrip_last (s : string) : not_space (last_char (PyStr.rstrip s)).
Proof.
  induction s as [|c s IH]; cbn [PyStr.rstrip]; [exact I|].
  destruct (PyStr.rstrip s) as [|d r].
  - destruct (PyStr.is_space c) eqn:E; [exact I | exact E].
  - exact IH.
Qed.

Lemma strip_trimmed (s : string) : trimmed (PyStr.strip s).
Proof.
  unfold trimmed, PyStr.strip. split; [|apply rstrip_last].
  pose proof (lstrip_first s) as H.
  destruct (PyStr.lstrip s) as [|c t]; [exact I|].
  cbn in H. destruct (rstrip_cons c t H) as (r & ->). exact H.
Qed.

End Strip.

(** X18: the message of every suppression of a returned report neither
    starts nor ends with white space (it may be empty). *)
Theorem messages_trimmed (content : string) (r : Report.t)
        (suppr : Suppression.t) :
  parse_gnatprove_report content = Ok r ->
  In suppr (all_suppressions (Report.units r)) ->
  trimmed (Suppression.message suppr).
Proof.
  intros H Hin. apply TraceFacts.parse_lines_loop in H.
  destruct H as (st & Hl & ->). cbn [Report.units] in Hin.
  destruct (Trace.loop_items_suppressions _ _ _ Hl) as [_ Hs].
  cbn in Hs. rewrite Hs in Hin.
  unfold suppressions_of_lines in Hin. apply in_flat_map in Hin.
  destruct Hin as (line & _ & Hin). unfold suppression_of_line in Hin.
  destruct (rmatch suppr_msg_re line) as [m|]; [|contradiction].
  destruct Hin as [<-|[]]. apply Strip.strip_trimmed.
Qed.

Lemma messages_trimmed_witness :
  trimmed "range check justified".
Proof.
  apply (messages_trimmed
           (foo_header ++ "  Foo.Baz at foo.adb:20 proved (3 checks)" ++ nl ++
            "    foo.adb:12:5:   range check justified  " ++ nl)%string
           (Report.mk None
              [Unit.mk "Foo" 2 2
                 [Item.add_suppression
                    (Suppression.mk "foo.adb" "12" "5" "range check justified")
                    foo_baz]])
           (Suppression.mk "foo.adb" "12" "5" "range check justified")).
  - vm_compute. reflexivity.
  - left. reflexivity.
Defined.
